(** * MIMIC-IV waveform metadata extraction: a shallow embedding

    The development follows [mimic-iv-waveforms/extract_metadata.py] and
    [mimic-iv-waveforms/update_records.py].

    Conventions of the embedding.
    - Python [str] values are [string]s; the model covers ASCII text, which
      is what WFDB headers, signal labels and directory names consist of.
      Characters above 127 are kept unchanged by [upper]/[lower] and belong
      to no character class.
    - Python [float]s are IEEE 754 binary64 values, in the representation
      of the Standard Library's [SpecFloat]; a quotient is rounded to the
      nearest such value, ties to even, as the interpreter does.
    - Dates are formatted as CPython does on Linux, where the C library
      writes a year below 1000 without leading zeros.
    - A Python exception is the [None] outcome of a computation; writes to
      the CSV tables that happened before it are kept, as in the program. *)

From Stdlib Require Import ZArith List Bool Ascii String Lia Sorted.
From Stdlib Require Import SpecFloat.
Import ListNotations.

Local Open Scope string_scope.
Local Open Scope Z_scope.
#[local] Set Warnings "-register-all".

(** ** Python string primitives *)

Module PyStr.

Definition code (c : ascii) : N := N_of_ascii c.

Definition is_upper_letter (c : ascii) : bool :=
  ((65 <=? code c) && (code c <=? 90))%N.

Definition is_lower_letter (c : ascii) : bool :=
  ((97 <=? code c) && (code c <=? 122))%N.

(** [\d] restricted to ASCII. *)
Definition is_digit (c : ascii) : bool :=
  ((48 <=? code c) && (code c <=? 57))%N.

(** [\s] of a [str] pattern restricted to ASCII: tab, newline, vertical
    tab, form feed, carriage return, the four separators 28..31, space. *)
Definition is_space (c : ascii) : bool :=
  (((9 <=? code c) && (code c <=? 13))
   || ((28 <=? code c) && (code c <=? 32)))%N.

Definition upper_char (c : ascii) : ascii :=
  if is_lower_letter c then ascii_of_N (code c - 32) else c.

Definition lower_char (c : ascii) : ascii :=
  if is_upper_letter c then ascii_of_N (code c + 32) else c.

Fixpoint map_chars (f : ascii -> ascii) (s : string) : string :=
  match s with
  | EmptyString => EmptyString
  | String c s' => String (f c) (map_chars f s')
  end.

(** [s.upper()] and [s.lower()]. *)
Definition upper : string -> string := map_chars upper_char.
Definition lower : string -> string := map_chars lower_char.

(** [s.startswith(p)]. *)
Definition startswith (s p : string) : bool := prefix p s.

(** [sub in s]. *)
Fixpoint contains (sub s : string) : bool :=
  prefix sub s ||
  match s with
  | EmptyString => false
  | String _ s' => contains sub s'
  end.

(** [s.endswith(p)]. *)
Fixpoint endswith (s p : string) : bool :=
  (s =? p)%string ||
  match s with
  | EmptyString => false
  | String _ s' => endswith s' p
  end.

(** [s[1:]]. *)
Definition drop1 (s : string) : string :=
  match s with
  | EmptyString => EmptyString
  | String _ s' => s'
  end.

(** Truth value of a string: non-empty. *)
Definition truthy (s : string) : bool :=
  match s with EmptyString => false | _ => true end.

(** Longest prefix of [s] whose characters satisfy [p], and the rest. *)
Fixpoint span (p : ascii -> bool) (s : string) : string * string :=
  match s with
  | EmptyString => (EmptyString, EmptyString)
  | String c s' =>
      if p c then let (a, b) := span p s' in (String c a, b)
      else (EmptyString, s)
  end.

End PyStr.

(** ** [float] *)

Module PyFloat.

Definition prec : Z := 53.
Definition emax : Z := 1024.

(** A Python [float]: zero, infinity, NaN, or [(-1)^s * m * 2^e].  The
    floats of a program are the values in canonical form ([valid_binary]);
    every operation below rounds its exact result into that form. *)
Definition float : Type := spec_float.

Definition nan : float := S754_nan.

Definition is_nan (x : float) : bool :=
  match x with S754_nan => true | _ => false end.

Definition is_zero (x : float) : bool :=
  match x with S754_zero _ => true | _ => false end.

(** Truth value of a float: not zero; NaN is true. *)
Definition truthy (x : float) : bool := negb (is_zero x).

(** [x > 0]; false for NaN. *)
Definition gt_zero (x : float) : bool := SFltb (S754_zero false) x.

(** [float(n)] for an int: the nearest float, ties to even; [None] stands
    for the [OverflowError] of an int too large. *)
Definition of_int (n : Z) : option float :=
  match binary_normalize prec emax n 0 false with
  | S754_infinity _ => None
  | x => Some x
  end.

(** [a / b] for two ints: the float nearest to the exact quotient; [None]
    stands for [ZeroDivisionError] and for the [OverflowError] of a
    quotient too large. *)
Definition truediv_int (a b : Z) : option float :=
  match b, a with
  | 0, _ => None
  | _, 0 => Some (S754_zero (b <? 0))
  | _, _ =>
      match SFdiv prec emax
              (S754_finite (a <? 0) (Z.to_pos (Z.abs a)) 0)
              (S754_finite (b <? 0) (Z.to_pos (Z.abs b)) 0) with
      | S754_infinity _ => None
      | x => Some x
      end
  end.

(** [x / y] for two floats; [None] stands for [ZeroDivisionError].  A
    quotient too large is an infinity, not an exception. *)
Definition div (x y : float) : option float :=
  if is_zero y then None else Some (SFdiv prec emax x y).

Definition mul (x y : float) : float := SFmul prec emax x y.

(** [int(x)]: truncation toward zero; [None] stands for the
    [OverflowError] of an infinity and the [ValueError] of NaN. *)
Definition to_int (x : float) : option Z :=
  match x with
  | S754_zero _ => Some 0
  | S754_finite s m e => Some (cond_Zopp s (Z.shiftl (Z.pos m) e))
  | _ => None
  end.

(** The fractional part that C's [modf] returns: [x] minus its integral
    part, with the sign of [x]. *)
Definition frac (x : float) : float :=
  match x with
  | S754_finite s m (Zneg p) =>
      binary_normalize prec emax
        (cond_Zopp s (Z.pos m mod 2 ^ Z.pos p)) (Zneg p) s
  | S754_finite s _ _ => S754_zero s
  | _ => x
  end.

(** The integer nearest to a finite float, ties to even. *)
Definition round_half_even (x : float) : option Z :=
  match x with
  | S754_zero _ => Some 0
  | S754_finite s m (Zneg p) =>
      let n := cond_Zopp s (Z.pos m) in
      let d := 2 ^ Z.pos p in
      let fl := n / d in
      let r := n mod d in
      Some (if 2 * r <? d then fl
            else if d <? 2 * r then fl + 1
            else if Z.even fl then fl else fl + 1)
  | S754_finite s m e => Some (cond_Zopp s (Z.pos m * 2 ^ e))
  | _ => None
  end.

(** The float that the literal or the text [n/d] in decimal denotes, as
    [float('0.1')] is [of_ratio 1 10]. *)
Definition of_ratio (n d : Z) : float :=
  match truediv_int n d with
  | Some x => x
  | None => nan
  end.

End PyFloat.

(** ** [datetime] and [timedelta] *)

Module PyTime.

(** A naive [datetime.datetime]: microseconds elapsed since
    0001-01-01 00:00:00 in the proleptic Gregorian calendar. *)
Definition datetime : Type := Z.

Definition us_per_second : Z := 1000000.
Definition us_per_day : Z := 86400 * us_per_second.

Definition is_leap (y : Z) : bool :=
  (y mod 4 =? 0) && (negb (y mod 100 =? 0) || (y mod 400 =? 0)).

Definition days_before_year (y : Z) : Z :=
  let p := y - 1 in p * 365 + p / 4 - p / 100 + p / 400.

(** Days of a non-leap year that precede the first day of month [m]. *)
Definition days_before_month_common (m : Z) : Z :=
  match m with
  | 1 => 0 | 2 => 31 | 3 => 59 | 4 => 90 | 5 => 120 | 6 => 151
  | 7 => 181 | 8 => 212 | 9 => 243 | 10 => 273 | 11 => 304 | _ => 334
  end.

Definition days_before_month (leap : bool) (m : Z) : Z :=
  days_before_month_common m + (if (2 <? m) && leap then 1 else 0).

(** Proleptic ordinal of a date, 0001-01-01 being day 1. *)
Definition ymd2ord (y m d : Z) : Z :=
  days_before_year y + days_before_month (is_leap y) m + d.

(** Inverse of [ymd2ord], by the 400/100/4/1-year cycle decomposition. *)
Definition ord2ymd (ordinal : Z) : Z * Z * Z :=
  let n := ordinal - 1 in
  let n400 := n / 146097 in
  let n := n mod 146097 in
  let n100 := n / 36524 in
  let n := n mod 36524 in
  let n4 := n / 1461 in
  let n := n mod 1461 in
  let n1 := n / 365 in
  let n := n mod 365 in
  let year := n400 * 400 + 1 + n100 * 100 + n4 * 4 + n1 in
  if (n1 =? 4) || (n100 =? 4) then (year - 1, 12, 31)
  else
    let leapyear := (n1 =? 3) && (negb (n4 =? 24) || (n100 =? 3)) in
    let month := Z.shiftr (n + 50) 5 in
    let preceding := days_before_month leapyear month in
    if n <? preceding
    then (year, month - 1, n - days_before_month leapyear (month - 1) + 1)
    else (year, month, n - preceding + 1).

Definition make (y m d hh mm ss us : Z) : datetime :=
  ((ymd2ord y m d - 1) * 86400 + hh * 3600 + mm * 60 + ss) * us_per_second
  + us.

(** Ordinal of 9999-12-31, the last representable day. *)
Definition max_ordinal : Z := 3652059.

Definition in_range (t : Z) : bool :=
  (0 <=? t) && (t <? max_ordinal * us_per_day).

(** [timedelta(seconds=x)] for a float, as a whole number of
    microseconds.  The interpreter splits [x] into its integral and its
    fractional part, multiplies the fractional part by the float 1000000.0
    and rounds that product, itself a rounded float, to the nearest
    integer, ties to even.  [None] stands for the [OverflowError] of an
    infinity and the [ValueError] of NaN.  A [timedelta] too large for its
    own range is also too large to be added to any [datetime], so the range
    check is left to [add]. *)
Definition timedelta_seconds (x : PyFloat.float) : option Z :=
  match PyFloat.to_int x with
  | None => None
  | Some whole =>
      let fracpart := PyFloat.frac x in
      if PyFloat.is_zero fracpart then Some (whole * us_per_second)
      else
        option_map (Z.add (whole * us_per_second))
          (PyFloat.round_half_even
             (PyFloat.mul (PyFloat.of_ratio us_per_second 1) fracpart))
  end.

(** [t + delta]; [None] stands for [OverflowError]. *)
Definition add (t : datetime) (delta : Z) : option datetime :=
  if in_range (t + delta) then Some (t + delta) else None.

(** [t + timedelta(seconds=x)] *)
Definition add_seconds (t : datetime) (x : PyFloat.float)
  : option datetime :=
  match timedelta_seconds x with
  | Some delta => add t delta
  | None => None
  end.

Definition digit (n : Z) : ascii := ascii_of_N (48 + Z.to_N (n mod 10)).

Definition pad2 (n : Z) : string :=
  String (digit (n / 10)) (String (digit n) EmptyString).

Definition pad4 (n : Z) : string :=
  String (digit (n / 1000)) (String (digit (n / 100)) (pad2 n)).

(** A number from 0 to 9999 without leading zeros. *)
Definition decimal (n : Z) : string :=
  if n <? 10 then String (digit n) EmptyString
  else if n <? 100 then pad2 n
  else if n <? 1000 then String (digit (n / 100)) (pad2 n)
  else pad4 n.

(** [t.strftime('%Y-%m-%d %H:%M:%S')].  The interpreter hands [%Y] to the
    C library; glibc, the C library of Linux, writes the year without
    padding, so that years below 1000 have fewer than four digits. *)
Definition strftime (t : datetime) : string :=
  let secs := t / us_per_second in
  let '(y, m, d) := ord2ymd (secs / 86400 + 1) in
  let sod := secs mod 86400 in
  decimal y ++ "-" ++ pad2 m ++ "-" ++ pad2 d ++ " "
  ++ pad2 (sod / 3600) ++ ":" ++ pad2 (sod mod 3600 / 60) ++ ":"
  ++ pad2 (sod mod 60).

End PyTime.

(** ** [int(...)] conversions *)

Module PyInt.

Definition digit_value (c : ascii) : Z := Z.of_N (PyStr.code c) - 48.

(** Value of a run of decimal digits, most significant first. *)
Fixpoint decimal_from (acc : Z) (s : string) : Z :=
  match s with
  | EmptyString => acc
  | String c s' => decimal_from (acc * 10 + digit_value c) s'
  end.

Definition decimal_value (s : string) : Z := decimal_from 0 s.

(** Digits with single underscores between them, as [int] accepts. *)
Fixpoint grouped_digits (acc : Z) (after_digit : bool) (s : string)
  : option Z :=
  match s with
  | EmptyString => if after_digit then Some acc else None
  | String c s' =>
      if PyStr.is_digit c
      then grouped_digits (acc * 10 + digit_value c) true s'
      else if (c =? "_")%char && after_digit
           then grouped_digits acc false s'
           else None
  end.

(** The whitespace that [int] skips around the digits of an ASCII string:
    tab, newline, vertical tab, form feed, carriage return and space.  The
    separators 28..31 are whitespace for [\s] but not here. *)
Definition is_space (c : ascii) : bool :=
  (((9 <=? PyStr.code c) && (PyStr.code c <=? 13))
   || (PyStr.code c =? 32))%N.

Fixpoint rstrip (s : string) : string :=
  match s with
  | EmptyString => EmptyString
  | String c s' =>
      match rstrip s' with
      | EmptyString =>
          if is_space c then EmptyString else String c EmptyString
      | r => String c r
      end
  end.

Definition strip (s : string) : string :=
  rstrip (snd (PyStr.span is_space s)).

(** [int(s)] for a string: surrounding whitespace, an optional sign,
    decimal digits.  [None] stands for [ValueError].  The interpreter's
    configurable limit on the number of digits is not modelled. *)
Definition of_string (s : string) : option Z :=
  match strip s with
  | String "-" r => option_map Z.opp (grouped_digits 0 false r)
  | String "+" r => grouped_digits 0 false r
  | r => grouped_digits 0 false r
  end.

(** [int(x)] for a float: truncation toward zero; [None] stands for the
    [OverflowError] of an infinity and the [ValueError] of NaN. *)
Definition of_float (x : PyFloat.float) : option Z := PyFloat.to_int x.

End PyInt.

(** ** The three regular expressions of the identity resolver

    Each pattern is a keyword, a non-empty run of separator characters and a
    non-empty captured run of digits, searched with [re.IGNORECASE].  The
    separator class and [\d] are disjoint, so the greedy runs are the only
    way to match at a given position and backtracking changes nothing. *)

Module PyRe.

(** Match the literal [lit] at the start of [s], ignoring case; the rest
    of [s] on success. *)
Fixpoint literal_ci (lit s : string) : option string :=
  match lit with
  | EmptyString => Some s
  | String a lit' =>
      match s with
      | EmptyString => None
      | String b s' =>
          if (PyStr.lower_char a =? PyStr.lower_char b)%char
          then literal_ci lit' s' else None
      end
  end.

(** [kw sep+ (\d+)] anchored at the start of [s]; the captured group. *)
Definition keyword_number (kw : string) (sep : ascii -> bool) (s : string)
  : option string :=
  match literal_ci kw s with
  | None => None
  | Some r =>
      let (seps, r') := PyStr.span sep r in
      if PyStr.truthy seps then
        let (digits, _) := PyStr.span PyStr.is_digit r' in
        if PyStr.truthy digits then Some digits else None
      else None
  end.

(** [re.search]: the match at the leftmost position that has one. *)
Fixpoint search (anchored : string -> option string) (s : string)
  : option string :=
  match anchored s with
  | Some g => Some g
  | None =>
      match s with
      | EmptyString => None
      | String _ s' => search anchored s'
      end
  end.

(** [re.search(r'hadm_id\s+(\d+)', s, re.IGNORECASE)], group 1. *)
Definition search_hadm_id : string -> option string :=
  search (keyword_number "hadm_id" PyStr.is_space).

(** [re.search(r'hospital admission id[:\s]+(\d+)', s, re.IGNORECASE)]. *)
Definition search_hospital_admission_id : string -> option string :=
  search (keyword_number "hospital admission id"
            (fun c => (c =? ":")%char || PyStr.is_space c)).

(** [re.search(r'subject_id\s+(\d+)', s, re.IGNORECASE)], group 1. *)
Definition search_subject_id : string -> option string :=
  search (keyword_number "subject_id" PyStr.is_space).

End PyRe.

(** ** Python values held in variables and written to CSV cells *)

Inductive pyval : Type :=
| VNone
| VStr (s : string)
| VInt (n : Z)
| VFloat (x : PyFloat.float)
| VDatetime (t : PyTime.datetime).

Definition empty : pyval := VStr "".

(** Truth value in a condition. *)
Definition truthy (v : pyval) : bool :=
  match v with
  | VNone => false
  | VStr s => PyStr.truthy s
  | VInt n => negb (n =? 0)
  | VFloat x => PyFloat.truthy x
  | VDatetime _ => true
  end.

(** What [csv.writer] puts in the file for an empty cell: [''] and [None]
    both give an empty field. *)
Definition empty_field (v : pyval) : bool :=
  match v with
  | VNone => true
  | VStr s => negb (PyStr.truthy s)
  | _ => false
  end.

Definition row : Type := list pyval.

(** [a / b]; [None] stands for the [TypeError] of an operand that is not
    a number, for [ZeroDivisionError] and for [OverflowError].  An int
    divided by a float is first converted to a float. *)
Definition truediv (a b : pyval) : option PyFloat.float :=
  match a, b with
  | VInt x, VInt y => PyFloat.truediv_int x y
  | VInt x, VFloat y =>
      match PyFloat.of_int x with
      | Some x' => PyFloat.div x' y
      | None => None
      end
  | VFloat x, VInt y =>
      match PyFloat.of_int y with
      | Some y' => PyFloat.div x y'
      | None => None
      end
  | VFloat x, VFloat y => PyFloat.div x y
  | _, _ => None
  end.

(** [v > 0]; [None] stands for the [TypeError] of comparing a value that
    is not a number with an int. *)
Definition gt_zero (v : pyval) : option bool :=
  match v with
  | VInt n => Some (0 <? n)
  | VFloat x => Some (PyFloat.gt_zero x)
  | _ => None
  end.

(** A sampling frequency as the header reader gives it: an int when the
    header states a whole number, else a float. *)
Inductive number : Type :=
| NInt (n : Z)
| NFloat (x : PyFloat.float).

Definition of_number (v : number) : pyval :=
  match v with
  | NInt n => VInt n
  | NFloat x => VFloat x
  end.

(** ** The header collaborator ([wfdb.rdheader]) *)

(** An attribute of the header object: not there at all ([hasattr] is
    false), there with value [None], or there with a value. *)
Inductive attr (A : Type) : Type :=
| Missing
| PyNone
| Val (a : A).
Arguments Missing {A}.
Arguments PyNone {A}.
Arguments Val {A} a.

Record header : Type := {
  comments : attr (list string);
  base_datetime : attr PyTime.datetime;
  sig_len : attr Z;
  fs : attr number;
  seg_name : attr (list string);
  seg_len : attr (list Z);
  n_sig : attr Z;
  sig_name : attr (list string);
  units : attr (list pyval);
  adc_gain : attr (list pyval);
  baseline : attr (list pyval);
  adc_res : attr (list pyval);
  file_name : attr (list string)
}.

Definition has {A} (a : attr A) : bool :=
  match a with Missing => false | _ => true end.

(** [obj.x if hasattr(obj, 'x') else ''] *)
Definition get_or_empty {A} (inj : A -> pyval) (a : attr A) : pyval :=
  match a with
  | Missing => empty
  | PyNone => VNone
  | Val x => inj x
  end.

(** [obj.x]; [None] stands for [AttributeError]. *)
Definition get {A} (inj : A -> pyval) (a : attr A) : option pyval :=
  match a with
  | Missing => None
  | PyNone => Some VNone
  | Val x => Some (inj x)
  end.

(** [obj.x[i] if hasattr(obj, 'x') else '']; [None] stands for the
    [TypeError] of indexing [None] or the [IndexError] past the end. *)
Definition item_or_empty (a : attr (list pyval)) (i : nat) : option pyval :=
  match a with
  | Missing => Some empty
  | PyNone => None
  | Val l => nth_error l i
  end.

(** A numerics table as [pandas.read_csv] returns it: the column names and,
    for each row, the float under each name; a missing value is NaN. *)
Record dataframe : Type := {
  df_columns : list string;
  df_rows : list (list (string * PyFloat.float))
}.

Inductive numerics_file : Type :=
| NoFile
| Unreadable
| Frame (df : dataframe).

(** What the program reads from outside: headers by path (None: the read
    raises) and numerics files by path. *)
Record world : Type := {
  rdheader : string -> option header;
  read_numerics : string -> numerics_file
}.

(** [Path(a) / b] followed by [str]. *)
Definition path_join (a b : string) : string := a ++ "/" ++ b.

(** ** The directory tree *)

Module Fs.

(** A file system entry: a plain file, or a directory with its named
    entries in the order the operating system lists them. *)
Inductive node : Type :=
| File
| Dir (entries : list (string * node)).

Definition is_dir (n : node) : bool :=
  match n with Dir _ => true | File => false end.

(** [path.iterdir()] *)
Definition iterdir (n : node) : list (string * node) :=
  match n with Dir es => es | File => [] end.

(** [path.glob('p*')]: the entries whose name starts with [p]. *)
Definition glob_p (n : node) : list (string * node) :=
  filter (fun e => PyStr.startswith (fst e) "p") (iterdir n).

(** [(path / name).exists()] *)
Definition exists_in (n : node) (name : string) : bool :=
  existsb (fun e => (fst e =? name)%string) (iterdir n).

Fixpoint insert_by_name (x : string * node) (l : list (string * node))
  : list (string * node) :=
  match l with
  | [] => [x]
  | y :: l' =>
      if String.leb (fst x) (fst y) then x :: l
      else y :: insert_by_name x l'
  end.

(** [sorted(...)] of sibling paths: by name, stable. *)
Fixpoint sorted (l : list (string * node)) : list (string * node) :=
  match l with
  | [] => []
  | x :: l' => insert_by_name x (sorted l')
  end.

End Fs.

(** A discovered record: [(str(rel_path), record_name, subject_id)]. *)
Definition record_entry : Type := string * string * Z.

(** Loops whose body may raise: the first exception ends the loop. *)
Fixpoint for_each {A S : Type} (body : S -> A -> option S) (l : list A)
  (s : S) : option S :=
  match l with
  | [] => Some s
  | x :: l' =>
      match body s x with
      | Some s' => for_each body l' s'
      | None => None
      end
  end.

(** ** The CSV tables and the effects of the extraction loops *)

Record tables : Type := {
  waveform_records : list row;
  waveform_segments : list row;
  waveform_signals : list row;
  waveform_numerics : list row
}.

Module IO.

(** A step of the program: it may append rows to the tables and it either
    returns a value or raises.  Rows written before an exception stay. *)
Definition M (A : Type) : Type := tables -> option A * tables.

Definition ret {A} (a : A) : M A := fun t => (Some a, t).

Definition bind {A B} (m : M A) (k : A -> M B) : M B :=
  fun t =>
    match m t with
    | (Some a, t') => k a t'
    | (None, t') => (None, t')
    end.

(** A pure computation that may raise. *)
Definition lift {A} (o : option A) : M A := fun t => (o, t).

(** [try: m except Exception: continue] (or [pass], or a warning) *)
Definition catch (m : M unit) : M unit :=
  fun t => (Some tt, snd (m t)).

(** [for x in l: body x] *)
Fixpoint for_loop {A} (l : list A) (body : A -> M unit) : M unit :=
  match l with
  | [] => ret tt
  | x :: l' => bind (body x) (fun _ => for_loop l' body)
  end.

Definition write_record (r : row) : M unit :=
  fun t => (Some tt,
            {| waveform_records := waveform_records t ++ [r];
               waveform_segments := waveform_segments t;
               waveform_signals := waveform_signals t;
               waveform_numerics := waveform_numerics t |}%list).

Definition write_segment (r : row) : M unit :=
  fun t => (Some tt,
            {| waveform_records := waveform_records t;
               waveform_segments := waveform_segments t ++ [r];
               waveform_signals := waveform_signals t;
               waveform_numerics := waveform_numerics t |}%list).

Definition write_signal (r : row) : M unit :=
  fun t => (Some tt,
            {| waveform_records := waveform_records t;
               waveform_segments := waveform_segments t;
               waveform_signals := waveform_signals t ++ [r];
               waveform_numerics := waveform_numerics t |}%list).

Definition write_numerics (r : row) : M unit :=
  fun t => (Some tt,
            {| waveform_records := waveform_records t;
               waveform_segments := waveform_segments t;
               waveform_signals := waveform_signals t;
               waveform_numerics := waveform_numerics t ++ [r] |}%list).

End IO.

Notation "x <- m ;; k" := (IO.bind m (fun x => k))
  (at level 61, m at next level, right associativity).
Notation "m ;;; k" := (IO.bind m (fun _ => k))
  (at level 61, right associativity).

(** Outcome of [main] up to the end of the scan. *)
Inductive outcome : Type :=
| DataDirNotFound
| ScanRaised
| NoRecordsFound
| Scanned (records : list record_entry).


(** ** [extract_metadata.py] *)

Module ExtractMetadata.

(** *** The corpus scanner *)

(** Body of the innermost loop, for one entry of a subject directory. *)
Definition visit_record_dir (group subject : string)
  (records : list record_entry) (e : string * Fs.node)
  : option (list record_entry) :=
  let (record_name, record_dir) := e in
  if negb (Fs.is_dir record_dir) then Some records
  else if Fs.exists_in record_dir (record_name ++ ".hea") then
    let rel_path := path_join (path_join group subject) record_name in
    match PyInt.of_string (PyStr.drop1 subject) with
    | Some subject_id =>
        Some (records ++ [(rel_path, record_name, subject_id)])%list
    | None => None
    end
  else Some records.

Definition visit_patient_dir (group : string)
  (records : list record_entry) (e : string * Fs.node)
  : option (list record_entry) :=
  let (subject, patient_dir) := e in
  if negb (Fs.is_dir patient_dir) then Some records
  else for_each (visit_record_dir group subject)
         (Fs.sorted (Fs.iterdir patient_dir)) records.

Definition visit_p_dir (records : list record_entry)
  (e : string * Fs.node) : option (list record_entry) :=
  let (group, p_dir) := e in
  if negb (Fs.is_dir p_dir) then Some records
  else for_each (visit_patient_dir group)
         (Fs.sorted (Fs.glob_p p_dir)) records.

(** [find_all_records(data_dir)], on the tree found at [data_dir];
    [None] stands for the [ValueError] of [int(subject_id)]. *)
Definition find_all_records (data_path : Fs.node)
  : option (list record_entry) :=
  for_each visit_p_dir (Fs.sorted (Fs.glob_p data_path)) [].

(** [main]: the check of the data directory, then the scan.  [None] is a
    path that does not exist; a path to a plain file is not a directory
    either. *)
Definition main_scan (data_dir : option Fs.node) : outcome :=
  match data_dir with
  | None | Some Fs.File => DataDirNotFound
  | Some root =>
      match find_all_records root with
      | None => ScanRaised
      | Some [] => NoRecordsFound
      | Some records => Scanned records
      end
  end.

(** *** The signal classifier *)

Inductive signal_type : Type :=
| ECG | Pressure | Plethysmogram | Respiration | Capnography | Other.

Definition signal_type_name (t : signal_type) : string :=
  match t with
  | ECG => "ECG"
  | Pressure => "Pressure"
  | Plethysmogram => "Plethysmogram"
  | Respiration => "Respiration"
  | Capnography => "Capnography"
  | Other => "Other"
  end.

Definition ecg_leads : list string :=
  ["I"; "II"; "III"; "AVR"; "AVL"; "AVF"; "V"; "V1"; "V2"; "V3"; "V4"; "V5";
   "V6"; "MCL"; "AI"; "AS"; "ES"].

Definition pressure_types : list string :=
  ["ABP"; "ART"; "AO"; "BAP"; "CVP"; "FAP"; "ICP"; "IC1"; "IC2";
   "LAP"; "PAP"; "RAP"; "UAP"; "UVP"; "P"; "P1"; "P2"; "P4"].

Definition categorize_signal_type (signal_name : string) : signal_type :=
  let signal_name_upper := PyStr.upper signal_name in
  if existsb (fun lead => (signal_name_upper =? lead)%string
                          || PyStr.startswith signal_name_upper lead)
             ecg_leads then ECG
  else if existsb (fun pressure => PyStr.contains pressure signal_name_upper)
                  pressure_types then Pressure
  else if PyStr.contains "PLETH" signal_name_upper then Plethysmogram
  else if PyStr.contains "RESP" signal_name_upper then Respiration
  else if PyStr.contains "CO2" signal_name_upper then Capnography
  else Other.

(** *** The identity resolver (the loop over [record.comments]) *)

(** The [if]/[elif] on the two admission-id forms: the captured group of
    the form that is tried on this comment, if its search succeeds. *)
Definition hadm_id_match (comment : string) : option string :=
  if PyStr.contains "hadm_id" (PyStr.lower comment)
  then PyRe.search_hadm_id comment
  else if PyStr.contains "hospital admission id" (PyStr.lower comment)
       then PyRe.search_hospital_admission_id comment
       else None.

(** The [if] on [subject_id]; the group holds digits only, so [int] of it
    is its decimal value. *)
Definition subject_id_match (comment : string) : option Z :=
  if PyStr.contains "subject_id" (PyStr.lower comment)
  then option_map PyInt.decimal_value (PyRe.search_subject_id comment)
  else None.

(** One iteration: [(hadm_id, subject_id_from_header)] before and after. *)
Definition scan_comment (ids : string * option Z) (comment : string)
  : string * option Z :=
  let (hadm_id, subject_id_from_header) := ids in
  (match hadm_id_match comment with
   | Some g => g
   | None => hadm_id
   end,
   match subject_id_match comment with
   | Some n => Some n
   | None => subject_id_from_header
   end).

(** The whole loop, guarded by [hasattr(record, 'comments')]; iterating
    over [None] raises. *)
Definition scan_comments (record : header) : option (string * option Z) :=
  match comments record with
  | Missing => Some ("", None)
  | PyNone => None
  | Val l => Some (fold_left scan_comment l ("", None))
  end.

(** [if subject_id_from_header: subject_id = subject_id_from_header] *)
Definition resolve_subject_id (subject_id : Z)
  (subject_id_from_header : option Z) : Z :=
  match subject_id_from_header with
  | Some n => if negb (n =? 0) then n else subject_id
  | None => subject_id
  end.

(** *** The timing calculator, record level *)

(** The [if start_datetime and duration_sec and base_freq] block.  A
    division that raises, a quotient that is no finite number of seconds,
    a start that is not a datetime and an end outside the datetime range
    all raise inside the [try]: the bare [except] leaves [end_datetime]
    empty. *)
Definition end_datetime_of (start_datetime duration_sec base_freq : pyval)
  : pyval :=
  if truthy start_datetime && truthy duration_sec && truthy base_freq then
    match truediv duration_sec base_freq, start_datetime with
    | Some seconds, VDatetime t =>
        match PyTime.add_seconds t seconds with
        | Some end_dt => VStr (PyTime.strftime end_dt)
        | None => empty
        end
    | _, _ => empty
    end
  else empty.

(** [if isinstance(start_datetime, datetime): start_datetime = ...] *)
Definition format_start (start_datetime : pyval) : pyval :=
  match start_datetime with
  | VDatetime t => VStr (PyTime.strftime t)
  | v => v
  end.

(** [len(record.seg_name) if hasattr(record, 'seg_name') else 0] *)
Definition num_segments_of (record : header) : option Z :=
  match seg_name record with
  | Missing => Some 0
  | PyNone => None
  | Val l => Some (Z.of_nat (List.length l))
  end.

(** *** Segments and signals *)

(** [seg_name == '~' or '_layout' in seg_name or seg_name.endswith('_0000')] *)
Definition skip_segment (name : string) : bool :=
  (name =? "~")%string || PyStr.contains "_layout" name
  || PyStr.endswith name "_0000".

Fixpoint sum (l : list Z) : Z :=
  match l with
  | [] => 0
  | x :: l' => x + sum l'
  end.

(** The block under [# Calculate segment start time].  [start_datetime] is
    the variable of the record level, already formatted.  The comparison
    [record.fs > 0] raises on [None]; everything inside the inner [try]
    degrades to the empty string. *)
Definition segment_start_time (record : header) (start_datetime : pyval)
  (seg_num : nat) : option pyval :=
  if truthy start_datetime then
    match fs record with
    | Missing => Some empty
    | PyNone => None
    | Val f =>
        match gt_zero (of_number f) with
        | None => None
        | Some positive =>
            if positive && (0 <? seg_num)%nat && has (seg_len record) then
              match seg_len record with
              | Val lens =>
                  let offset_samples := sum (firstn seg_num lens) in
                  match truediv (VInt offset_samples) (of_number f),
                        base_datetime record with
                  | Some offset_seconds, Val base =>
                      match PyTime.add_seconds base offset_seconds with
                      | Some seg_start =>
                          Some (VStr (PyTime.strftime seg_start))
                      | None => Some empty
                      end
                  | _, _ => Some empty
                  end
              | _ => Some empty
              end
            else Some empty
        end
    end
  else Some empty.

(** [if seg_header.sig_len and seg_header.fs and seg_header.fs > 0] and
    the division under it, which is not inside a [try] of its own. *)
Definition segment_duration (seg_header : header) : option pyval :=
  match sig_len seg_header with
  | Missing => None
  | PyNone => Some empty
  | Val n =>
      if n =? 0 then Some empty
      else match fs seg_header with
           | Missing => None
           | PyNone => Some empty
           | Val f =>
               match gt_zero (of_number f) with
               | Some positive =>
                   if truthy (of_number f) && positive
                   then option_map VFloat (truediv (VInt n) (of_number f))
                   else Some empty
               | None => None
               end
           end
  end.

(** The list given to [segments_writer.writerow]. *)
Definition segment_row (record seg_header : header)
  (record_name : string) (start_datetime : pyval) (seg_num : nat)
  (seg_name : string) : option row :=
  match segment_start_time record start_datetime seg_num,
        segment_duration seg_header,
        get of_number (fs seg_header), get VInt (n_sig seg_header) with
  | Some seg_start_time, Some seg_duration, Some seg_fs, Some seg_n_sig =>
      Some [VStr record_name; VStr seg_name; VInt (Z.of_nat seg_num);
            seg_start_time; seg_duration; VStr (seg_name ++ ".hea");
            (if has (file_name seg_header)
             then VStr (seg_name ++ ".dat") else empty);
            seg_fs; seg_n_sig]
  | _, _, _, _ => None
  end.

(** The list given to [signals_writer.writerow] for signal [sig_idx]. *)
Definition signal_row (seg_header : header) (record_name : string)
  (seg_num sig_idx : nat) : option row :=
  match (match sig_name seg_header with
         | Val names => nth_error names sig_idx
         | _ => None
         end),
        item_or_empty (units seg_header) sig_idx,
        item_or_empty (adc_gain seg_header) sig_idx,
        item_or_empty (baseline seg_header) sig_idx,
        item_or_empty (adc_res seg_header) sig_idx with
  | Some name, Some sig_units, Some sig_gain, Some sig_baseline,
    Some sig_adc_res =>
      Some [VStr record_name; VInt (Z.of_nat seg_num); VStr name;
            VInt (Z.of_nat sig_idx); sig_units; sig_gain; sig_baseline;
            sig_adc_res; empty;
            VStr (signal_type_name (categorize_signal_type name))]
  | _, _, _, _, _ => None
  end.

(** [range(seg_header.n_sig)] *)
Definition signal_range (seg_header : header) : option (list nat) :=
  match n_sig seg_header with
  | Val n => Some (seq 0 (Z.to_nat n))
  | _ => None
  end.

(** Body of the [try] of one segment that is not skipped. *)
Definition process_segment (w : world) (full_path : string)
  (record : header) (record_name : string) (start_datetime : pyval)
  (seg_num : nat) (seg_name : string) : IO.M unit :=
  seg_header <- IO.lift (rdheader w (path_join full_path seg_name)) ;;
  r <- IO.lift (segment_row record seg_header record_name start_datetime
                  seg_num seg_name) ;;
  IO.write_segment r ;;;
  indices <- IO.lift (signal_range seg_header) ;;
  IO.for_loop indices (fun sig_idx =>
    s <- IO.lift (signal_row seg_header record_name seg_num sig_idx) ;;
    IO.write_signal s).

(** [enumerate(l)] *)
Definition enumerate {A} (l : list A) : list (nat * A) :=
  combine (seq 0 (List.length l)) l.

(** The block under [# Process segments]. *)
Definition process_segments (w : world) (full_path : string)
  (record : header) (record_name : string) (start_datetime : pyval)
  : IO.M unit :=
  match seg_name record with
  | Val names =>
      IO.for_loop (enumerate names) (fun '(seg_num, name) =>
        if skip_segment name then IO.ret tt
        else IO.catch (process_segment w full_path record record_name
                         start_datetime seg_num name))
  | PyNone => IO.lift None
  | Missing => IO.ret tt
  end.

(** *** The numerics row mapper *)

(** The local variables of one numerics row. *)
Inductive slot : Type :=
| Hr | Rr | Spo2
| NibpSys | NibpDias | NibpMean
| AbpSys | AbpDias | AbpMean
| Cvp | Etco2 | Temp
| MeasName | MeasVal | MeasUnit.

Definition slot_eq_dec (a b : slot) : {a = b} + {a <> b}.
Proof. decide equality. Defined.

Definition locals : Type := slot -> pyval.

(** [hr = rr = spo2 = ''] and the three lines after it. *)
Definition initial_locals : locals := fun _ => empty.

Definition assign (st : locals) (k : slot) (v : pyval) : locals :=
  fun k' => if slot_eq_dec k k' then v else st k'.

(** [x = int(value)] *)
Definition assign_int (st : locals) (k : slot) (value : PyFloat.float)
  : option locals :=
  option_map (fun n => assign st k (VInt n)) (PyInt.of_float value).

(** [x = float(value)] *)
Definition assign_float (st : locals) (k : slot) (value : PyFloat.float)
  : option locals :=
  Some (assign st k (VFloat value)).

(** The [if]/[elif] chain on [col_lower], for a value that is not missing;
    [None] stands for the [OverflowError] of [int] of an infinity. *)
Definition assign_measurement (col : string) (value : PyFloat.float)
  (st : locals) : option locals :=
  let col_lower := PyStr.lower col in
  let has_sub := fun sub => PyStr.contains sub col_lower in
  if has_sub "spo2" || has_sub "sp02" then assign_int st Spo2 value
  else if has_sub "hr" && has_sub "heart" then assign_int st Hr value
  else if has_sub "rr" && has_sub "resp" then assign_int st Rr value
  else if has_sub "nibp" then
    if has_sub "sys" then assign_int st NibpSys value
    else if has_sub "dias" then assign_int st NibpDias value
    else if has_sub "mean" then assign_int st NibpMean value
    else Some st
  else if has_sub "abp" then
    if has_sub "sys" then assign_int st AbpSys value
    else if has_sub "dias" then assign_int st AbpDias value
    else if has_sub "mean" then assign_int st AbpMean value
    else Some st
  else if has_sub "cvp" then assign_float st Cvp value
  else if has_sub "etco2" then assign_float st Etco2 value
  else if has_sub "temp" then assign_float st Temp value
  else if negb (truthy (st MeasName)) then
    Some (assign (assign st MeasName (VStr col)) MeasVal (VFloat value))
  else Some st.

(** [row[col]]; [None] stands for [KeyError]. *)
Fixpoint lookup (col : string) (r : list (string * PyFloat.float))
  : option PyFloat.float :=
  match r with
  | [] => None
  | (name, v) :: r' => if (name =? col)%string then Some v else lookup col r'
  end.

(** Body of [for col in df.columns[1:]]; [pd.isna(value)] is true of a
    NaN. *)
Definition extract_measurement (r : list (string * PyFloat.float))
  (st : locals) (col : string) : option locals :=
  match lookup col r with
  | None => None
  | Some value =>
      if PyFloat.is_nan value then Some st
      else assign_measurement col value st
  end.

(** The block under [# Calculate timestamp]; reading
    [record.base_datetime] raises when the attribute is missing, and so
    does [base_freq > 0] on a value that is true and not a number; what
    raises inside the [try] leaves the time empty. *)
Definition measurement_time_of (record : header) (base_freq : pyval)
  (counter_ticks : Z) : option pyval :=
  match base_datetime record with
  | Missing => None
  | PyNone => Some empty
  | Val base =>
      if truthy base_freq then
        match gt_zero base_freq with
        | None => None
        | Some false => Some empty
        | Some true =>
            match truediv (VInt counter_ticks) base_freq with
            | Some offset_seconds =>
                match PyTime.add_seconds base offset_seconds with
                | Some meas_time => Some (VStr (PyTime.strftime meas_time))
                | None => Some empty
                end
            | None => Some empty
            end
        end
      else Some empty
  end.

(** The list given to [numerics_writer.writerow] for one row of the
    frame; [int] of a missing tick counter raises. *)
Definition numerics_row (record : header) (record_name : string)
  (base_freq : pyval) (time_col : string) (cols : list string)
  (r : list (string * PyFloat.float)) : option row :=
  match lookup time_col r with
  | Some tick =>
      match PyInt.of_float tick with
      | Some counter_ticks =>
          match measurement_time_of record base_freq counter_ticks,
                for_each (extract_measurement r) cols initial_locals with
          | Some measurement_time, Some st =>
              Some [VStr record_name; measurement_time; VInt counter_ticks;
                    st Hr; st Rr; st Spo2; st NibpSys; st NibpDias;
                    st NibpMean; st AbpSys; st AbpDias; st AbpMean; st Cvp;
                    st Etco2; st Temp; st MeasName; st MeasVal; st MeasUnit]
          | _, _ => None
          end
      | None => None
      end
  | None => None
  end.

(** The block under [# Process numerics if not skipped], once the flag has
    been tested. *)
Definition process_numerics (w : world) (full_path : string)
  (record : header) (record_name : string) (base_freq : pyval)
  : IO.M unit :=
  match read_numerics w (path_join full_path (record_name ++ "n.csv.gz"))
  with
  | NoFile => IO.ret tt
  | Unreadable => IO.ret tt
  | Frame df =>
      IO.catch (
        time_col <- IO.lift (hd_error (df_columns df)) ;;
        IO.for_loop (df_rows df) (fun r =>
          out <- IO.lift (numerics_row record record_name base_freq time_col
                            (tl (df_columns df)) r) ;;
          IO.write_numerics out))
  end.

(** *** The loop over the records *)

(** Body of the outer [try] for one record. *)
Definition process_record_body (w : world) (data_dir : string)
  (skip_numerics : bool) (entry : record_entry) : IO.M unit :=
  let '(record_path, record_name, subject_id) := entry in
  let full_path := path_join data_dir record_path in
  let record_file := path_join full_path record_name in
  record <- IO.lift (rdheader w record_file) ;;
  ids <- IO.lift (scan_comments record) ;;
  let (hadm_id, subject_id_from_header) := ids in
  let subject_id := resolve_subject_id subject_id subject_id_from_header in
  let start_datetime := get_or_empty VDatetime (base_datetime record) in
  let duration_sec := get_or_empty VInt (sig_len record) in
  let base_freq := get_or_empty of_number (fs record) in
  num_segments <- IO.lift (num_segments_of record) ;;
  let end_datetime := end_datetime_of start_datetime duration_sec base_freq in
  let start_datetime := format_start start_datetime in
  IO.write_record
    [VStr record_name; VInt subject_id; VStr hadm_id; start_datetime;
     end_datetime; duration_sec; VStr record_path;
     VStr (record_name ++ ".hea"); base_freq; VInt num_segments] ;;;
  process_segments w full_path record record_name start_datetime ;;;
  if skip_numerics then IO.ret tt
  else process_numerics w full_path record record_name base_freq.

Definition process_record (w : world) (data_dir : string)
  (skip_numerics : bool) (entry : record_entry) : IO.M unit :=
  IO.catch (process_record_body w data_dir skip_numerics entry).

Definition records_header : row :=
  map VStr ["record_id"; "subject_id"; "hadm_id"; "start_datetime";
            "end_datetime"; "record_duration_sec"; "file_path";
            "header_file"; "base_counter_freq"; "num_segments"].

Definition segments_header : row :=
  map VStr ["record_id"; "segment_name"; "segment_num";
            "segment_start_time"; "segment_duration_sec";
            "segment_header_file"; "segment_data_file";
            "sampling_frequency"; "num_signals"].

Definition signals_header : row :=
  map VStr ["record_id"; "segment_num"; "signal_name"; "signal_index";
            "signal_units"; "signal_gain"; "signal_baseline";
            "signal_adc_resolution"; "signal_description"; "signal_type"].

Definition numerics_header : row :=
  map VStr ["record_id"; "measurement_time"; "counter_ticks"; "heart_rate";
            "resp_rate"; "spo2"; "nibp_systolic"; "nibp_diastolic";
            "nibp_mean"; "abp_systolic"; "abp_diastolic"; "abp_mean"; "cvp";
            "etco2"; "temperature"; "measurement_name"; "measurement_value";
            "measurement_unit"].

(** The files after the header rows are written; with [skip_numerics] the
    numerics file is not created and its table stays empty. *)
Definition opened (skip_numerics : bool) : tables :=
  {| waveform_records := [records_header];
     waveform_segments := [segments_header];
     waveform_signals := [signals_header];
     waveform_numerics := if skip_numerics then [] else [numerics_header] |}.

(** [extract_metadata(data_dir, records, output_dir, skip_numerics)]: the
    content of the four files when the function returns. *)
Definition extract_metadata (w : world) (data_dir : string)
  (records : list record_entry) (skip_numerics : bool) : tables :=
  snd (IO.for_loop records (process_record w data_dir skip_numerics)
         (opened skip_numerics)).

End ExtractMetadata.

(** ** [update_records.py] *)

Module UpdateRecords.

(** *** The corpus scanner of this script *)

Definition visit_record_dir (group subject : string)
  (records : list record_entry) (e : string * Fs.node)
  : option (list record_entry) :=
  let (record_name, record_dir) := e in
  if negb (Fs.is_dir record_dir) then Some records
  else if Fs.exists_in record_dir (record_name ++ ".hea") then
    let rel_path := path_join (path_join group subject) record_name in
    match PyInt.of_string (PyStr.drop1 subject) with
    | Some subject_id =>
        Some (records ++ [(rel_path, record_name, subject_id)])%list
    | None => None
    end
  else Some records.

Definition visit_patient_dir (group : string)
  (records : list record_entry) (e : string * Fs.node)
  : option (list record_entry) :=
  let (subject, patient_dir) := e in
  if negb (Fs.is_dir patient_dir) then Some records
  else for_each (visit_record_dir group subject)
         (Fs.sorted (Fs.iterdir patient_dir)) records.

Definition visit_p_dir (records : list record_entry)
  (e : string * Fs.node) : option (list record_entry) :=
  let (group, p_dir) := e in
  if negb (Fs.is_dir p_dir) then Some records
  else for_each (visit_patient_dir group)
         (Fs.sorted (Fs.glob_p p_dir)) records.

Definition find_all_records (data_path : Fs.node)
  : option (list record_entry) :=
  for_each visit_p_dir (Fs.sorted (Fs.glob_p data_path)) [].

(** *** The record row *)

(** State of the loop over the comments. *)
Record ids : Type := {
  hadm_id : string;
  subject_id_from_header : option Z
}.

(** One comment: the admission id by the two forms, tried as [if] and
    [elif], then the subject id. *)
Definition read_comment (st : ids) (comment : string) : ids :=
  let low := PyStr.lower comment in
  let st1 :=
    if PyStr.contains "hadm_id" low then
      match PyRe.search_hadm_id comment with
      | Some g => {| hadm_id := g;
                     subject_id_from_header := subject_id_from_header st |}
      | None => st
      end
    else if PyStr.contains "hospital admission id" low then
      match PyRe.search_hospital_admission_id comment with
      | Some g => {| hadm_id := g;
                     subject_id_from_header := subject_id_from_header st |}
      | None => st
      end
    else st in
  if PyStr.contains "subject_id" low then
    match PyRe.search_subject_id comment with
    | Some g => {| hadm_id := hadm_id st1;
                   subject_id_from_header := Some (PyInt.decimal_value g) |}
    | None => st1
    end
  else st1.

Fixpoint read_comments (l : list string) (st : ids) : ids :=
  match l with
  | [] => st
  | comment :: l' => read_comments l' (read_comment st comment)
  end.

(** Everything between [wfdb.rdheader] and [writer.writerow], for a header
    that was read: the row, or [None] when a statement raises. *)
Definition row_of_header (record : header) (entry : record_entry)
  : option row :=
  let '(record_path, record_name, subject_id) := entry in
  match (match comments record with
         | Missing => Some {| hadm_id := ""; subject_id_from_header := None |}
         | PyNone => None
         | Val l =>
             Some (read_comments l
                     {| hadm_id := ""; subject_id_from_header := None |})
         end) with
  | None => None
  | Some st =>
      let subject_id :=
        match subject_id_from_header st with
        | Some n => if n =? 0 then subject_id else n
        | None => subject_id
        end in
      let start_datetime := get_or_empty VDatetime (base_datetime record) in
      let duration_sec := get_or_empty VInt (sig_len record) in
      let base_freq := get_or_empty of_number (fs record) in
      match seg_name record with
      | PyNone => None
      | names =>
          let num_segments :=
            match names with
            | Val l => Z.of_nat (List.length l)
            | _ => 0
            end in
          let end_datetime :=
            if truthy start_datetime && truthy duration_sec
               && truthy base_freq then
              match truediv duration_sec base_freq with
              | Some seconds =>
                  match start_datetime with
                  | VDatetime t =>
                      match PyTime.add_seconds t seconds with
                      | Some end_dt => VStr (PyTime.strftime end_dt)
                      | None => empty
                      end
                  | _ => empty
                  end
              | None => empty
              end
            else empty in
          let start_datetime :=
            match start_datetime with
            | VDatetime t => VStr (PyTime.strftime t)
            | v => v
            end in
          Some [VStr record_name; VInt subject_id; VStr (hadm_id st);
                start_datetime; end_datetime; duration_sec; VStr record_path;
                VStr (record_name ++ ".hea"); base_freq; VInt num_segments]
      end
  end.

(** One iteration of the loop: the file before and after. *)
Definition write_record_row (w : world) (data_dir : string)
  (csv : list row) (entry : record_entry) : list row :=
  let '(record_path, record_name, _) := entry in
  let record_file := path_join (path_join data_dir record_path) record_name in
  match rdheader w record_file with
  | None => csv
  | Some record =>
      match row_of_header record entry with
      | Some r => (csv ++ [r])%list
      | None => csv
      end
  end.

Definition csv_header : row :=
  map VStr ["record_id"; "subject_id"; "hadm_id"; "start_datetime";
            "end_datetime"; "record_duration_sec"; "file_path";
            "header_file"; "base_counter_freq"; "num_segments"].

(** [extract_records_metadata(data_dir, records, output_file)]: the content
    of the output file. *)
Definition extract_records_metadata (w : world) (data_dir : string)
  (records : list record_entry) : list row :=
  fold_left (write_record_row w data_dir) records [csv_header].

End UpdateRecords.

(** * Definitions used to state the properties *)

Import ExtractMetadata.

(** [str(Path(data_dir) / record_path / record_name)]: the path given to
    [wfdb.rdheader] for a record. *)
Definition record_file (data_dir : string) (entry : record_entry) : string :=
  let '(record_path, record_name, _) := entry in
  path_join (path_join data_dir record_path) record_name.

(** The list given to [records_writer.writerow] in [extract_metadata], as
    a function of the header that was read; [None] when a statement before
    the call raises. *)
Definition record_row (record : header) (entry : record_entry)
  : option row :=
  let '(record_path, record_name, subject_id) := entry in
  match scan_comments record with
  | Some (hadm_id, subject_id_from_header) =>
      match num_segments_of record with
      | Some num_segments =>
          let start_datetime :=
            get_or_empty VDatetime (base_datetime record) in
          let duration_sec := get_or_empty VInt (sig_len record) in
          let base_freq := get_or_empty of_number (fs record) in
          Some [VStr record_name;
                VInt (resolve_subject_id subject_id subject_id_from_header);
                VStr hadm_id; format_start start_datetime;
                end_datetime_of start_datetime duration_sec base_freq;
                duration_sec; VStr record_path;
                VStr (record_name ++ ".hea"); base_freq; VInt num_segments]
      | None => None
      end
  | None => None
  end.

(** A step leaves one of the four tables, selected by [proj], as it is. *)
Definition keeps {A} (proj : tables -> list row) (m : IO.M A) : Prop :=
  forall t, proj (snd (m t)) = proj t.


(** Cell [i] of a row. *)
Definition cell (i : nat) (r : row) : pyval := nth i r VNone.

(** ** Sample headers and a sample corpus *)

Module Sample.

(** A header with none of the optional attributes. *)
Definition bare : header :=
  {| comments := Val []; base_datetime := PyNone; sig_len := PyNone;
     fs := PyNone; seg_name := Missing; seg_len := Missing;
     n_sig := Val 0; sig_name := Val []; units := Val [];
     adc_gain := Val []; baseline := Val []; adc_res := Val [];
     file_name := Missing |}.

Definition new_year : PyTime.datetime := PyTime.make 2023 1 1 0 0 0 0.

(** One hour at 1 Hz, starting at 2023-01-01 00:00:00, in four segments. *)
Definition hour : header :=
  {| comments := Val ["hadm_id 111"; "Hospital Admission ID: 222"];
     base_datetime := Val new_year; sig_len := Val 3600; fs := Val (NInt 1);
     seg_name := Val ["~"; "seg1"; "rec_0000"; "seg2"];
     seg_len := Val [0; 1200; 0; 2400];
     n_sig := Val 2; sig_name := PyNone; units := PyNone;
     adc_gain := PyNone; baseline := PyNone; adc_res := PyNone;
     file_name := Missing |}.

(** A segment with two signals. *)
Definition segment : header :=
  {| comments := Val []; base_datetime := PyNone; sig_len := Val 1200;
     fs := Val (NInt 1); seg_name := Missing; seg_len := Missing;
     n_sig := Val 2; sig_name := Val ["II"; "Pleth"];
     units := Val [VStr "mV"; VStr "NU"];
     adc_gain := Val [VFloat (PyFloat.of_ratio 200 1);
                      VFloat (PyFloat.of_ratio 4096 1)];
     baseline := Val [VInt 0; VInt 0]; adc_res := Val [VInt 12; VInt 12];
     file_name := Val ["seg.dat"; "seg.dat"] |}.

Definition vitals : dataframe :=
  {| df_columns := ["time"; "HR"; "SpO2"; "UnknownMetric"];
     df_rows := [[("time", PyFloat.of_ratio 5 1);
                  ("HR", PyFloat.of_ratio 60 1);
                  ("SpO2", PyFloat.of_ratio 197 2);
                  ("UnknownMetric", PyFloat.of_ratio 1 3)]] |}.

(** The record [rec] is readable, with its segments and its numerics; no
    other path is. *)
Definition corpus : world :=
  {| rdheader := fun p =>
       if (p =? "/data/p100/p10000032/rec/rec")%string then Some hour
       else if (p =? "/data/p100/p10000032/rec/seg1")%string
            then Some segment
       else if (p =? "/data/p100/p10000032/rec/seg2")%string
            then Some segment
       else None;
     read_numerics := fun p =>
       if (p =? "/data/p100/p10000032/rec/recn.csv.gz")%string
       then Frame vitals else NoFile |}.

Definition rec : record_entry := ("p100/p10000032/rec", "rec", 10000032).
Definition broken : record_entry :=
  ("p100/p10000032/broken", "broken", 10000032).

(** A world in which every path holds the header [h]. *)
Definition always (h : header) : world :=
  {| rdheader := fun _ => Some h; read_numerics := fun _ => NoFile |}.

Definition with_comments (l : list string) : header :=
  {| comments := Val l; base_datetime := base_datetime bare;
     sig_len := sig_len bare; fs := fs bare; seg_name := seg_name bare;
     seg_len := seg_len bare; n_sig := n_sig bare;
     sig_name := sig_name bare; units := units bare;
     adc_gain := adc_gain bare; baseline := baseline bare;
     adc_res := adc_res bare; file_name := file_name bare |}.

(** A record of [samples] samples at 1 Hz starting at 2023-01-01, with one
    segment called [seg1] at index 0. *)
Definition timed (samples : Z) : header :=
  {| comments := Val []; base_datetime := Val new_year;
     sig_len := Val samples; fs := Val (NInt 1);
     seg_name := Val ["seg1"]; seg_len := Val [samples];
     n_sig := Val 2; sig_name := PyNone; units := PyNone;
     adc_gain := PyNone; baseline := PyNone; adc_res := PyNone;
     file_name := Missing |}.

End Sample.

(** The datetime [samples / f] seconds after [t], with the division and
    the [timedelta] of the interpreter: the quotient is a float and is
    rounded to a whole number of microseconds.  [None] when the division
    raises or the result is not a datetime. *)
Definition seconds_after (t : PyTime.datetime) (samples : Z) (f : number)
  : option PyTime.datetime :=
  match truediv (VInt samples) (of_number f) with
  | Some seconds => PyTime.add_seconds t seconds
  | None => None
  end.

(** A timestamp as a cell shows it; empty when there is none. *)
Definition timestamp_cell (t : option PyTime.datetime) : pyval :=
  match t with
  | Some t => VStr (PyTime.strftime t)
  | None => empty
  end.

(** The segment rows that [process_segments] writes for the enumerated
    segment names [l]: one for each name that is not skipped, whose header
    is read and whose row is built without an exception. *)
Definition segment_rows (w : world) (full_path : string) (record : header)
  (record_name : string) (start_datetime : pyval) (l : list (nat * string))
  : list row :=
  flat_map
    (fun '(seg_num, name) =>
       if skip_segment name then []
       else match rdheader w (path_join full_path name) with
            | Some seg_header =>
                match segment_row record seg_header record_name
                        start_datetime seg_num name with
                | Some r => [r]
                | None => []
                end
            | None => []
            end) l.

(** The rows that a step added to a table that had [before] rows. *)
Definition added (before after : list row) : list row :=
  skipn (List.length before) after.

(** The segment number written in a segment row. *)
Definition segment_num_of (r : row) : Z :=
  match cell 2 r with
  | VInt n => n
  | _ => -1
  end.

(** ** The admission id, as the specification words it *)

(** The comment holds the substring [hadm_id] and matches
    [hadm_id\s+(\d+)] with capture [g]. *)
Definition hadm_id_form (comment g : string) : Prop :=
  PyStr.contains "hadm_id" (PyStr.lower comment) = true
  /\ PyRe.search_hadm_id comment = Some g.

(** The comment holds the substring [hospital admission id] and matches
    [hospital admission id[:\s]+(\d+)] with capture [g]. *)
Definition hospital_admission_id_form (comment g : string) : Prop :=
  PyStr.contains "hospital admission id" (PyStr.lower comment) = true
  /\ PyRe.search_hospital_admission_id comment = Some g.

(** A successful match of a comment, by either form. *)
Definition admission_id_match (comment g : string) : Prop :=
  hadm_id_form comment g \/ hospital_admission_id_form comment g.

(** The matches that the program looks for: the first form on every
    comment, the second form only on a comment without the substring
    [hadm_id]. *)
Definition admission_id_tried (comment g : string) : Prop :=
  hadm_id_form comment g
  \/ (PyStr.contains "hadm_id" (PyStr.lower comment) = false
      /\ hospital_admission_id_form comment g).

(** ** The numerics rules *)

Inductive rule : Type :=
| RSpo2 | RHeartRate | RRespRate | RNibp | RAbp | RCvp | REtco2
| RTemperature.

(** The rules in the priority of the specification, which is the order of
    the branches of the program. *)
Definition rules_in_priority : list rule :=
  [RSpo2; RHeartRate; RRespRate; RNibp; RAbp; RCvp; REtco2; RTemperature].

(** The name says which pressure of a family it is. *)
Definition names_component (col_lower : string) : bool :=
  PyStr.contains "sys" col_lower || PyStr.contains "dias" col_lower
  || PyStr.contains "mean" col_lower.

(** The substring test of a rule on the lower-cased column name, as the
    specification words it: the two pressure families need their keyword
    and one of [sys], [dias], [mean]. *)
Definition stated_rule_matches (col_lower : string) (ru : rule) : bool :=
  let has_sub := fun sub => PyStr.contains sub col_lower in
  match ru with
  | RSpo2 => has_sub "spo2" || has_sub "sp02"
  | RHeartRate => has_sub "hr" && has_sub "heart"
  | RRespRate => has_sub "rr" && has_sub "resp"
  | RNibp => has_sub "nibp" && names_component col_lower
  | RAbp => has_sub "abp" && names_component col_lower
  | RCvp => has_sub "cvp"
  | REtco2 => has_sub "etco2"
  | RTemperature => has_sub "temp"
  end.

(** First match wins, by the rules of the specification. *)
Definition stated_first_rule (col : string) : option rule :=
  find (stated_rule_matches (PyStr.lower col)) rules_in_priority.

(** The test that guards each branch of the [if]/[elif] chain of the
    program: the two pressure branches are entered on their keyword
    alone. *)
Definition rule_matches (col_lower : string) (ru : rule) : bool :=
  let has_sub := fun sub => PyStr.contains sub col_lower in
  match ru with
  | RSpo2 => has_sub "spo2" || has_sub "sp02"
  | RHeartRate => has_sub "hr" && has_sub "heart"
  | RRespRate => has_sub "rr" && has_sub "resp"
  | RNibp => has_sub "nibp"
  | RAbp => has_sub "abp"
  | RCvp => has_sub "cvp"
  | REtco2 => has_sub "etco2"
  | RTemperature => has_sub "temp"
  end.

(** The branch of the chain that a column enters. *)
Definition first_rule (col : string) : option rule :=
  find (rule_matches (PyStr.lower col)) rules_in_priority.

(** The slot of a pressure family: one of [sys], [dias], [mean]. *)
Definition pressure_slot (col_lower : string) (sys dias mean : slot)
  : option slot :=
  if PyStr.contains "sys" col_lower then Some sys
  else if PyStr.contains "dias" col_lower then Some dias
  else if PyStr.contains "mean" col_lower then Some mean
  else None.

Definition as_int (value : PyFloat.float) : option pyval :=
  option_map VInt (PyInt.of_float value).

Definition as_float (value : PyFloat.float) : option pyval :=
  Some (VFloat value).

(** The slot that a rule fills and the conversion of the value. *)
Definition rule_target (col_lower : string) (ru : rule)
  : option (slot * (PyFloat.float -> option pyval)) :=
  match ru with
  | RSpo2 => Some (Spo2, as_int)
  | RHeartRate => Some (Hr, as_int)
  | RRespRate => Some (Rr, as_int)
  | RNibp =>
      option_map (fun k => (k, as_int))
        (pressure_slot col_lower NibpSys NibpDias NibpMean)
  | RAbp =>
      option_map (fun k => (k, as_int))
        (pressure_slot col_lower AbpSys AbpDias AbpMean)
  | RCvp => Some (Cvp, as_float)
  | REtco2 => Some (Etco2, as_float)
  | RTemperature => Some (Temp, as_float)
  end.

(** What is done with a column that has a value, given the rule [ru] that
    it matches first, if any: the rule's slot takes the converted value; a
    column without a rule goes to the generic slot if that is still
    empty. *)
Definition assign_by (ru : option rule) (col : string)
  (value : PyFloat.float) (st : locals) : option locals :=
  match ru with
  | Some ru =>
      match rule_target (PyStr.lower col) ru with
      | Some (k, conv) => option_map (assign st k) (conv value)
      | None => Some st
      end
  | None =>
      if truthy (st MeasName) then Some st
      else Some (assign (assign st MeasName (VStr col)) MeasVal
                   (VFloat value))
  end.

(** A column classified by the branches of the chain. *)
Definition classified_assign (col : string) (value : PyFloat.float)
  (st : locals) : option locals :=
  assign_by (first_rule col) col value st.

(** A column classified by the rules of the specification. *)
Definition stated_assign (col : string) (value : PyFloat.float)
  (st : locals) : option locals :=
  assign_by (stated_first_rule col) col value st.

(** A column that fails the three rules before the pressure families and
    holds [nibp] or [abp] without naming one of [sys], [dias], [mean]. *)
Definition dropped (col : string) : bool :=
  let u := PyStr.lower col in
  negb (stated_rule_matches u RSpo2)
  && negb (stated_rule_matches u RHeartRate)
  && negb (stated_rule_matches u RRespRate)
  && (PyStr.contains "nibp" u || PyStr.contains "abp" u)
  && negb (names_component u).

(** The classification of the specification, but for the dropped columns,
    which change nothing. *)
Definition amended_assign (col : string) (value : PyFloat.float)
  (st : locals) : option locals :=
  if dropped col then Some st else stated_assign col value st.

(** The variables after the columns [cols] of the row [r], each column
    with a value classified by [classify]. *)
Definition classify_row
  (classify : string -> PyFloat.float -> locals -> option locals)
  (r : list (string * PyFloat.float)) (cols : list string)
  : option locals :=
  for_each
    (fun st col =>
       match lookup col r with
       | None => None
       | Some value =>
           if PyFloat.is_nan value then Some st else classify col value st
       end)
    cols initial_locals.

(** The three generic variables. *)
Definition generic (st : locals) : pyval * pyval * pyval :=
  (st MeasName, st MeasVal, st MeasUnit).

(** The first of the columns [cols] that has a value in the row [r] and
    is [unmatched]. *)
Fixpoint first_with_value (unmatched : string -> bool)
  (r : list (string * PyFloat.float)) (cols : list string)
  : option (string * PyFloat.float) :=
  match cols with
  | [] => None
  | col :: cols' =>
      match lookup col r with
      | Some value =>
          if negb (PyFloat.is_nan value) && unmatched col
          then Some (col, value)
          else first_with_value unmatched r cols'
      | None => first_with_value unmatched r cols'
      end
  end.

(** No rule of the specification matches the column. *)
Definition stated_unmatched (col : string) : bool :=
  match stated_first_rule col with Some _ => false | None => true end.

(** The column enters no branch of the chain. *)
Definition unmatched (col : string) : bool :=
  match first_rule col with Some _ => false | None => true end.

(** The first unmatched column with a value, by the branches of the
    chain. *)
Definition first_unmatched (r : list (string * PyFloat.float))
  (cols : list string) : option (string * PyFloat.float) :=
  first_with_value unmatched r cols.

(** The cells of a numerics row after the tick counter: the twelve vital
    signs and the generic triple. *)
Definition measurement_cells (st : locals) : row :=
  [st Hr; st Rr; st Spo2; st NibpSys; st NibpDias; st NibpMean;
   st AbpSys; st AbpDias; st AbpMean; st Cvp; st Etco2; st Temp;
   st MeasName; st MeasVal; st MeasUnit].

(** A frame with the columns [time], [NIBP] and [Foo] and one row. *)
Definition frame_with_plain_nibp : dataframe :=
  {| df_columns := ["time"; "NIBP"; "Foo"];
     df_rows := [[("time", PyFloat.of_ratio 1 1);
                  ("NIBP", PyFloat.of_ratio 120 1);
                  ("Foo", PyFloat.of_ratio 7 1)]] |}.

(** ** The corpus, as the specification words it *)

(** [entry] is the tuple of a conforming record directory of the tree
    [root]: a directory [record_name] holding [record_name.hea], inside a
    subject directory [p<int>], inside a group directory [p...]. *)
Definition discovered (root : Fs.node) (entry : record_entry) : Prop :=
  exists group p_dir subject patient_dir record_name record_dir subject_id,
    In (group, p_dir) (Fs.iterdir root)
    /\ PyStr.startswith group "p" = true /\ Fs.is_dir p_dir = true
    /\ In (subject, patient_dir) (Fs.iterdir p_dir)
    /\ PyStr.startswith subject "p" = true /\ Fs.is_dir patient_dir = true
    /\ In (record_name, record_dir) (Fs.iterdir patient_dir)
    /\ Fs.is_dir record_dir = true
    /\ Fs.exists_in record_dir (record_name ++ ".hea") = true
    /\ PyInt.of_string (PyStr.drop1 subject) = Some subject_id
    /\ entry = (path_join (path_join group subject) record_name,
                record_name, subject_id).

(** Every subject directory that holds a record directory with its header
    has a name that [int] accepts after the [p]. *)
Definition numeric_subjects (root : Fs.node) : Prop :=
  forall group p_dir subject patient_dir record_name record_dir,
    In (group, p_dir) (Fs.iterdir root) ->
    PyStr.startswith group "p" = true -> Fs.is_dir p_dir = true ->
    In (subject, patient_dir) (Fs.iterdir p_dir) ->
    PyStr.startswith subject "p" = true -> Fs.is_dir patient_dir = true ->
    In (record_name, record_dir) (Fs.iterdir patient_dir) ->
    Fs.is_dir record_dir = true ->
    Fs.exists_in record_dir (record_name ++ ".hea") = true ->
    PyInt.of_string (PyStr.drop1 subject) <> None.

(** The lists given by [f] for the elements of [l], one after the other;
    [None] as soon as [f] gives [None]. *)
Fixpoint collect {A B : Type} (f : A -> option (list B)) (l : list A)
  : option (list B) :=
  match l with
  | [] => Some []
  | x :: l' =>
      match f x with
      | Some xs => option_map (app xs) (collect f l')
      | None => None
      end
  end.

(** What each level of the scan appends to [records]. *)
Definition record_dir_entries (group subject : string)
  (e : string * Fs.node) : option (list record_entry) :=
  let (record_name, record_dir) := e in
  if Fs.is_dir record_dir
     && Fs.exists_in record_dir (record_name ++ ".hea")
  then option_map
         (fun subject_id =>
            [(path_join (path_join group subject) record_name, record_name,
              subject_id)])
         (PyInt.of_string (PyStr.drop1 subject))
  else Some [].

Definition patient_dir_entries (group : string) (e : string * Fs.node)
  : option (list record_entry) :=
  let (subject, patient_dir) := e in
  if Fs.is_dir patient_dir
  then collect (record_dir_entries group subject)
         (Fs.sorted (Fs.iterdir patient_dir))
  else Some [].

Definition p_dir_entries (e : string * Fs.node)
  : option (list record_entry) :=
  let (group, p_dir) := e in
  if Fs.is_dir p_dir
  then collect (patient_dir_entries group) (Fs.sorted (Fs.glob_p p_dir))
  else Some [].

(** A tree with a subject directory [pabc]: its record [rec1] and the
    record [r] of the subject [p10100001] both have their header. *)
Definition tree_with_named_subject : Fs.node :=
  let record name := Fs.Dir [(name ++ ".hea", Fs.File)] in
  Fs.Dir [("p100", Fs.Dir [("pabc", Fs.Dir [("rec1", record "rec1")])]);
          ("p101", Fs.Dir [("p10100001", Fs.Dir [("r", record "r")])])].

(** A tree with entries of every kind that the scan passes over. *)
Definition tree_with_strays : Fs.node :=
  let record name := Fs.Dir [(name ++ ".hea", Fs.File)] in
  Fs.Dir [("README", Fs.File); ("pfile", Fs.File);
          ("x100", Fs.Dir [("p1", Fs.Dir [("a", record "a")])]);
          ("p101", Fs.Dir [("p10100002", Fs.Dir [("b", record "b");
                                                 ("notes", Fs.File);
                                                 ("empty", Fs.Dir [])]);
                           ("pabc", Fs.Dir [("empty", Fs.Dir [])]);
                           ("q5", Fs.Dir [("c", record "c")]);
                           ("p10100001", Fs.Dir [("r", record "r")])])].

(** ** The subject id, as the specification words it *)

(** The comment holds the substring [subject_id] and matches
    [subject_id\s+(\d+)]; [n] is the captured integer. *)
Definition subject_id_form (comment : string) (n : Z) : Prop :=
  PyStr.contains "subject_id" (PyStr.lower comment) = true
  /\ exists g, PyRe.search_subject_id comment = Some g
               /\ n = PyInt.decimal_value g.

(** ** What one record adds to the tables *)

(** Four empty tables. *)
Definition no_rows : tables :=
  {| waveform_records := []; waveform_segments := [];
     waveform_signals := []; waveform_numerics := [] |}.

(** The tables [t] followed, table by table, by the rows of [d]. *)
Definition extend (t d : tables) : tables :=
  {| waveform_records := waveform_records t ++ waveform_records d;
     waveform_segments := waveform_segments t ++ waveform_segments d;
     waveform_signals := waveform_signals t ++ waveform_signals d;
     waveform_numerics := waveform_numerics t ++ waveform_numerics d |}%list.

(** The results of [f] on the elements of [l] up to the first element on
    which [f] raises: what a loop writes before an exception ends it. *)
Fixpoint while_some {A B : Type} (f : A -> option B) (l : list A) : list B :=
  match l with
  | [] => []
  | x :: l' =>
      match f x with
      | Some y => y :: while_some f l'
      | None => []
      end
  end.

(** The signal rows written for one segment whose row was written. *)
Definition signal_rows (seg_header : header) (record_name : string)
  (seg_num : nat) : list row :=
  match signal_range seg_header with
  | Some indices =>
      while_some (signal_row seg_header record_name seg_num) indices
  | None => []
  end.

(** The signal rows written for the enumerated segment names [l]. *)
Definition segment_signal_rows (w : world) (full_path : string)
  (record : header) (record_name : string) (start_datetime : pyval)
  (l : list (nat * string)) : list row :=
  flat_map
    (fun '(seg_num, name) =>
       if skip_segment name then []
       else match rdheader w (path_join full_path name) with
            | Some seg_header =>
                match segment_row record seg_header record_name
                        start_datetime seg_num name with
                | Some _ => signal_rows seg_header record_name seg_num
                | None => []
                end
            | None => []
            end) l.

(** The numerics rows written for one record. *)
Definition numerics_rows (w : world) (full_path : string) (record : header)
  (record_name : string) (base_freq : pyval) : list row :=
  match read_numerics w (path_join full_path (record_name ++ "n.csv.gz"))
  with
  | Frame df =>
      match df_columns df with
      | time_col :: cols =>
          while_some
            (numerics_row record record_name base_freq time_col cols)
            (df_rows df)
      | [] => []
      end
  | _ => []
  end.

(** The rows that the record [entry] adds to the four tables. *)
Definition record_delta (w : world) (data_dir : string)
  (skip_numerics : bool) (entry : record_entry) : tables :=
  let '(record_path, record_name, _) := entry in
  let full_path := path_join data_dir record_path in
  match rdheader w (record_file data_dir entry) with
  | Some record =>
      match record_row record entry with
      | Some r =>
          let start_datetime :=
            format_start (get_or_empty VDatetime (base_datetime record)) in
          let names :=
            match seg_name record with
            | Val names => enumerate names
            | _ => []
            end in
          {| waveform_records := [r];
             waveform_segments :=
               segment_rows w full_path record record_name start_datetime
                 names;
             waveform_signals :=
               segment_signal_rows w full_path record record_name
                 start_datetime names;
             waveform_numerics :=
               if skip_numerics then []
               else numerics_rows w full_path record record_name
                      (get_or_empty of_number (fs record)) |}
      | None => no_rows
      end
  | None => no_rows
  end.

(** The rows that a list of records adds, record after record. *)
Fixpoint records_delta (w : world) (data_dir : string)
  (skip_numerics : bool) (records : list record_entry) : tables :=
  match records with
  | [] => no_rows
  | entry :: records' =>
      extend (record_delta w data_dir skip_numerics entry)
        (records_delta w data_dir skip_numerics records')
  end.

(** A column writes the slot [k]: it has a value and its first rule fills
    [k]. *)
Definition writes_slot (r : list (string * PyFloat.float)) (col : string)
  (k : slot) : Prop :=
  exists value ru conv,
    lookup col r = Some value /\ PyFloat.is_nan value = false
    /\ first_rule col = Some ru
    /\ rule_target (PyStr.lower col) ru = Some (k, conv).

(** The lead names that are not an extension of another lead name. *)
Definition short_leads : list string :=
  ["I"; "AVR"; "AVL"; "AVF"; "V"; "MCL"; "AI"; "AS"; "ES"].

(** An ASCII character. *)
Definition is_ascii (c : ascii) : bool := (PyStr.code c <? 128)%N.

(** Every character of [s] satisfies [p]. *)
Fixpoint all_chars (p : ascii -> bool) (s : string) : bool :=
  match s with
  | EmptyString => true
  | String c s' => p c && all_chars p s'
  end.

(** A subject directory of the tree whose name [int] rejects after the
    [p] although it holds a record directory with its header. *)
Definition offending (root : Fs.node) : Prop :=
  exists group p_dir subject patient_dir record_name record_dir,
    In (group, p_dir) (Fs.iterdir root)
    /\ PyStr.startswith group "p" = true /\ Fs.is_dir p_dir = true
    /\ In (subject, patient_dir) (Fs.iterdir p_dir)
    /\ PyStr.startswith subject "p" = true /\ Fs.is_dir patient_dir = true
    /\ In (record_name, record_dir) (Fs.iterdir patient_dir)
    /\ Fs.is_dir record_dir = true
    /\ Fs.exists_in record_dir (record_name ++ ".hea") = true
    /\ PyInt.of_string (PyStr.drop1 subject) = None.

(** The names of the subject directories of the tree are ASCII text of at
    most 255 characters, the longest name that a file system takes. *)
Definition ascii_subjects (root : Fs.node) : Prop :=
  forall group p_dir subject patient_dir,
    In (group, p_dir) (Fs.iterdir root) ->
    In (subject, patient_dir) (Fs.iterdir p_dir) ->
    all_chars is_ascii subject = true
    /\ (String.length subject <= 255)%nat.

(** The header of the record can be read and its comments and segment
    names, when present, are not [None]: nothing raises before the record
    row is written. *)
Definition row_written (w : world) (data_dir : string)
  (entry : record_entry) : bool :=
  match rdheader w (record_file data_dir entry) with
  | Some record =>
      match comments record, seg_name record with
      | PyNone, _ | _, PyNone => false
      | _, _ => true
      end
  | None => false
  end.

(** In the data directory, in its group directories and in their subject
    directories no two entries have the same name. *)
Definition unique_names (root : Fs.node) : Prop :=
  NoDup (map fst (Fs.iterdir root))
  /\ forall group p_dir,
       In (group, p_dir) (Fs.iterdir root) ->
       NoDup (map fst (Fs.iterdir p_dir))
       /\ forall subject patient_dir,
            In (subject, patient_dir) (Fs.iterdir p_dir) ->
            NoDup (map fst (Fs.iterdir patient_dir)).

(** Group, subject and record name of a record directory. *)
Definition scan_key : Type := string * string * string.

(** The tuple that the scan appends for the record directory [k]. *)
Definition entry_of_key (k : scan_key) (subject_id : Z) : record_entry :=
  let '(group, subject, record_name) := k in
  (path_join (path_join group subject) record_name, record_name, subject_id).

(** [k1] comes strictly before [k2]: by group name, then by subject name,
    then by record name, each compared as strings. *)
Definition key_lt (k1 k2 : scan_key) : Prop :=
  let '(g1, s1, r1) := k1 in
  let '(g2, s2, r2) := k2 in
  String.ltb g1 g2 = true
  \/ (g1 = g2
      /\ (String.ltb s1 s2 = true
          \/ (s1 = s2 /\ String.ltb r1 r2 = true))).

(** The tuple [e1] belongs to a record directory that comes before the one
    of [e2]. *)
Definition entry_before (e1 e2 : record_entry) : Prop :=
  exists k1 k2 sid1 sid2,
    e1 = entry_of_key k1 sid1 /\ e2 = entry_of_key k2 sid2 /\ key_lt k1 k2.

(** The name of [x] is at most the name of [y], as strings. *)
Definition name_le (x y : string * Fs.node) : Prop :=
  String.leb (fst x) (fst y) = true.

(** The name of [x] is strictly before the name of [y]. *)
Definition name_lt (x y : string * Fs.node) : Prop :=
  String.ltb (fst x) (fst y) = true.


(** * Properties *)

(** ** The effects of the loops *)

Section Effects.

Variable proj : tables -> list row.

Lemma keeps_ret {A} (a : A) : keeps proj (IO.ret a).
Proof. intros t. reflexivity. Qed.

Lemma keeps_lift {A} (o : option A) : keeps proj (IO.lift o).
Proof. intros t. reflexivity. Qed.

Lemma keeps_bind {A B} (m : IO.M A) (k : A -> IO.M B) :
  keeps proj m -> (forall a, keeps proj (k a)) -> keeps proj (IO.bind m k).
Proof.
  intros Hm Hk t. unfold IO.bind. specialize (Hm t).
  destruct (m t) as [[a|] t']; simpl in *.
  - rewrite Hk. exact Hm.
  - exact Hm.
Qed.

Lemma keeps_catch (m : IO.M unit) : keeps proj m -> keeps proj (IO.catch m).
Proof. intros Hm t. unfold IO.catch. simpl. apply Hm. Qed.

Lemma keeps_for_loop {A} (l : list A) (body : A -> IO.M unit) :
  (forall x, keeps proj (body x)) -> keeps proj (IO.for_loop l body).
Proof.
  intros Hb. induction l as [|x l IH]; simpl.
  - apply keeps_ret.
  - apply keeps_bind; [apply Hb|intros _; exact IH].
Qed.

End Effects.

Lemma process_segment_keeps (proj : tables -> list row) w full_path record
  record_name start_datetime seg_num name :
  (forall r, keeps proj (IO.write_segment r)) ->
  (forall r, keeps proj (IO.write_signal r)) ->
  keeps proj (process_segment w full_path record record_name start_datetime
                seg_num name).
Proof.
  intros Hseg Hsig. unfold process_segment.
  repeat (apply keeps_bind; [try apply keeps_lift; try apply Hseg|intros ?]).
  apply keeps_for_loop. intros x.
  apply keeps_bind; [apply keeps_lift|intros ?; apply Hsig].
Qed.

Lemma process_segments_keeps (proj : tables -> list row) w full_path record
  record_name start_datetime :
  (forall r, keeps proj (IO.write_segment r)) ->
  (forall r, keeps proj (IO.write_signal r)) ->
  keeps proj (process_segments w full_path record record_name
                start_datetime).
Proof.
  intros Hseg Hsig. unfold process_segments.
  destruct (seg_name record); try apply keeps_ret; try apply keeps_lift.
  apply keeps_for_loop. intros [seg_num name].
  destruct (skip_segment name); [apply keeps_ret|].
  apply keeps_catch, process_segment_keeps; assumption.
Qed.

Lemma process_numerics_keeps (proj : tables -> list row) w full_path record
  record_name base_freq :
  (forall r, keeps proj (IO.write_numerics r)) ->
  keeps proj (process_numerics w full_path record record_name base_freq).
Proof.
  intros Hnum. unfold process_numerics.
  destruct (read_numerics w _); try apply keeps_ret.
  apply keeps_catch.
  apply keeps_bind; [apply keeps_lift|intros time_col].
  apply keeps_for_loop. intros r.
  apply keeps_bind; [apply keeps_lift|intros ?; apply Hnum].
Qed.

(** [process_record] never raises: the outer [try] catches everything. *)
Lemma process_record_returns w data_dir skip_numerics entry t :
  fst (process_record w data_dir skip_numerics entry t) = Some tt.
Proof. reflexivity. Qed.

(** A loop whose body never raises runs every iteration. *)
Lemma for_loop_total {A} (body : A -> IO.M unit) (l : list A) (t : tables) :
  (forall x t', fst (body x t') = Some tt) ->
  IO.for_loop l body t
  = (Some tt, fold_left (fun t' x => snd (body x t')) l t).
Proof.
  intros Hb. revert t. induction l as [|x l IH]; intros t; simpl.
  - reflexivity.
  - unfold IO.bind. specialize (Hb x t).
    destruct (body x t) as [[[]|] t']; simpl in *; [apply IH|discriminate].
Qed.

(** ** The two comment loops compute the same identifiers *)

Lemma read_comment_scan_comment (st : UpdateRecords.ids) (comment : string) :
  scan_comment (UpdateRecords.hadm_id st,
                UpdateRecords.subject_id_from_header st) comment
  = (UpdateRecords.hadm_id (UpdateRecords.read_comment st comment),
     UpdateRecords.subject_id_from_header
       (UpdateRecords.read_comment st comment)).
Proof.
  unfold scan_comment, UpdateRecords.read_comment, hadm_id_match,
    subject_id_match.
  destruct (PyStr.contains "hadm_id" (PyStr.lower comment));
    [destruct (PyRe.search_hadm_id comment)|
     destruct (PyStr.contains "hospital admission id" (PyStr.lower comment));
     [destruct (PyRe.search_hospital_admission_id comment)|]];
    (destruct (PyStr.contains "subject_id" (PyStr.lower comment));
     [destruct (PyRe.search_subject_id comment)|]); reflexivity.
Qed.

Lemma read_comments_scan_comments (l : list string) (st : UpdateRecords.ids) :
  fold_left scan_comment l
    (UpdateRecords.hadm_id st, UpdateRecords.subject_id_from_header st)
  = (UpdateRecords.hadm_id (UpdateRecords.read_comments l st),
     UpdateRecords.subject_id_from_header (UpdateRecords.read_comments l st)).
Proof.
  revert st. induction l as [|c l IH]; intros st;
    cbn [fold_left UpdateRecords.read_comments].
  - reflexivity.
  - rewrite read_comment_scan_comment. apply IH.
Qed.

(** ** The record row of the full extractor *)

Lemma after_record_keeps_records w full_path record record_name
  start_datetime base_freq (skip_numerics : bool) :
  keeps waveform_records
    (process_segments w full_path record record_name start_datetime ;;;
     if skip_numerics then IO.ret tt
     else process_numerics w full_path record record_name base_freq).
Proof.
  apply keeps_bind.
  - apply process_segments_keeps; intros r t; reflexivity.
  - intros _. destruct skip_numerics; [apply keeps_ret|].
    apply process_numerics_keeps; intros r t; reflexivity.
Qed.

(** The records table after the body of one iteration: the row of
    [record_row] is appended when the header is read and no statement
    before [records_writer.writerow] raises. *)
Lemma process_record_body_records w data_dir skip_numerics entry t :
  waveform_records
    (snd (process_record_body w data_dir skip_numerics entry t))
  = (waveform_records t ++
     match rdheader w (record_file data_dir entry) with
     | Some record =>
         match record_row record entry with
         | Some r => [r]
         | None => []
         end
     | None => []
     end)%list.
Proof.
  destruct entry as [[record_path record_name] subject_id].
  unfold process_record_body, record_file.
  unfold IO.bind at 1. unfold IO.lift at 1.
  destruct (rdheader w _) as [record|]; [|symmetry; apply app_nil_r].
  unfold record_row.
  unfold IO.bind at 1. unfold IO.lift at 1.
  destruct (scan_comments record) as [[hadm_id sid]|];
    [|symmetry; apply app_nil_r].
  unfold IO.bind at 1. unfold IO.lift at 1.
  destruct (num_segments_of record) as [num_segments|];
    [|symmetry; apply app_nil_r].
  unfold IO.bind at 1. unfold IO.write_record at 1.
  rewrite after_record_keeps_records. reflexivity.
Qed.

Lemma record_row_row_of_header (record : header) (entry : record_entry) :
  record_row record entry = UpdateRecords.row_of_header record entry.
Proof.
  destruct entry as [[record_path record_name] subject_id].
  unfold record_row, UpdateRecords.row_of_header, scan_comments.
  destruct (comments record) as [| |l].
  - unfold num_segments_of. destruct (seg_name record); reflexivity.
  - reflexivity.
  - pose proof (read_comments_scan_comments l
      {| UpdateRecords.hadm_id := "";
         UpdateRecords.subject_id_from_header := None |}) as Hs.
    cbn [UpdateRecords.hadm_id UpdateRecords.subject_id_from_header] in Hs.
    rewrite Hs. unfold num_segments_of, resolve_subject_id.
    destruct (seg_name record); try reflexivity;
      destruct (UpdateRecords.subject_id_from_header _) as [n|];
      try destruct (n =? 0); reflexivity.
Qed.

(** What one iteration of [extract_metadata] does to [waveform_records] is
    what one iteration of [extract_records_metadata] does to its file. *)
Lemma process_record_records w data_dir skip_numerics entry t :
  waveform_records (snd (process_record w data_dir skip_numerics entry t))
  = UpdateRecords.write_record_row w data_dir (waveform_records t) entry.
Proof.
  unfold process_record, IO.catch. cbn [snd].
  rewrite process_record_body_records.
  unfold UpdateRecords.write_record_row, record_file.
  destruct entry as [[record_path record_name] subject_id].
  destruct (rdheader w _) as [record|]; [|apply app_nil_r].
  rewrite record_row_row_of_header.
  destruct (UpdateRecords.row_of_header record _);
    [reflexivity|apply app_nil_r].
Qed.

(** ** The segment table *)

Lemma added_app (before new : list row) :
  added before (before ++ new) = new.
Proof.
  unfold added. induction before as [|x before IH]; simpl; auto.
Qed.

Lemma process_segment_segments w full_path record record_name
  start_datetime seg_num name t :
  waveform_segments
    (snd (process_segment w full_path record record_name start_datetime
            seg_num name t))
  = (waveform_segments t ++
     match rdheader w (path_join full_path name) with
     | Some seg_header =>
         match segment_row record seg_header record_name start_datetime
                 seg_num name with
         | Some r => [r]
         | None => []
         end
     | None => []
     end)%list.
Proof.
  unfold process_segment.
  unfold IO.bind at 1. unfold IO.lift at 1.
  destruct (rdheader w _) as [seg_header|]; [|symmetry; apply app_nil_r].
  unfold IO.bind at 1. unfold IO.lift at 1.
  destruct (segment_row _ _ _ _ _ _) as [r|]; [|symmetry; apply app_nil_r].
  unfold IO.bind at 1. unfold IO.write_segment at 1.
  rewrite keeps_bind; [reflexivity|apply keeps_lift|].
  intros indices. apply keeps_for_loop. intros sig_idx.
  apply keeps_bind; [apply keeps_lift|intros s t'; reflexivity].
Qed.

Lemma segment_loop_segments w full_path record record_name start_datetime
  (l : list (nat * string)) (t : tables) :
  waveform_segments
    (snd (IO.for_loop l
            (fun '(seg_num, name) =>
               if skip_segment name then IO.ret tt
               else IO.catch (process_segment w full_path record record_name
                                start_datetime seg_num name)) t))
  = (waveform_segments t
     ++ segment_rows w full_path record record_name start_datetime l)%list.
Proof.
  revert t. induction l as [|[seg_num name] l IH]; intros t.
  - symmetry. apply app_nil_r.
  - cbn [IO.for_loop segment_rows flat_map]. unfold IO.bind at 1.
    destruct (skip_segment name).
    + cbn [IO.ret]. rewrite IH. reflexivity.
    + unfold IO.catch at 1. rewrite IH. cbn [snd].
      rewrite process_segment_segments, <- app_assoc. reflexivity.
Qed.

Lemma process_segments_segments w full_path record record_name
  start_datetime t :
  waveform_segments
    (snd (process_segments w full_path record record_name start_datetime t))
  = (waveform_segments t ++
     match seg_name record with
     | Val names =>
         segment_rows w full_path record record_name start_datetime
           (enumerate names)
     | _ => []
     end)%list.
Proof.
  unfold process_segments.
  destruct (seg_name record) as [| |names];
    [symmetry; apply app_nil_r|symmetry; apply app_nil_r|].
  apply segment_loop_segments.
Qed.

(** The segment table after one iteration of the loop over the records. *)
Lemma process_record_segments w data_dir skip_numerics entry t :
  waveform_segments (snd (process_record w data_dir skip_numerics entry t))
  = (waveform_segments t ++
     match rdheader w (record_file data_dir entry) with
     | Some record =>
         match record_row record entry, seg_name record with
         | Some _, Val names =>
             segment_rows w
               (path_join data_dir (fst (fst entry))) record
               (snd (fst entry))
               (format_start (get_or_empty VDatetime (base_datetime record)))
               (enumerate names)
         | _, _ => []
         end
     | None => []
     end)%list.
Proof.
  destruct entry as [[record_path record_name] subject_id].
  unfold process_record, IO.catch, process_record_body, record_file.
  cbn [snd fst].
  unfold IO.bind at 1. unfold IO.lift at 1.
  destruct (rdheader w _) as [record|]; [|symmetry; apply app_nil_r].
  unfold record_row.
  unfold IO.bind at 1. unfold IO.lift at 1.
  destruct (scan_comments record) as [[hadm_id sid]|];
    [|symmetry; apply app_nil_r].
  unfold IO.bind at 1. unfold IO.lift at 1.
  destruct (num_segments_of record) as [num_segments|];
    [|symmetry; apply app_nil_r].
  unfold IO.bind at 1. unfold IO.write_record at 1.
  unfold IO.bind at 1.
  match goal with
  | |- context [process_segments ?a ?b ?c ?d ?e ?t0] =>
      pose proof (process_segments_segments a b c d e t0) as Hseg;
      destruct (process_segments a b c d e t0) as [[[]|] t1]
  end; cbn [snd] in Hseg |- *.
  - destruct skip_numerics.
    + cbn [IO.ret snd]. exact Hseg.
    + rewrite process_numerics_keeps by (intros r t'; reflexivity).
      exact Hseg.
  - exact Hseg.
Qed.
(** ** The signal classifier *)

Section Classifier.

Lemma prefix_app_l (a b s : string) :
  prefix (a ++ b) s = true -> prefix a s = true.
Proof.
  revert s. induction a as [|c a IH]; intros s; simpl.
  - intros _. destruct s; reflexivity.
  - destruct s as [|d s]; simpl; [discriminate|].
    destruct (ascii_dec c d); [apply IH|discriminate].
Qed.

Lemma prefix_app_r (a b s : string) :
  prefix (a ++ b) s = true -> exists s', s = a ++ s' /\ prefix b s' = true.
Proof.
  revert s. induction a as [|c a IH]; intros s; simpl.
  - intros H. exists s. split; [reflexivity|exact H].
  - destruct s as [|d s]; simpl; [discriminate|].
    destruct (ascii_dec c d) as [->|]; [|discriminate].
    intros H. destruct (IH _ H) as (s' & -> & Hp).
    exists s'. split; [reflexivity|exact Hp].
Qed.

Lemma contains_nil (sub : string) :
  PyStr.contains sub EmptyString = prefix sub EmptyString.
Proof. simpl. apply orb_false_r. Qed.

Lemma contains_cons (sub : string) (c : ascii) (s : string) :
  PyStr.contains sub (String c s)
  = prefix sub (String c s) || PyStr.contains sub s.
Proof. reflexivity. Qed.

Lemma contains_tail (sub : string) (c : ascii) (s : string) :
  PyStr.contains sub s = true -> PyStr.contains sub (String c s) = true.
Proof. intros H. simpl. rewrite H. apply orb_true_r. Qed.

Lemma contains_skip (sub a s : string) :
  PyStr.contains sub s = true -> PyStr.contains sub (a ++ s) = true.
Proof.
  induction a as [|c a IH]; intros H; simpl append.
  - exact H.
  - apply contains_tail, IH, H.
Qed.

Lemma contains_of_prefix (sub s : string) :
  prefix sub s = true -> PyStr.contains sub s = true.
Proof.
  intros H. destruct s; [rewrite contains_nil|rewrite contains_cons, H];
    auto.
Qed.

(** Whoever contains a word contains its beginning and its end. *)
Lemma contains_app_l (a b s : string) :
  PyStr.contains (a ++ b) s = true -> PyStr.contains a s = true.
Proof.
  induction s as [|c s IH].
  - rewrite !contains_nil. apply prefix_app_l.
  - rewrite !contains_cons. intros H.
    apply orb_true_iff in H. destruct H as [H|H].
    + rewrite (prefix_app_l _ _ _ H). reflexivity.
    + rewrite (IH H). apply orb_true_r.
Qed.

Lemma contains_app_r (a b s : string) :
  PyStr.contains (a ++ b) s = true -> PyStr.contains b s = true.
Proof.
  induction s as [|c s IH].
  - rewrite !contains_nil. intros H.
    apply prefix_app_r in H. destruct H as (s' & Hs & Hp).
    destruct a; [|discriminate]. simpl in Hs. subst s'. exact Hp.
  - rewrite contains_cons. intros H.
    apply orb_true_iff in H. destruct H as [H|H].
    + apply prefix_app_r in H. destruct H as (s' & -> & Hp).
      apply contains_skip, contains_of_prefix, Hp.
    + apply contains_tail, IH, H.
Qed.

Lemma pressure_rule_of_P (u : string) :
  PyStr.contains "P" u = true ->
  existsb (fun pressure => PyStr.contains pressure u) pressure_types = true.
Proof.
  intros H. apply existsb_exists. exists "P". split; [|exact H].
  unfold pressure_types. simpl. intuition.
Qed.

(** The branches for [PLETH] and [RESP] come after the pressure rule, whose
    list holds the one-letter code [P]: they can never be taken. *)
Lemma plethysmogram_respiration_unreachable (signal_name : string) :
  categorize_signal_type signal_name <> Plethysmogram /\
  categorize_signal_type signal_name <> Respiration.
Proof.
  unfold categorize_signal_type.
  set (u := PyStr.upper signal_name).
  destruct (existsb _ ecg_leads); [split; discriminate|].
  destruct (existsb _ pressure_types) eqn:Hp; [split; discriminate|].
  destruct (PyStr.contains "PLETH" u) eqn:Hpl.
  { apply (contains_app_l "P" "LETH"), pressure_rule_of_P in Hpl.
    congruence. }
  destruct (PyStr.contains "RESP" u) eqn:Hr.
  { apply (contains_app_r "RES" "P"), pressure_rule_of_P in Hr.
    congruence. }
  destruct (PyStr.contains "CO2" u); split; discriminate.
Qed.

(** C1 (as the code behaves): of the six labels of the specification,
    [II] is ECG, [ABP] is Pressure, [CO2] is Capnography and [XYZ] is Other,
    but [PLETH] and [RESP] are classified as Pressure, not as Plethysmogram
    and Respiration: the pressure rule, checked earlier, matches the
    letter [P] in them. *)
Theorem categorize_pleth_resp_as_pressure :
  categorize_signal_type "II" = ECG /\
  categorize_signal_type "ABP" = Pressure /\
  categorize_signal_type "PLETH" = Pressure /\
  categorize_signal_type "RESP" = Pressure /\
  categorize_signal_type "CO2" = Capnography /\
  categorize_signal_type "XYZ" = Other.
Proof. repeat split; vm_compute; reflexivity. Qed.

End Classifier.

(** ** A record whose header cannot be read *)

Section FailedRecord.

Variables (w : world) (data_dir : string) (skip_numerics : bool).

(** The run is a fold of the per-record step over the records. *)
Lemma extract_metadata_fold (records : list record_entry) :
  extract_metadata w data_dir records skip_numerics
  = fold_left
      (fun t entry => snd (process_record w data_dir skip_numerics entry t))
      records (opened skip_numerics).
Proof.
  unfold extract_metadata. rewrite for_loop_total; [reflexivity|].
  intros x t'. apply process_record_returns.
Qed.

(** C9: when reading the header of a record raises, processing that record
    leaves all four tables as they were, and the run over a list of records
    that contains it gives the tables of the run over the list without it:
    the records before and after it are processed as usual. *)
Theorem unreadable_record_leaves_no_row (entry : record_entry) :
  rdheader w (record_file data_dir entry) = None ->
  (forall t, process_record w data_dir skip_numerics entry t = (Some tt, t))
  /\ (forall pre post,
        extract_metadata w data_dir (pre ++ entry :: post) skip_numerics
        = extract_metadata w data_dir (pre ++ post) skip_numerics).
Proof.
  intros Hread.
  assert (forall t, process_record w data_dir skip_numerics entry t
                    = (Some tt, t)) as Hskip.
  { intros t. destruct entry as [[record_path record_name] subject_id].
    unfold process_record, IO.catch, process_record_body.
    unfold IO.bind at 1. unfold IO.lift at 1.
    unfold record_file in Hread. rewrite Hread. reflexivity. }
  split; [exact Hskip|].
  intros pre post. rewrite !extract_metadata_fold, !fold_left_app.
  cbn [fold_left]. rewrite Hskip. reflexivity.
Qed.

End FailedRecord.

(** In the sample corpus the record [broken] has no readable header; the
    record [rec] after it still gives one record row, two segment rows,
    four signal rows and one numerics row. *)
Lemma unreadable_record_leaves_no_row_witness :
  rdheader Sample.corpus (record_file "/data" Sample.broken) = None /\
  extract_metadata Sample.corpus "/data" ([] ++ Sample.broken :: [Sample.rec])
    false
  = extract_metadata Sample.corpus "/data" ([] ++ [Sample.rec]) false /\
  map (@List.length row)
    [waveform_records
       (extract_metadata Sample.corpus "/data" [Sample.rec] false);
     waveform_segments
       (extract_metadata Sample.corpus "/data" [Sample.rec] false);
     waveform_signals
       (extract_metadata Sample.corpus "/data" [Sample.rec] false);
     waveform_numerics
       (extract_metadata Sample.corpus "/data" [Sample.rec] false)]
  = [2; 3; 5; 2]%nat.
Proof.
  split; [reflexivity|]. split.
  - exact (proj2 (unreadable_record_leaves_no_row Sample.corpus "/data" false
                    Sample.broken eq_refl) [] [Sample.rec]).
  - vm_compute. reflexivity.
Defined.

(** ** The records-only updater against the full extractor *)

Lemma records_table_fold w data_dir skip_numerics
  (records : list record_entry) (t : tables) :
  waveform_records
    (fold_left
       (fun t' entry =>
          snd (process_record w data_dir skip_numerics entry t'))
       records t)
  = fold_left (UpdateRecords.write_record_row w data_dir) records
      (waveform_records t).
Proof.
  revert t. induction records as [|entry records IH]; intros t;
    cbn [fold_left].
  - reflexivity.
  - rewrite IH, process_record_records. reflexivity.
Qed.

(** C10: the two scripts discover the same records in the same order, and
    for every list of records the file written by [update_records.py] is,
    row for row, the table [waveform_records.csv] written by
    [extract_metadata.py], whether or not numerics are processed. *)
Theorem updater_writes_the_extractor_records :
  (forall data_path,
     UpdateRecords.find_all_records data_path
     = ExtractMetadata.find_all_records data_path)
  /\ (forall w data_dir records skip_numerics,
        UpdateRecords.extract_records_metadata w data_dir records
        = waveform_records
            (extract_metadata w data_dir records skip_numerics)).
Proof.
  split.
  - intros data_path. reflexivity.
  - intros w data_dir records skip_numerics.
    rewrite extract_metadata_fold, records_table_fold.
    destruct skip_numerics; reflexivity.
Qed.

(** ** The subject id *)

(** Which id reaches the row: a header id that is not zero, else the id of
    the directory. *)
Lemma resolve_subject_id_cases (subject_id : Z) (from_header : option Z) :
  resolve_subject_id subject_id from_header
  = match from_header with
    | Some 0 | None => subject_id
    | Some n => n
    end.
Proof.
  unfold resolve_subject_id. destruct from_header as [[| |]|]; reflexivity.
Qed.

Lemma scan_comments_no_subject (post : list string) (hadm : string)
  (sid : option Z) :
  (forall c, In c post -> subject_id_match c = None) ->
  snd (fold_left scan_comment post (hadm, sid)) = sid.
Proof.
  revert hadm sid. induction post as [|c post IH]; intros hadm sid Hnone.
  - reflexivity.
  - cbn [fold_left]. unfold scan_comment at 2.
    rewrite (Hnone c (or_introl eq_refl)).
    apply IH. intros c' Hin. apply Hnone. right. exact Hin.
Qed.

(** The subject id of the record row: the integer captured in the last
    comment that matches, unless that integer is 0 or no comment matches;
    then the id of the directory. *)
Lemma subject_id_of_row (record : header) (record_path record_name : string)
  (subject_id : Z) (l : list string) :
  comments record = Val l -> seg_name record <> PyNone ->
  exists r,
    record_row record (record_path, record_name, subject_id) = Some r
    /\ ((forall c, In c l -> subject_id_match c = None) ->
        cell 1 r = VInt subject_id)
    /\ (forall pre c post n,
          l = (pre ++ c :: post)%list -> subject_id_match c = Some n ->
          (forall c', In c' post -> subject_id_match c' = None) ->
          cell 1 r = VInt (if n =? 0 then subject_id else n)).
Proof.
  intros Hcomments Hseg. unfold record_row, scan_comments.
  rewrite Hcomments.
  destruct (fold_left scan_comment l ("", None)) as [hadm sid] eqn:Hscan.
  unfold num_segments_of.
  assert (exists k, match seg_name record with
                    | Missing => Some 0
                    | PyNone => None
                    | Val names => Some (Z.of_nat (List.length names))
                    end = Some k) as (k & ->)
    by (destruct (seg_name record); [eexists|congruence|eexists];
        reflexivity).
  eexists. split; [reflexivity|]. unfold cell. cbn [nth]. split.
  - intros Hnone.
    pose proof (scan_comments_no_subject l "" None Hnone) as Hsid.
    rewrite Hscan in Hsid. cbn [snd] in Hsid. subst sid. reflexivity.
  - intros pre c post n -> Hmatch Hnone.
    rewrite fold_left_app in Hscan. cbn [fold_left] in Hscan.
    destruct (fold_left scan_comment pre ("", None)) as [hadm0 sid0].
    unfold scan_comment at 2 in Hscan. rewrite Hmatch in Hscan.
    pose proof (scan_comments_no_subject post
                  match hadm_id_match c with
                  | Some g => g
                  | None => hadm0
                  end (Some n) Hnone) as Hsid.
    rewrite Hscan in Hsid. cbn [snd] in Hsid. subst sid.
    unfold resolve_subject_id. destruct (n =? 0); reflexivity.
Qed.

Lemma subject_id_match_form (comment : string) (n : Z) :
  subject_id_match comment = Some n <-> subject_id_form comment n.
Proof.
  unfold subject_id_match, subject_id_form.
  destruct (PyStr.contains "subject_id" (PyStr.lower comment)).
  - destruct (PyRe.search_subject_id comment) as [g|]; cbn [option_map].
    + split.
      * intros [= <-]. split; [reflexivity|]. exists g. auto.
      * intros (_ & g' & [= <-] & ->). reflexivity.
    + split; [discriminate|]. intros (_ & g' & Hg & _). discriminate Hg.
  - split; [discriminate|]. intros (H & _). discriminate H.
Qed.

Lemma subject_id_match_none (comment : string) :
  (forall n, ~ subject_id_form comment n) ->
  subject_id_match comment = None.
Proof.
  intros H. destruct (subject_id_match comment) as [n|] eqn:E;
    [|reflexivity].
  apply subject_id_match_form in E. destruct (H n E).
Qed.

(** C5 (amended): for a record whose header is read, both scripts write a
    record row whose subject id is the integer captured by
    [subject_id\s+(\d+)] in the last comment that contains [subject_id]
    and matches, provided that integer is not zero; when it is zero, or
    when no comment matches, the row has the subject id derived from the
    path. *)
Theorem subject_id_of_record w data_dir skip_numerics
  (record_path record_name : string) (subject_id : Z) (tables0 : tables)
  (record : header) (l : list string) :
  let entry := (record_path, record_name, subject_id) in
  rdheader w (record_file data_dir entry) = Some record ->
  comments record = Val l -> seg_name record <> PyNone ->
  exists r,
    waveform_records
      (snd (process_record w data_dir skip_numerics entry tables0))
    = (waveform_records tables0 ++ [r])%list
    /\ UpdateRecords.write_record_row w data_dir (waveform_records tables0)
         entry
       = (waveform_records tables0 ++ [r])%list
    /\ ((forall c n, In c l -> ~ subject_id_form c n) ->
        cell 1 r = VInt subject_id)
    /\ (forall pre c post n,
          l = (pre ++ c :: post)%list -> subject_id_form c n ->
          (forall c' n', In c' post -> ~ subject_id_form c' n') ->
          (n <> 0 -> cell 1 r = VInt n)
          /\ (n = 0 -> cell 1 r = VInt subject_id)).
Proof.
  intros entry Hread Hcomments Hseg.
  destruct (subject_id_of_row record record_path record_name subject_id l
              Hcomments Hseg) as (r & Hrow & Hnone & Hlast).
  exists r.
  assert (waveform_records
            (snd (process_record w data_dir skip_numerics entry tables0))
          = (waveform_records tables0 ++ [r])%list) as Hfull.
  { unfold process_record, IO.catch. cbn [snd].
    rewrite process_record_body_records, Hread. unfold entry.
    rewrite Hrow. reflexivity. }
  split; [exact Hfull|]. split.
  { rewrite <- process_record_records with (skip_numerics := skip_numerics).
    exact Hfull. }
  split.
  - intros H. apply Hnone. intros c Hin. apply subject_id_match_none.
    intros n. apply H, Hin.
  - intros pre c post n Hl Hform Hlater.
    apply subject_id_match_form in Hform.
    rewrite (Hlast pre c post n Hl Hform).
    + split.
      * intros Hn. destruct (Z.eqb_spec n 0); [contradiction|reflexivity].
      * intros ->. reflexivity.
    + intros c' Hin. apply subject_id_match_none. intros n'.
      apply Hlater, Hin.
Qed.

(** A header with the comments [subject_id 10000099] and, after it,
    [Subject_ID   10014354]: the later capture is in the row, not the
    subject id 10000032 of the path. *)
Lemma subject_id_of_record_witness :
  let record :=
    Sample.with_comments ["subject_id 10000099"; "Subject_ID   10014354"] in
  exists r,
    waveform_records
      (snd (process_record (Sample.always record) "/data" true Sample.rec
              (opened true)))
    = [records_header; r]
    /\ cell 1 r = VInt 10014354.
Proof.
  intros record.
  destruct (subject_id_of_record (Sample.always record) "/data" true
              "p100/p10000032/rec" "rec" 10000032 (opened true) record
              ["subject_id 10000099"; "Subject_ID   10014354"]
              eq_refl eq_refl)
    as (r & Hfull & _ & _ & Hlast); [discriminate|].
  exists r. split; [exact Hfull|].
  apply (Hlast ["subject_id 10000099"] "Subject_ID   10014354" []
           10014354 eq_refl).
  - split; [reflexivity|]. exists "10014354". split; reflexivity.
  - intros c' n' [].
  - discriminate.
Defined.

(** C5 (as stated) fails: the only comment of the header is
    [subject_id 0]; it contains [subject_id] and matches the pattern with
    the captured integer 0, but the row carries the subject id of the path,
    10000032, not 0. *)
Lemma subject_id_zero_counterexample :
  ~ (forall w data_dir skip_numerics entry tables0 record pre c post n r,
       rdheader w (record_file data_dir entry) = Some record ->
       comments record = Val (pre ++ c :: post)%list ->
       subject_id_form c n ->
       (forall c' n', In c' post -> ~ subject_id_form c' n') ->
       waveform_records
         (snd (process_record w data_dir skip_numerics entry tables0))
       = (waveform_records tables0 ++ [r])%list ->
       cell 1 r = VInt n).
Proof.
  intros H.
  pose (record := Sample.with_comments ["subject_id 0"]).
  pose (r := [VStr "rec"; VInt 10000032; VStr ""; VNone; empty; VNone;
              VStr "p100/p10000032/rec"; VStr "rec.hea"; VNone; VInt 0]).
  assert (waveform_records
            (snd (process_record (Sample.always record) "/data" true
                    Sample.rec (opened true)))
          = (waveform_records (opened true) ++ [r])%list) as Hrun
    by (vm_compute; reflexivity).
  specialize (H (Sample.always record) "/data" true Sample.rec (opened true)
                record [] "subject_id 0" [] 0 r eq_refl eq_refl).
  assert (subject_id_form "subject_id 0" 0) as Hform.
  { split; [reflexivity|]. exists "0". split; reflexivity. }
  specialize (H Hform (fun c' n' (Hin : In c' []) => match Hin with end)
                Hrun).
  discriminate H.
Qed.

(** The same record through both scripts: the subject id column holds the
    id of the path. *)
Lemma subject_id_zero_is_not_used :
  let record := Sample.with_comments ["subject_id 0"] in
  let entry := ("p100/p10000032/rec", "rec", 10000032) in
  subject_id_match "subject_id 0" = Some 0 /\
  map (cell 1)
    (waveform_records
       (extract_metadata (Sample.always record) "/data" [entry] true))
  = [VStr "subject_id"; VInt 10000032] /\
  map (cell 1)
    (UpdateRecords.extract_records_metadata (Sample.always record) "/data"
       [entry])
  = [VStr "subject_id"; VInt 10000032].
Proof. repeat split; vm_compute; reflexivity. Qed.

(** ** The end of a record *)

Section EndDatetime.

Lemma record_row_emitted (record : header) (entry : record_entry) :
  comments record <> PyNone -> seg_name record <> PyNone ->
  exists r, record_row record entry = Some r
            /\ cell 4 r
               = end_datetime_of
                   (get_or_empty VDatetime (base_datetime record))
                   (get_or_empty VInt (sig_len record))
                   (get_or_empty of_number (fs record)).
Proof.
  intros Hc Hs. destruct entry as [[record_path record_name] subject_id].
  unfold record_row, scan_comments, num_segments_of.
  destruct (comments record) as [| |l]; [|congruence|];
    destruct (seg_name record) as [| |names]; try congruence;
    try destruct (fold_left scan_comment l _);
    eexists; split; reflexivity.
Qed.






End EndDatetime.


(** The quotient is a float: 3999999 samples at 2000000.0 Hz are
    1.9999995 seconds, which [timedelta] takes for 1999999 microseconds,
    and 902716568 samples at 0.1 Hz are 9027165680.0 seconds and end at
    02:01:20, although the exact quotient by the float 0.1 is below
    9027165680 and would end at 02:01:19. *)
Lemma end_datetime_divides_in_floating_point :
  timestamp_cell
    (seconds_after Sample.new_year 3999999
       (NFloat (PyFloat.of_ratio 2000000 1)))
  = VStr "2023-01-01 00:00:01"
  /\ PyTime.timedelta_seconds (PyFloat.of_ratio 3999999 2000000)
     = Some 1999999
  /\ timestamp_cell
       (seconds_after (PyTime.make 1 1 1 0 0 0 0) 902716568
          (NFloat (PyFloat.of_ratio 1 10)))
     = VStr "287-01-23 02:01:20".
Proof. repeat split; vm_compute; reflexivity. Qed.


(** ** Segment filtering and numbering *)

Section SegmentNumbering.

Lemma segment_row_cells record seg_header record_name start_datetime
  seg_num name r :
  segment_row record seg_header record_name start_datetime seg_num name
  = Some r ->
  cell 1 r = VStr name /\ cell 2 r = VInt (Z.of_nat seg_num)
  /\ segment_start_time record start_datetime seg_num = Some (cell 3 r).
Proof.
  unfold segment_row.
  destruct (segment_start_time record start_datetime seg_num) as [s|];
    [|discriminate].
  destruct (segment_duration seg_header); [|discriminate].
  destruct (get of_number (fs seg_header)); [|discriminate].
  destruct (get VInt (n_sig seg_header)); [|discriminate].
  intros [= <-]. repeat split.
Qed.

Lemma in_segment_rows w full_path record record_name start_datetime l r :
  In r (segment_rows w full_path record record_name start_datetime l) ->
  exists seg_num name seg_header,
    In (seg_num, name) l /\ skip_segment name = false
    /\ rdheader w (path_join full_path name) = Some seg_header
    /\ segment_row record seg_header record_name start_datetime seg_num name
       = Some r.
Proof.
  unfold segment_rows. rewrite in_flat_map.
  intros ([seg_num name] & Hin & Hr).
  destruct (skip_segment name) eqn:Hskip; [contradiction|].
  destruct (rdheader w _) as [seg_header|] eqn:Hread; [|contradiction].
  destruct (segment_row _ _ _ _ _ _) as [r'|] eqn:Hrow; [|contradiction].
  destruct Hr as [<-|[]]. exists seg_num, name, seg_header. auto.
Qed.

Lemma in_enumerate_from {A} (l : list A) (k n : nat) (x : A) :
  In (n, x) (combine (seq k (List.length l)) l) ->
  (k <= n)%nat /\ nth_error l (n - k) = Some x.
Proof.
  revert k. induction l as [|y l IH]; intros k; cbn [List.length seq combine].
  - intros [].
  - intros [[= <- <-]|Hin].
    + split; [lia|]. replace (k - k)%nat with 0%nat by lia. reflexivity.
    + apply IH in Hin. destruct Hin as [Hk Hn]. split; [lia|].
      replace (n - k)%nat with (S (n - S k)) by lia. exact Hn.
Qed.

Lemma in_enumerate {A} (l : list A) (n : nat) (x : A) :
  In (n, x) (enumerate l) -> nth_error l n = Some x.
Proof.
  intros H. apply in_enumerate_from in H. destruct H as [_ H].
  rewrite Nat.sub_0_r in H. exact H.
Qed.

(** The rows come out with increasing segment numbers: the order of the
    original list. *)
Lemma segment_rows_increasing w full_path record record_name start_datetime
  (names : list string) (k : nat) :
  let rows := segment_rows w full_path record record_name start_datetime
                (combine (seq k (List.length names)) names) in
  Forall (fun r => Z.of_nat k <= segment_num_of r) rows
  /\ StronglySorted Z.lt (map segment_num_of rows).
Proof.
  revert k. induction names as [|name names IH]; intros k;
    cbn [List.length seq combine segment_rows flat_map].
  - split; constructor.
  - destruct (IH (S k)) as [Hge Hsorted].
    fold (segment_rows w full_path record record_name start_datetime
            (combine (seq (S k) (List.length names)) names)).
    assert (Forall (fun r => Z.of_nat k <= segment_num_of r)
              (segment_rows w full_path record record_name start_datetime
                 (combine (seq (S k) (List.length names)) names))) as Hge'.
    { eapply Forall_impl; [|exact Hge]. cbv beta. intros r Hr. lia. }
    destruct (skip_segment name); [split; assumption|].
    destruct (rdheader w _) as [seg_header|]; [|split; assumption].
    destruct (segment_row _ _ _ _ _ _) as [r|] eqn:Hrow;
      [|split; assumption].
    apply segment_row_cells in Hrow. destruct Hrow as (_ & Hnum & _).
    assert (segment_num_of r = Z.of_nat k) as Hk.
    { unfold segment_num_of. rewrite Hnum. reflexivity. }
    cbn [app map]. split.
    + constructor; [lia|exact Hge'].
    + constructor; [exact Hsorted|].
      apply Forall_map. eapply Forall_impl; [|exact Hge].
      cbv beta. intros r' Hr'. lia.
Qed.

(** C7: the segment rows that one record adds to the table are rows of
    segments whose name is not [~], does not contain [_layout] and does not
    end with [_0000]; the segment_num of a row is the position of its
    segment in the unfiltered list of the header, and the rows appear with
    increasing segment_num.  For the list [~, seg1, rec_0000, seg2], with
    the headers of [seg1] and [seg2] readable, exactly two rows are added:
    [seg1] with segment_num 1, then [seg2] with segment_num 3. *)
Theorem segment_rows_keep_original_positions w data_dir skip_numerics
  (entry : record_entry) (tables0 : tables) (record : header) :
  rdheader w (record_file data_dir entry) = Some record ->
  let full_path := path_join data_dir (fst (fst entry)) in
  let start_datetime :=
    format_start (get_or_empty VDatetime (base_datetime record)) in
  let new :=
    added (waveform_segments tables0)
      (waveform_segments
         (snd (process_record w data_dir skip_numerics entry tables0))) in
  (forall r, In r new ->
     exists names seg_num name,
       seg_name record = Val names
       /\ nth_error names seg_num = Some name
       /\ skip_segment name = false
       /\ cell 1 r = VStr name /\ cell 2 r = VInt (Z.of_nat seg_num))
  /\ StronglySorted Z.lt (map segment_num_of new)
  /\ (seg_name record = Val ["~"; "seg1"; "rec_0000"; "seg2"] ->
      comments record <> PyNone ->
      forall h1 h2 r1 r2,
        rdheader w (path_join full_path "seg1") = Some h1 ->
        rdheader w (path_join full_path "seg2") = Some h2 ->
        segment_row record h1 (snd (fst entry)) start_datetime 1 "seg1"
        = Some r1 ->
        segment_row record h2 (snd (fst entry)) start_datetime 3 "seg2"
        = Some r2 ->
        new = [r1; r2]
        /\ cell 1 r1 = VStr "seg1" /\ cell 2 r1 = VInt 1
        /\ cell 1 r2 = VStr "seg2" /\ cell 2 r2 = VInt 3).
Proof.
  intros Hread full_path start_datetime new.
  subst new. rewrite process_record_segments, added_app, Hread.
  split; [|split].
  - intros r Hin.
    destruct (record_row record entry); [|contradiction].
    destruct (seg_name record) as [| |names]; try contradiction.
    apply in_segment_rows in Hin.
    destruct Hin as (seg_num & name & seg_header & Hin & Hskip & _ & Hrow).
    apply in_enumerate in Hin. apply segment_row_cells in Hrow.
    exists names, seg_num, name. intuition.
  - destruct (record_row record entry); [|constructor].
    destruct (seg_name record) as [| |names]; try constructor.
    apply (segment_rows_increasing w _ record _ _ names 0).
  - intros Hnames Hcomments h1 h2 r1 r2 Hh1 Hh2 Hr1 Hr2.
    destruct (record_row_emitted record entry Hcomments) as (r & -> & _).
    { rewrite Hnames. discriminate. }
    rewrite Hnames.
    unfold enumerate, segment_rows.
    cbn [List.length seq combine flat_map].
    fold full_path. fold start_datetime.
    replace (skip_segment "~") with true by reflexivity.
    replace (skip_segment "seg1") with false by reflexivity.
    replace (skip_segment "rec_0000") with true by reflexivity.
    replace (skip_segment "seg2") with false by reflexivity.
    rewrite Hh1, Hh2, Hr1, Hr2.
    apply segment_row_cells in Hr1, Hr2.
    cbn [app]. intuition.
Qed.

End SegmentNumbering.

(** In the sample corpus the record [rec] has the segment list of the
    specification and both segment headers are readable. *)
Lemma segment_rows_keep_original_positions_witness :
  map (fun r => (cell 1 r, cell 2 r))
    (added (waveform_segments (opened false))
       (waveform_segments
          (snd (process_record Sample.corpus "/data" false Sample.rec
                  (opened false)))))
  = [(VStr "seg1", VInt 1); (VStr "seg2", VInt 3)].
Proof.
  destruct (segment_rows_keep_original_positions Sample.corpus "/data" false
              Sample.rec (opened false) Sample.hour eq_refl)
    as (_ & _ & Hlist).
  destruct (Hlist eq_refl ltac:(discriminate) Sample.segment Sample.segment
              _ _ eq_refl eq_refl eq_refl eq_refl) as (-> & _).
  reflexivity.
Defined.

(** ** The start time of a segment *)

Section SegmentStart.

Lemma strftime_truthy (t : PyTime.datetime) :
  PyStr.truthy (PyTime.strftime t) = true.
Proof.
  unfold PyTime.strftime.
  destruct (PyTime.ord2ymd _) as [[y m] d]. unfold PyTime.decimal.
  destruct (y <? 10); [reflexivity|].
  destruct (y <? 100); [reflexivity|].
  destruct (y <? 1000); reflexivity.
Qed.

(** The start time of segment [seg_num] when the record has a base
    timestamp, a positive frequency and the segment lengths. *)
Lemma segment_start_time_values record base f lens (seg_num : nat) :
  base_datetime record = Val base -> fs record = Val f ->
  gt_zero (of_number f) = Some true ->
  seg_len record = Val lens ->
  segment_start_time record (VStr (PyTime.strftime base)) seg_num
  = Some
      (match seg_num with
       | O => empty
       | S _ =>
           timestamp_cell
             (seconds_after base (sum (firstn seg_num lens)) f)
       end).
Proof.
  intros Hbase Hfs Hpos Hlens. unfold segment_start_time.
  cbn [truthy]. rewrite strftime_truthy, Hfs, Hpos, Hlens, Hbase.
  destruct seg_num as [|n]; [reflexivity|].
  cbn [Nat.ltb Nat.leb andb has]. unfold seconds_after, timestamp_cell.
  destruct (truediv _ _); [|reflexivity].
  destruct (PyTime.add_seconds _ _); reflexivity.
Qed.

(** C2 (amended): for a record with a base timestamp, a positive frequency
    and segment lengths, a segment row written for the segment at original
    index [N >= 1] has as segment_start_time the datetime that lies (sum of
    the lengths of the segments before index [N], skipped ones included)
    divided by the record frequency seconds after the base timestamp, the
    quotient being the float that the division gives and the seconds being
    rounded to microseconds as [timedelta] does; the cell is empty when
    that is no representable datetime.  A row written for the segment at
    index 0 has an empty segment_start_time. *)
Theorem segment_start_time_of_row w data_dir skip_numerics
  (entry : record_entry) (tables0 : tables) (record : header)
  (base : PyTime.datetime) (f : number) (lens : list Z) (r : row)
  (N : nat) :
  rdheader w (record_file data_dir entry) = Some record ->
  base_datetime record = Val base -> fs record = Val f ->
  gt_zero (of_number f) = Some true ->
  seg_len record = Val lens ->
  In r (added (waveform_segments tables0)
          (waveform_segments
             (snd (process_record w data_dir skip_numerics entry tables0))))
  ->
  cell 2 r = VInt (Z.of_nat N) ->
  (N = 0%nat -> cell 3 r = empty)
  /\ (N <> 0%nat ->
      cell 3 r
      = timestamp_cell (seconds_after base (sum (firstn N lens)) f)).
Proof.
  intros Hread Hbase Hfs Hpos Hlens Hin Hnum.
  rewrite process_record_segments, added_app, Hread in Hin.
  destruct (record_row record entry); [|contradiction].
  destruct (seg_name record) as [| |names]; try contradiction.
  apply in_segment_rows in Hin.
  destruct Hin as (seg_num & name & seg_header & _ & _ & _ & Hrow).
  apply segment_row_cells in Hrow. destruct Hrow as (_ & Hnum' & Hstart).
  rewrite Hnum in Hnum'. injection Hnum' as Hnum'.
  apply Nat2Z.inj in Hnum'. subst seg_num.
  rewrite Hbase in Hstart. cbn [get_or_empty format_start] in Hstart.
  rewrite (segment_start_time_values record base f lens N) in Hstart
    by assumption.
  injection Hstart as Hstart. rewrite <- Hstart.
  split.
  - intros ->. reflexivity.
  - intros HN. destruct N as [|n]; [contradiction|]. reflexivity.
Qed.

End SegmentStart.

(** In the sample corpus the segment [seg2] is at index 3, after segments
    of 0, 1200 and 0 samples at 1 Hz: it starts 20 minutes after the base
    timestamp. *)
Lemma segment_start_time_of_row_witness :
  let r := [VStr "rec"; VStr "seg2"; VInt 3; VStr "2023-01-01 00:20:00";
            VFloat (PyFloat.of_ratio 1200 1); VStr "seg2.hea";
            VStr "seg2.dat"; VInt 1; VInt 2] in
  In r (added (waveform_segments (opened false))
          (waveform_segments
             (snd (process_record Sample.corpus "/data" false Sample.rec
                     (opened false)))))
  /\ cell 3 r
     = timestamp_cell
         (seconds_after Sample.new_year (sum (firstn 3 [0; 1200; 0; 2400]))
            (NInt 1)).
Proof.
  intros r.
  assert (In r (added (waveform_segments (opened false))
                  (waveform_segments
                     (snd (process_record Sample.corpus "/data" false
                             Sample.rec (opened false)))))) as Hin.
  { vm_compute. right. left. reflexivity. }
  split; [exact Hin|].
  refine (proj2 (segment_start_time_of_row Sample.corpus "/data" false
                   Sample.rec (opened false) Sample.hour Sample.new_year
                   (NInt 1) [0; 1200; 0; 2400] r 3 eq_refl eq_refl eq_refl
                   eq_refl eq_refl Hin eq_refl) _).
  discriminate.
Defined.

(** The offset is a float: after one segment of 3999999 samples at
    2000000.0 Hz the next segment starts 1.9999995 seconds after the base
    timestamp, in the second 00:00:01. *)
Lemma segment_start_divides_in_floating_point :
  timestamp_cell
    (seconds_after Sample.new_year (sum (firstn 1 [3999999; 1]))
       (NFloat (PyFloat.of_ratio 2000000 1)))
  = VStr "2023-01-01 00:00:01".
Proof. vm_compute. reflexivity. Qed.

(** C2 (as stated) fails at index 0: a record whose only segment [seg1] is
    not skipped gets a segment row with segment_num 0 and an empty
    segment_start_time, although the base timestamp is present and the
    frequency is 1; the claim puts the base timestamp there. *)
Lemma segment_zero_start_time_counterexample :
  ~ (forall w data_dir skip_numerics entry tables0 record base f lens r N,
       rdheader w (record_file data_dir entry) = Some record ->
       base_datetime record = Val base -> fs record = Val f ->
       gt_zero (of_number f) = Some true -> seg_len record = Val lens ->
       In r (added (waveform_segments tables0)
               (waveform_segments
                  (snd (process_record w data_dir skip_numerics entry
                          tables0)))) ->
       cell 2 r = VInt (Z.of_nat N) ->
       cell 3 r
       = timestamp_cell (seconds_after base (sum (firstn N lens)) f)).
Proof.
  intros H.
  pose (r := [VStr "rec"; VStr "seg1"; VInt 0; empty;
              VFloat (PyFloat.of_ratio 3600 1);
              VStr "seg1.hea"; empty; VInt 1; VInt 2]).
  assert (In r (added (waveform_segments (opened true))
                  (waveform_segments
                     (snd (process_record
                             (Sample.always (Sample.timed 3600)) "/data"
                             true Sample.rec (opened true)))))) as Hin.
  { vm_compute. left. reflexivity. }
  specialize (H (Sample.always (Sample.timed 3600)) "/data" true Sample.rec
                (opened true) (Sample.timed 3600) Sample.new_year (NInt 1)
                [3600] r 0%nat eq_refl eq_refl eq_refl eq_refl eq_refl Hin
                eq_refl).
  vm_compute in H. discriminate H.
Qed.

(** ** The admission id *)

Section AdmissionId.

Lemma hadm_id_match_forms (comment g : string) :
  hadm_id_match comment = Some g <-> admission_id_tried comment g.
Proof.
  unfold hadm_id_match, admission_id_tried, hadm_id_form,
    hospital_admission_id_form.
  destruct (PyStr.contains "hadm_id" (PyStr.lower comment));
    [|destruct (PyStr.contains "hospital admission id"
                  (PyStr.lower comment))];
    intuition congruence.
Qed.

Lemma hadm_id_match_none (comment : string) :
  (forall g, ~ admission_id_tried comment g) ->
  hadm_id_match comment = None.
Proof.
  intros H. destruct (hadm_id_match comment) as [g|] eqn:E; [|reflexivity].
  apply hadm_id_match_forms in E. destruct (H g E).
Qed.

(** Comments without a match leave the admission id as it is. *)
Lemma scan_comments_no_match (post : list string) (hadm : string)
  (sid : option Z) :
  (forall c, In c post -> hadm_id_match c = None) ->
  fst (fold_left scan_comment post (hadm, sid)) = hadm.
Proof.
  revert hadm sid. induction post as [|c post IH]; intros hadm sid Hnone.
  - reflexivity.
  - cbn [fold_left]. unfold scan_comment at 2.
    rewrite (Hnone c (or_introl eq_refl)).
    apply IH. intros c' Hin. apply Hnone. right. exact Hin.
Qed.

Lemma scan_comments_last_match (pre post : list string) (c g : string) :
  hadm_id_match c = Some g ->
  (forall c', In c' post -> hadm_id_match c' = None) ->
  fst (fold_left scan_comment (pre ++ c :: post)%list ("", None)) = g.
Proof.
  intros Hmatch Hnone. rewrite fold_left_app. cbn [fold_left].
  destruct (fold_left scan_comment pre ("", None)) as [hadm sid].
  unfold scan_comment at 2. rewrite Hmatch.
  apply scan_comments_no_match, Hnone.
Qed.

(** C3 (amended): the second form is looked for only in a comment without
    the substring [hadm_id].  When the comment [c] matches the first form,
    or is without [hadm_id] and matches the second form, with capture [g],
    and no comment after it does, the hadm_id of the record row is [g],
    whatever the comments before [c] matched and whichever form [c]
    matched; both scripts write that row. *)
Theorem hadm_id_is_last_match w data_dir skip_numerics
  (entry : record_entry) (tables0 : tables) (record : header)
  (pre post : list string) (c g : string) :
  rdheader w (record_file data_dir entry) = Some record ->
  seg_name record <> PyNone ->
  comments record = Val (pre ++ c :: post)%list ->
  admission_id_tried c g ->
  (forall c' g', In c' post -> ~ admission_id_tried c' g') ->
  exists r,
    waveform_records
      (snd (process_record w data_dir skip_numerics entry tables0))
    = (waveform_records tables0 ++ [r])%list
    /\ UpdateRecords.write_record_row w data_dir (waveform_records tables0)
         entry
       = (waveform_records tables0 ++ [r])%list
    /\ cell 2 r = VStr g.
Proof.
  intros Hread Hseg Hcomments Hmatch Hlater.
  apply hadm_id_match_forms in Hmatch.
  assert (forall c', In c' post -> hadm_id_match c' = None) as Hnone.
  { intros c' Hin. apply hadm_id_match_none. intros g'. apply Hlater, Hin. }
  pose proof (scan_comments_last_match pre post c g Hmatch Hnone) as Hscan.
  assert (exists r, record_row record entry = Some r /\ cell 2 r = VStr g)
    as (r & Hrow & Hcell).
  { destruct entry as [[record_path record_name] subject_id].
    unfold record_row, scan_comments. rewrite Hcomments.
    destruct (fold_left scan_comment _ _) as [hadm sid].
    cbn [fst] in Hscan. subst hadm. unfold num_segments_of.
    destruct (seg_name record); try congruence;
      eexists; split; reflexivity. }
  exists r.
  assert (waveform_records
            (snd (process_record w data_dir skip_numerics entry tables0))
          = (waveform_records tables0 ++ [r])%list) as Hfull.
  { unfold process_record, IO.catch. cbn [snd].
    rewrite process_record_body_records, Hread, Hrow. reflexivity. }
  split; [exact Hfull|]. split; [|exact Hcell].
  rewrite <- process_record_records with (skip_numerics := skip_numerics).
  exact Hfull.
Qed.

End AdmissionId.

(** The header of the sample record has the comment [hadm_id 111] followed
    by [Hospital Admission ID: 222]: the later match, of the second form,
    gives the hadm_id. *)
Lemma hadm_id_is_last_match_witness :
  exists r,
    waveform_records
      (snd (process_record Sample.corpus "/data" false Sample.rec
              (opened false)))
    = [records_header; r]
    /\ cell 2 r = VStr "222".
Proof.
  destruct (hadm_id_is_last_match Sample.corpus "/data" false Sample.rec
              (opened false) Sample.hour ["hadm_id 111"] []
              "Hospital Admission ID: 222" "222" eq_refl)
    as (r & Hfull & _ & Hcell).
  - discriminate.
  - reflexivity.
  - right. repeat split; reflexivity.
  - intros c' g' [].
  - exists r. split; [exact Hfull|exact Hcell].
Defined.

(** C3 (as stated) fails: the comment [hadm_id 111] is followed by
    [hadm_id: n/a - Hospital Admission ID: 222].  The later comment
    matches the second form with capture 222 and is the last comment that
    matches a form, but it holds [hadm_id] without matching the first
    form, so the second form is never looked for in it: the row keeps
    111. *)
Lemma hadm_id_shadowed_form_counterexample :
  ~ (forall w data_dir skip_numerics entry tables0 record pre post c g r,
       rdheader w (record_file data_dir entry) = Some record ->
       comments record = Val (pre ++ c :: post)%list ->
       admission_id_match c g ->
       (forall c' g', In c' post -> ~ admission_id_match c' g') ->
       waveform_records
         (snd (process_record w data_dir skip_numerics entry tables0))
       = (waveform_records tables0 ++ [r])%list ->
       cell 2 r = VStr g).
Proof.
  intros H.
  pose (later := "hadm_id: n/a - Hospital Admission ID: 222").
  pose (record := Sample.with_comments ["hadm_id 111"; later]).
  pose (r := [VStr "rec"; VInt 10000032; VStr "111"; VNone; empty; VNone;
              VStr "p100/p10000032/rec"; VStr "rec.hea"; VNone; VInt 0]).
  assert (waveform_records
            (snd (process_record (Sample.always record) "/data" true
                    Sample.rec (opened true)))
          = (waveform_records (opened true) ++ [r])%list) as Hrun
    by (vm_compute; reflexivity).
  assert (admission_id_match later "222") as Hform
    by (right; split; reflexivity).
  specialize (H (Sample.always record) "/data" true Sample.rec (opened true)
                record ["hadm_id 111"] [] later "222" r eq_refl eq_refl
                Hform (fun c' g' (Hin : In c' []) => match Hin with end)
                Hrun).
  discriminate H.
Qed.

(** ** The numerics row mapper *)

Section NumericsRow.

(** The chain of [if]/[elif] does what the branch that the column enters
    says. *)
Lemma assign_measurement_classified (col : string) (value : PyFloat.float)
  (st : locals) :
  assign_measurement col value st = classified_assign col value st.
Proof.
  unfold assign_measurement, classified_assign, assign_by, first_rule,
    rules_in_priority, rule_target, pressure_slot, as_int, as_float,
    assign_int, assign_float.
  cbn [find rule_matches].
  set (u := PyStr.lower col).
  repeat match goal with
    | |- context [if ?b then _ else _] =>
        lazymatch b with
        | context [PyStr.contains] => destruct b; cbn [option_map]
        end
    end;
    try (destruct (PyInt.of_float value); reflexivity);
    destruct (truthy (st MeasName)); reflexivity.
Qed.

Lemma rule_target_not_generic (col_lower : string) (ru : rule) (k : slot)
  (conv : PyFloat.float -> option pyval) :
  rule_target col_lower ru = Some (k, conv) ->
  k <> MeasName /\ k <> MeasVal /\ k <> MeasUnit.
Proof.
  unfold rule_target, pressure_slot.
  destruct ru; cbn [option_map];
    repeat match goal with
      | |- context [if ?b then _ else _] => destruct b
      end;
    intros [= <- <-] || discriminate; repeat split; discriminate.
Qed.

Lemma assign_other (st : locals) (k k' : slot) (v : pyval) :
  k <> k' -> assign st k v k' = st k'.
Proof.
  intros Hne. unfold assign. destruct (slot_eq_dec k k'); congruence.
Qed.

Lemma assign_same (st : locals) (k : slot) (v : pyval) :
  assign st k v k = v.
Proof. unfold assign. destruct (slot_eq_dec k k); congruence. Qed.

(** A column that enters a branch leaves the generic slot alone. *)
Lemma generic_after_matched (col : string) (value : PyFloat.float)
  (st st' : locals) (ru : rule) :
  first_rule col = Some ru ->
  assign_measurement col value st = Some st' ->
  generic st' = generic st.
Proof.
  intros Hru. rewrite assign_measurement_classified.
  unfold classified_assign, assign_by. rewrite Hru.
  destruct (rule_target (PyStr.lower col) ru) as [[k conv]|] eqn:Ht;
    [|intros [= <-]; reflexivity].
  apply rule_target_not_generic in Ht. destruct Ht as (H1 & H2 & H3).
  destruct (conv value) as [v|]; [|discriminate]. intros [= <-].
  unfold generic. rewrite !assign_other by assumption. reflexivity.
Qed.

(** A column that enters no branch fills an empty generic slot and leaves
    a filled one alone. *)
Lemma generic_after_unmatched (col : string) (value : PyFloat.float)
  (st st' : locals) :
  first_rule col = None ->
  assign_measurement col value st = Some st' ->
  generic st'
  = if truthy (st MeasName) then generic st
    else (VStr col, VFloat value, st MeasUnit).
Proof.
  intros Hru. rewrite assign_measurement_classified.
  unfold classified_assign, assign_by. rewrite Hru.
  destruct (truthy (st MeasName)); intros [= <-]; [reflexivity|].
  unfold generic.
  rewrite assign_same, assign_other, assign_same, !assign_other
    by discriminate.
  reflexivity.
Qed.

(** Once the generic slot holds a name, the rest of the row keeps it. *)
Lemma generic_kept (r : list (string * PyFloat.float)) (cols : list string)
  (st st' : locals) :
  truthy (st MeasName) = true ->
  for_each (extract_measurement r) cols st = Some st' ->
  generic st' = generic st.
Proof.
  revert st. induction cols as [|col cols IH]; intros st Hfull;
    cbn [for_each].
  - intros [= <-]. reflexivity.
  - unfold extract_measurement at 1.
    destruct (lookup col r) as [value|]; [|discriminate].
    destruct (PyFloat.is_nan value); [apply IH, Hfull|].
    destruct (assign_measurement col value st) as [st1|] eqn:Hst1;
      [|discriminate].
    intros Hloop.
    assert (generic st1 = generic st) as Hg.
    { destruct (first_rule col) as [ru|] eqn:Hru.
      - eapply generic_after_matched; eassumption.
      - rewrite (generic_after_unmatched _ _ _ _ Hru Hst1), Hfull.
        reflexivity. }
    rewrite <- Hg. apply IH; [|exact Hloop].
    unfold generic in Hg. injection Hg as Hname _ _.
    rewrite Hname. exact Hfull.
Qed.

Lemma generic_of_loop (r : list (string * PyFloat.float))
  (cols : list string) (st st' : locals) :
  Forall (fun col => col <> "") cols ->
  truthy (st MeasName) = false ->
  for_each (extract_measurement r) cols st = Some st' ->
  generic st'
  = match first_unmatched r cols with
    | Some (col, value) => (VStr col, VFloat value, st MeasUnit)
    | None => generic st
    end.
Proof.
  intros Hnames. revert st. unfold first_unmatched.
  induction Hnames as [|col cols Hcol Hnames IH]; intros st Hempty;
    cbn [for_each first_with_value].
  - intros [= <-]. reflexivity.
  - unfold extract_measurement at 1.
    destruct (lookup col r) as [value|]; [|discriminate].
    destruct (PyFloat.is_nan value); cbn [negb andb]; [apply IH, Hempty|].
    destruct (assign_measurement col value st) as [st1|] eqn:Hst1;
      [|discriminate].
    unfold unmatched.
    destruct (first_rule col) as [ru|] eqn:Hru; intros Hloop.
    + pose proof (generic_after_matched col value st st1 ru Hru Hst1) as Hg.
      rewrite (IH _ (eq_trans
                       (f_equal truthy
                          (f_equal (fun g => fst (fst g)) Hg)) Hempty)
                 Hloop).
      pose proof (f_equal snd Hg) as Hunit. cbn [generic snd] in Hunit.
      destruct (first_with_value _ r cols) as [[c v]|];
        [rewrite Hunit; reflexivity|exact Hg].
    + pose proof (generic_after_unmatched col value st st1 Hru Hst1) as Hg.
      rewrite Hempty in Hg.
      assert (truthy (st1 MeasName) = true) as Hfull.
      { pose proof (f_equal (fun g => fst (fst g)) Hg) as Hname.
        cbn [generic fst] in Hname. rewrite Hname.
        destruct col; [contradiction|reflexivity]. }
      rewrite (generic_kept r cols _ st' Hfull Hloop). exact Hg.
Qed.

(** What a numerics row that is written consists of. *)
Lemma numerics_row_inv record record_name base_freq time_col cols r out :
  numerics_row record record_name base_freq time_col cols r = Some out ->
  exists tick counter_ticks measurement_time st,
    lookup time_col r = Some tick
    /\ PyInt.of_float tick = Some counter_ticks
    /\ measurement_time_of record base_freq counter_ticks
       = Some measurement_time
    /\ for_each (extract_measurement r) cols initial_locals = Some st
    /\ out = [VStr record_name; measurement_time; VInt counter_ticks;
              st Hr; st Rr; st Spo2; st NibpSys; st NibpDias; st NibpMean;
              st AbpSys; st AbpDias; st AbpMean; st Cvp; st Etco2; st Temp;
              st MeasName; st MeasVal; st MeasUnit].
Proof.
  unfold numerics_row.
  destruct (lookup time_col r) as [tick|]; [|discriminate].
  destruct (PyInt.of_float tick) as [counter_ticks|] eqn:Htick;
    [|discriminate].
  destruct (measurement_time_of _ _ _) as [mt|] eqn:Hmt; [|discriminate].
  destruct (for_each _ _ _) as [st|]; [|discriminate].
  intros [= <-]. exists tick, counter_ticks, mt, st. auto.
Qed.

End NumericsRow.

(** ** The corpus scanner *)

Section Scanner.

Lemma for_each_collect {A B} (body : list B -> A -> option (list B))
  (f : A -> option (list B)) (l : list A) (acc : list B) :
  (forall acc x, body acc x = option_map (app acc) (f x)) ->
  for_each body l acc = option_map (app acc) (collect f l).
Proof.
  intros Hbody. revert acc. induction l as [|x l IH]; intros acc;
    cbn [for_each collect option_map].
  - rewrite app_nil_r. reflexivity.
  - rewrite Hbody. destruct (f x) as [xs|]; cbn [option_map]; [|reflexivity].
    rewrite IH. destruct (collect f l) as [rest|]; cbn [option_map];
      [rewrite app_assoc|]; reflexivity.
Qed.

Lemma collect_in {A B} (f : A -> option (list B)) (l : list A)
  (out : list B) :
  collect f l = Some out ->
  forall y, In y out <-> exists x xs, In x l /\ f x = Some xs /\ In y xs.
Proof.
  revert out. induction l as [|x l IH]; intros out; cbn [collect].
  - intros [= <-] y. split; [intros []|intros (_ & _ & [] & _)].
  - destruct (f x) as [xs|] eqn:Hfx; [|discriminate].
    destruct (collect f l) as [rest|]; [|discriminate].
    cbn [option_map]. intros [= <-] y. rewrite in_app_iff, (IH rest eq_refl).
    split.
    + intros [Hy|(x' & xs' & Hin & Hf & Hy)].
      * exists x, xs. cbn [In]. auto.
      * exists x', xs'. cbn [In]. auto.
    + intros (x' & xs' & [<-|Hin] & Hf & Hy).
      * left. congruence.
      * right. exists x', xs'. auto.
Qed.

Lemma collect_defined {A B} (f : A -> option (list B)) (l : list A) :
  (forall x, In x l -> f x <> None) -> exists out, collect f l = Some out.
Proof.
  induction l as [|x l IH]; intros Hf; cbn [collect].
  - eexists. reflexivity.
  - destruct (f x) as [xs|] eqn:Hfx.
    + destruct IH as (rest & ->).
      { intros x' Hin. apply Hf. right. exact Hin. }
      eexists. reflexivity.
    + destruct (Hf x (or_introl eq_refl) Hfx).
Qed.

Lemma in_insert_by_name (x y : string * Fs.node) l :
  In y (Fs.insert_by_name x l) <-> y = x \/ In y l.
Proof.
  induction l as [|z l IH]; cbn [Fs.insert_by_name In].
  - intuition.
  - destruct (String.leb (fst x) (fst z)); cbn [In]; [intuition|].
    rewrite IH. intuition.
Qed.

(** Sorting neither loses nor invents an entry. *)
Lemma in_sorted (y : string * Fs.node) l : In y (Fs.sorted l) <-> In y l.
Proof.
  induction l as [|x l IH]; cbn [Fs.sorted In]; [reflexivity|].
  rewrite in_insert_by_name, IH. intuition.
Qed.

Lemma in_glob_p (name : string) (n root : Fs.node) :
  In (name, n) (Fs.glob_p root)
  <-> In (name, n) (Fs.iterdir root) /\ PyStr.startswith name "p" = true.
Proof. unfold Fs.glob_p. rewrite filter_In. reflexivity. Qed.

Lemma visit_record_dir_entries group subject records e :
  visit_record_dir group subject records e
  = option_map (app records) (record_dir_entries group subject e).
Proof.
  destruct e as [record_name record_dir].
  unfold visit_record_dir, record_dir_entries.
  destruct (Fs.is_dir record_dir); cbn [negb andb option_map];
    [|rewrite app_nil_r; reflexivity].
  destruct (Fs.exists_in record_dir _); cbn [option_map];
    [|rewrite app_nil_r; reflexivity].
  destruct (PyInt.of_string _); reflexivity.
Qed.

Lemma visit_patient_dir_entries group records e :
  visit_patient_dir group records e
  = option_map (app records) (patient_dir_entries group e).
Proof.
  destruct e as [subject patient_dir].
  unfold visit_patient_dir, patient_dir_entries.
  destruct (Fs.is_dir patient_dir); cbn [negb option_map];
    [|rewrite app_nil_r; reflexivity].
  apply for_each_collect. intros acc x. apply visit_record_dir_entries.
Qed.

Lemma visit_p_dir_entries records e :
  visit_p_dir records e = option_map (app records) (p_dir_entries e).
Proof.
  destruct e as [group p_dir]. unfold visit_p_dir, p_dir_entries.
  destruct (Fs.is_dir p_dir); cbn [negb option_map];
    [|rewrite app_nil_r; reflexivity].
  apply for_each_collect. intros acc x. apply visit_patient_dir_entries.
Qed.

Lemma find_all_records_collect (root : Fs.node) :
  find_all_records root
  = collect p_dir_entries (Fs.sorted (Fs.glob_p root)).
Proof.
  unfold find_all_records.
  rewrite (for_each_collect visit_p_dir p_dir_entries)
    by (intros; apply visit_p_dir_entries).
  destruct (collect _ _); reflexivity.
Qed.

Lemma in_record_dir_entries group subject record_name record_dir out entry :
  record_dir_entries group subject (record_name, record_dir) = Some out ->
  In entry out <->
  (Fs.is_dir record_dir = true
   /\ Fs.exists_in record_dir (record_name ++ ".hea") = true
   /\ exists subject_id,
        PyInt.of_string (PyStr.drop1 subject) = Some subject_id
        /\ entry = (path_join (path_join group subject) record_name,
                    record_name, subject_id)).
Proof.
  unfold record_dir_entries.
  destruct (Fs.is_dir record_dir), (Fs.exists_in record_dir _);
    cbn [andb]; try (intros [= <-]; cbn [In];
                     intuition discriminate).
  destruct (PyInt.of_string _) as [subject_id|]; [|discriminate].
  cbn [option_map]. intros [= <-]. cbn [In]. split.
  - intros [<-|[]]. repeat split. exists subject_id. auto.
  - intros (_ & _ & sid & [= <-] & ->). left. reflexivity.
Qed.

(** C4 (amended): a data directory that does not exist, or is not a
    directory, ends the run before the scan starts.  Otherwise, provided
    every subject directory that holds a record directory with its header
    has an integer after the [p], the scan raises nothing and returns
    exactly the tuples of the conforming record directories: entries that
    are not directories, group and subject entries without the [p] prefix
    and record directories without their header are passed over. *)
Theorem scan_passes_over_strays :
  main_scan None = DataDirNotFound
  /\ main_scan (Some Fs.File) = DataDirNotFound
  /\ (forall root,
        numeric_subjects root ->
        exists records,
          find_all_records root = Some records
          /\ forall entry, In entry records <-> discovered root entry).
Proof.
  split; [reflexivity|]. split; [reflexivity|].
  intros root Hnumeric. rewrite find_all_records_collect.
  assert (forall group p_dir,
            In (group, p_dir) (Fs.sorted (Fs.glob_p root)) ->
            p_dir_entries (group, p_dir) <> None) as Hgroups.
  { intros group p_dir Hg. rewrite in_sorted, in_glob_p in Hg.
    destruct Hg as [Hg Hgp]. unfold p_dir_entries.
    destruct (Fs.is_dir p_dir) eqn:Hgd; [|discriminate].
    intros Hnone.
    destruct (collect_defined (patient_dir_entries group)
                (Fs.sorted (Fs.glob_p p_dir))) as (out & Hout);
      [|congruence].
    intros [subject patient_dir] Hs. rewrite in_sorted, in_glob_p in Hs.
    destruct Hs as [Hs Hsp]. unfold patient_dir_entries.
    destruct (Fs.is_dir patient_dir) eqn:Hsd; [|discriminate].
    intros Hnone'.
    destruct (collect_defined (record_dir_entries group subject)
                (Fs.sorted (Fs.iterdir patient_dir))) as (out & Hout);
      [|congruence].
    intros [record_name record_dir] Hr. rewrite in_sorted in Hr.
    unfold record_dir_entries.
    destruct (Fs.is_dir record_dir) eqn:Hrd; [|discriminate].
    destruct (Fs.exists_in record_dir _) eqn:Hhea; [|discriminate].
    cbn [andb].
    pose proof (Hnumeric group p_dir subject patient_dir record_name
                  record_dir Hg Hgp Hgd Hs Hsp Hsd Hr Hrd Hhea) as Hint.
    destruct (PyInt.of_string _); [discriminate|congruence]. }
  destruct (collect_defined p_dir_entries (Fs.sorted (Fs.glob_p root)))
    as (records & Hrecords).
  { intros [group p_dir]. apply Hgroups. }
  exists records. split; [exact Hrecords|].
  intros entry. rewrite (collect_in _ _ _ Hrecords). unfold discovered.
  split.
  - intros ([group p_dir] & out & Hg & Hout & Hin).
    rewrite in_sorted, in_glob_p in Hg. destruct Hg as [Hg Hgp].
    unfold p_dir_entries in Hout.
    destruct (Fs.is_dir p_dir) eqn:Hgd;
      [|injection Hout as <-; destruct Hin].
    rewrite (collect_in _ _ _ Hout) in Hin.
    destruct Hin as ([subject patient_dir] & out' & Hs & Hout' & Hin).
    rewrite in_sorted, in_glob_p in Hs. destruct Hs as [Hs Hsp].
    unfold patient_dir_entries in Hout'.
    destruct (Fs.is_dir patient_dir) eqn:Hsd;
      [|injection Hout' as <-; destruct Hin].
    rewrite (collect_in _ _ _ Hout') in Hin.
    destruct Hin as ([record_name record_dir] & out'' & Hr & Hout'' & Hin).
    rewrite in_sorted in Hr.
    rewrite (in_record_dir_entries _ _ _ _ _ _ Hout'') in Hin.
    destruct Hin as (Hrd & Hhea & subject_id & Hint & ->).
    exists group, p_dir, subject, patient_dir, record_name, record_dir,
      subject_id.
    repeat split; assumption.
  - intros (group & p_dir & subject & patient_dir & record_name & record_dir
            & subject_id & Hg & Hgp & Hgd & Hs & Hsp & Hsd & Hr & Hrd & Hhea
            & Hint & ->).
    assert (In (group, p_dir) (Fs.sorted (Fs.glob_p root))) as Hg'
      by (rewrite in_sorted, in_glob_p; auto).
    destruct (p_dir_entries (group, p_dir)) as [out|] eqn:Hout;
      [|destruct (Hgroups _ _ Hg' Hout)].
    exists (group, p_dir), out. split; [exact Hg'|]. split; [exact Hout|].
    unfold p_dir_entries in Hout. rewrite Hgd in Hout.
    rewrite (collect_in _ _ _ Hout).
    assert (In (subject, patient_dir) (Fs.sorted (Fs.glob_p p_dir))) as Hs'
      by (rewrite in_sorted, in_glob_p; auto).
    destruct (patient_dir_entries group (subject, patient_dir))
      as [out'|] eqn:Hout'.
    2:{ exfalso. revert Hout'. unfold patient_dir_entries. rewrite Hsd.
        intros Hnone.
        assert (exists out0,
                  collect (patient_dir_entries group)
                    (Fs.sorted (Fs.glob_p p_dir)) = Some out0) as (o & Ho)
          by (eexists; exact Hout).
        clear - Hs' Hnone Ho Hsd.
        revert o Ho. induction (Fs.sorted (Fs.glob_p p_dir)) as [|x l IH];
          [destruct Hs'|].
        intros o. cbn [collect].
        destruct Hs' as [->|Hin].
        - unfold patient_dir_entries at 1. rewrite Hsd, Hnone. discriminate.
        - destruct (patient_dir_entries group x); [|discriminate].
          destruct (collect (patient_dir_entries group) l) as [rest|];
            [|discriminate].
          intros _. eapply IH; [exact Hin|reflexivity]. }
    exists (subject, patient_dir), out'.
    split; [exact Hs'|]. split; [exact Hout'|].
    unfold patient_dir_entries in Hout'. rewrite Hsd in Hout'.
    rewrite (collect_in _ _ _ Hout').
    exists (record_name, record_dir),
      [(path_join (path_join group subject) record_name, record_name,
        subject_id)].
    split; [rewrite in_sorted; exact Hr|].
    split; [|left; reflexivity].
    unfold record_dir_entries. rewrite Hrd, Hhea, Hint. reflexivity.
Qed.

End Scanner.

(** A tree with stray files, directories without the prefix, a record
    directory without header and a subject directory [pabc] without
    records: the scan returns the two conforming records, in order. *)
Lemma scan_passes_over_strays_witness :
  numeric_subjects tree_with_strays
  /\ find_all_records tree_with_strays
     = Some [("p101/p10100001/r", "r", 10100001);
             ("p101/p10100002/b", "b", 10100002)]
  /\ discovered tree_with_strays ("p101/p10100002/b", "b", 10100002).
Proof.
  assert (numeric_subjects tree_with_strays) as Hnumeric.
  { unfold numeric_subjects, tree_with_strays. cbn [Fs.iterdir In].
    intros group p_dir subject patient_dir record_name record_dir Hg Hgp Hgd
      Hs Hsp Hsd Hr Hrd Hhea.
    repeat match goal with
      | H : _ \/ _ |- _ => destruct H
      | H : False |- _ => destruct H
      | H : (_, _) = (?x, ?y) |- _ =>
          apply pair_equal_spec in H; destruct H; subst x y
      | H : In _ (Fs.iterdir _) |- _ => progress cbn [Fs.iterdir In] in H
      | H : Fs.is_dir Fs.File = true |- _ => discriminate H
      | H : PyStr.startswith _ _ = true |- _ =>
          vm_compute in H; discriminate H
      | H : Fs.exists_in _ _ = true |- _ =>
          vm_compute in H; discriminate H
      end; vm_compute; discriminate. }
  destruct (proj2 (proj2 scan_passes_over_strays) tree_with_strays Hnumeric)
    as (records & Hscan & Hiff).
  split; [exact Hnumeric|]. split; [reflexivity|].
  apply Hiff. vm_compute in Hscan. injection Hscan as <-.
  right. left. reflexivity.
Defined.

(** [int] does not take the separator 28 for whitespace: a subject
    directory named [p], the character 28 and [7] is not numeric. *)
Lemma int_rejects_a_separator :
  PyInt.of_string (String (ascii_of_N 28) "7") = None
  /\ PyInt.of_string (String (ascii_of_N 9) "7 ") = Some 7.
Proof. split; reflexivity. Qed.

(** C4 (as stated) fails: the subject directory [pabc] does not have a
    numeric subject id after the [p]; it is not passed over, the scan
    raises and returns no tuple, not even the one of the conforming record
    [p101/p10100001/r]. *)
Lemma scan_named_subject_counterexample :
  discovered tree_with_named_subject ("p101/p10100001/r", "r", 10100001)
  /\ PyInt.of_string (PyStr.drop1 "pabc") = None
  /\ find_all_records tree_with_named_subject = None
  /\ main_scan (Some tree_with_named_subject) = ScanRaised.
Proof.
  split; [|repeat split; reflexivity].
  exists "p101", (Fs.Dir [("p10100001",
                           Fs.Dir [("r", Fs.Dir [("r.hea", Fs.File)])])]),
    "p10100001", (Fs.Dir [("r", Fs.Dir [("r.hea", Fs.File)])]),
    "r", (Fs.Dir [("r.hea", Fs.File)]), 10100001.
  repeat split; try reflexivity; cbn; auto.
Qed.

(** ** What one record adds to the tables *)

Section Delta.

Lemma tables_ext (t u : tables) :
  waveform_records t = waveform_records u ->
  waveform_segments t = waveform_segments u ->
  waveform_signals t = waveform_signals u ->
  waveform_numerics t = waveform_numerics u ->
  t = u.
Proof. destruct t, u. cbn. intros -> -> -> ->. reflexivity. Qed.

Lemma extend_no_rows_r (t : tables) : extend t no_rows = t.
Proof. apply tables_ext; cbn; apply app_nil_r. Qed.

Lemma extend_no_rows_l (t : tables) : extend no_rows t = t.
Proof. apply tables_ext; reflexivity. Qed.

Lemma extend_assoc (t d e : tables) :
  extend (extend t d) e = extend t (extend d e).
Proof. apply tables_ext; cbn; symmetry; apply app_assoc. Qed.

(** The loop over the signals of a segment writes the rows up to the first
    signal whose row raises. *)
Lemma signal_loop_signals (seg_header : header) (record_name : string)
  (seg_num : nat) (indices : list nat) (t : tables) :
  waveform_signals
    (snd (IO.for_loop indices
            (fun sig_idx =>
               s <- IO.lift (signal_row seg_header record_name seg_num
                               sig_idx) ;;
               IO.write_signal s) t))
  = (waveform_signals t
     ++ while_some (signal_row seg_header record_name seg_num) indices)%list.
Proof.
  revert t. induction indices as [|i indices IH]; intros t.
  - symmetry. apply app_nil_r.
  - cbn [IO.for_loop while_some]. unfold IO.bind at 1. unfold IO.bind at 1.
    unfold IO.lift at 1.
    destruct (signal_row seg_header record_name seg_num i) as [s|].
    + unfold IO.write_signal at 1. rewrite IH. cbn [waveform_signals].
      rewrite <- app_assoc. reflexivity.
    + symmetry. apply app_nil_r.
Qed.

Lemma process_segment_signals w full_path record record_name
  start_datetime seg_num name t :
  waveform_signals
    (snd (process_segment w full_path record record_name start_datetime
            seg_num name t))
  = (waveform_signals t ++
     match rdheader w (path_join full_path name) with
     | Some seg_header =>
         match segment_row record seg_header record_name start_datetime
                 seg_num name with
         | Some _ => signal_rows seg_header record_name seg_num
         | None => []
         end
     | None => []
     end)%list.
Proof.
  unfold process_segment.
  unfold IO.bind at 1. unfold IO.lift at 1.
  destruct (rdheader w _) as [seg_header|]; [|symmetry; apply app_nil_r].
  unfold IO.bind at 1. unfold IO.lift at 1.
  destruct (segment_row _ _ _ _ _ _) as [r|]; [|symmetry; apply app_nil_r].
  unfold IO.bind at 1. unfold IO.write_segment at 1.
  unfold IO.bind at 1. unfold IO.lift at 1. unfold signal_rows.
  destruct (signal_range seg_header) as [indices|].
  - rewrite signal_loop_signals. reflexivity.
  - symmetry. apply app_nil_r.
Qed.

Lemma segment_loop_signals w full_path record record_name start_datetime
  (l : list (nat * string)) (t : tables) :
  waveform_signals
    (snd (IO.for_loop l
            (fun '(seg_num, name) =>
               if skip_segment name then IO.ret tt
               else IO.catch (process_segment w full_path record record_name
                                start_datetime seg_num name)) t))
  = (waveform_signals t
     ++ segment_signal_rows w full_path record record_name start_datetime
          l)%list.
Proof.
  revert t. induction l as [|[seg_num name] l IH]; intros t.
  - symmetry. apply app_nil_r.
  - cbn [IO.for_loop segment_signal_rows flat_map]. unfold IO.bind at 1.
    destruct (skip_segment name).
    + cbn [IO.ret]. rewrite IH. reflexivity.
    + unfold IO.catch at 1. rewrite IH. cbn [snd].
      rewrite process_segment_signals, <- app_assoc. reflexivity.
Qed.

(** The loop over the segments never raises. *)
Lemma segment_loop_returns w full_path record record_name start_datetime
  (l : list (nat * string)) (t : tables) :
  fst (IO.for_loop l
         (fun '(seg_num, name) =>
            if skip_segment name then IO.ret tt
            else IO.catch (process_segment w full_path record record_name
                             start_datetime seg_num name)) t)
  = Some tt.
Proof.
  revert t. induction l as [|[seg_num name] l IH]; intros t.
  - reflexivity.
  - cbn [IO.for_loop]. unfold IO.bind at 1.
    destruct (skip_segment name); [apply IH|].
    unfold IO.catch at 1. apply IH.
Qed.

Lemma numerics_loop_numerics record record_name base_freq time_col cols
  (rows : list (list (string * PyFloat.float))) (t : tables) :
  waveform_numerics
    (snd (IO.for_loop rows
            (fun r =>
               out <- IO.lift (numerics_row record record_name base_freq
                                 time_col cols r) ;;
               IO.write_numerics out) t))
  = (waveform_numerics t
     ++ while_some (numerics_row record record_name base_freq time_col cols)
          rows)%list.
Proof.
  revert t. induction rows as [|r rows IH]; intros t.
  - symmetry. apply app_nil_r.
  - cbn [IO.for_loop while_some]. unfold IO.bind at 1. unfold IO.bind at 1.
    unfold IO.lift at 1.
    destruct (numerics_row _ _ _ _ _ r) as [out|].
    + unfold IO.write_numerics at 1. rewrite IH. cbn [waveform_numerics].
      rewrite <- app_assoc. reflexivity.
    + symmetry. apply app_nil_r.
Qed.

Lemma process_numerics_numerics w full_path record record_name base_freq t :
  waveform_numerics
    (snd (process_numerics w full_path record record_name base_freq t))
  = (waveform_numerics t
     ++ numerics_rows w full_path record record_name base_freq)%list.
Proof.
  unfold process_numerics, numerics_rows.
  destruct (read_numerics w _) as [| |df];
    [symmetry; apply app_nil_r|symmetry; apply app_nil_r|].
  unfold IO.catch. cbn [snd]. unfold IO.bind at 1. unfold IO.lift at 1.
  destruct (df_columns df) as [|time_col cols]; cbn [hd_error tl].
  - symmetry. apply app_nil_r.
  - apply numerics_loop_numerics.
Qed.

Lemma process_segments_signals w full_path record record_name
  start_datetime t :
  waveform_signals
    (snd (process_segments w full_path record record_name start_datetime t))
  = (waveform_signals t ++
     segment_signal_rows w full_path record record_name start_datetime
       match seg_name record with
       | Val names => enumerate names
       | _ => []
       end)%list.
Proof.
  unfold process_segments.
  destruct (seg_name record) as [| |names];
    [symmetry; apply app_nil_r|symmetry; apply app_nil_r|].
  apply segment_loop_signals.
Qed.

Lemma process_segments_returns w full_path record record_name
  start_datetime t :
  seg_name record <> PyNone ->
  fst (process_segments w full_path record record_name start_datetime t)
  = Some tt.
Proof.
  unfold process_segments.
  destruct (seg_name record) as [| |names]; [reflexivity|congruence|].
  intros _. apply segment_loop_returns.
Qed.

(** One iteration of the loop over the records appends [record_delta]. *)
Lemma process_record_delta w data_dir skip_numerics entry t :
  process_record w data_dir skip_numerics entry t
  = (Some tt, extend t (record_delta w data_dir skip_numerics entry)).
Proof.
  unfold process_record, IO.catch. f_equal.
  destruct entry as [[record_path record_name] subject_id].
  unfold process_record_body, record_delta, record_file.
  unfold IO.bind at 1. unfold IO.lift at 1.
  destruct (rdheader w _) as [record|];
    [|symmetry; apply extend_no_rows_r].
  unfold record_row.
  unfold IO.bind at 1. unfold IO.lift at 1.
  destruct (scan_comments record) as [[hadm_id sid]|];
    [|symmetry; apply extend_no_rows_r].
  unfold IO.bind at 1. unfold IO.lift at 1.
  destruct (num_segments_of record) as [num_segments|] eqn:Hnum;
    [|symmetry; apply extend_no_rows_r].
  assert (seg_name record <> PyNone) as Hnames.
  { unfold num_segments_of in Hnum. destruct (seg_name record); congruence. }
  unfold IO.bind at 1. unfold IO.write_record at 1.
  unfold IO.bind at 1.
  match goal with
  | |- context [process_segments ?a ?b ?c ?d ?e ?t0] =>
      pose proof (process_segments_returns a b c d e t0 Hnames) as Hret;
      pose proof (process_segments_segments a b c d e t0) as Hseg;
      pose proof (process_segments_signals a b c d e t0) as Hsig;
      pose proof (process_segments_keeps waveform_records a b c d e
                    (fun r0 t1 => eq_refl) (fun r0 t1 => eq_refl) t0)
        as Hrec;
      pose proof (process_segments_keeps waveform_numerics a b c d e
                    (fun r0 t1 => eq_refl) (fun r0 t1 => eq_refl) t0)
        as Hnm;
      destruct (process_segments a b c d e t0) as [o t1]
  end.
  cbn [fst snd waveform_records waveform_segments waveform_signals
         waveform_numerics] in Hret, Hseg, Hsig, Hrec, Hnm.
  subst o.
  assert (waveform_segments t1
          = (waveform_segments t ++
             segment_rows w (path_join data_dir record_path) record
               record_name
               (format_start (get_or_empty VDatetime (base_datetime record)))
               match seg_name record with
               | Val names => enumerate names
               | _ => []
               end)%list) as Hseg'.
  { rewrite Hseg. destruct (seg_name record); reflexivity. }
  destruct skip_numerics.
  - cbn [IO.ret snd]. apply tables_ext; cbn;
      rewrite ?Hrec, ?Hseg', ?Hsig, ?Hnm, ?app_nil_r; reflexivity.
  - apply tables_ext;
      rewrite ?process_numerics_numerics,
        ?(process_numerics_keeps waveform_records),
        ?(process_numerics_keeps waveform_segments),
        ?(process_numerics_keeps waveform_signals)
        by (intros r0 t0; reflexivity);
      cbn; rewrite ?Hrec, ?Hseg', ?Hsig, ?Hnm; reflexivity.
Qed.

(** X1: one iteration of the loop over the records never raises, and the
    rows it appends to the four tables do not depend on the rows that are
    already there: they are the rows it would write into empty tables. *)
Theorem process_record_ignores_earlier_rows w data_dir skip_numerics entry
  (t : tables) :
  process_record w data_dir skip_numerics entry t
  = (Some tt,
     extend t (snd (process_record w data_dir skip_numerics entry no_rows))).
Proof.
  rewrite (process_record_delta w data_dir skip_numerics entry no_rows),
    process_record_delta.
  cbn [snd]. rewrite extend_no_rows_l. reflexivity.
Qed.

End Delta.

(** ** The tables of a whole run *)

Section Run.

Variables (w : world) (data_dir : string) (skip_numerics : bool).

Lemma run_from (records : list record_entry) (t : tables) :
  fold_left
    (fun t' entry => snd (process_record w data_dir skip_numerics entry t'))
    records t
  = extend t (records_delta w data_dir skip_numerics records).
Proof.
  revert t. induction records as [|entry records IH]; intros t;
    cbn [fold_left records_delta].
  - symmetry. apply extend_no_rows_r.
  - rewrite process_record_delta. cbn [snd].
    rewrite IH. apply extend_assoc.
Qed.

Lemma records_delta_app (l1 l2 : list record_entry) :
  records_delta w data_dir skip_numerics (l1 ++ l2)
  = extend (records_delta w data_dir skip_numerics l1)
      (records_delta w data_dir skip_numerics l2).
Proof.
  induction l1 as [|entry l1 IH]; cbn [app records_delta].
  - symmetry. apply extend_no_rows_l.
  - rewrite IH. symmetry. apply extend_assoc.
Qed.

Lemma run_alone (records : list record_entry) :
  snd (IO.for_loop records (process_record w data_dir skip_numerics) no_rows)
  = records_delta w data_dir skip_numerics records.
Proof.
  rewrite for_loop_total
    by (intros x t'; apply process_record_returns).
  cbn [snd]. rewrite run_from. apply extend_no_rows_l.
Qed.

(** X2: the run over [l1 ++ l2] gives the tables of the run over [l1]
    followed, table by table, by the rows that the loop over [l2] writes
    into empty tables: the records are processed independently and their
    rows come in the order of the records. *)
Theorem extract_metadata_in_batches (l1 l2 : list record_entry) :
  extract_metadata w data_dir (l1 ++ l2) skip_numerics
  = extend (extract_metadata w data_dir l1 skip_numerics)
      (snd (IO.for_loop l2 (process_record w data_dir skip_numerics)
              no_rows)).
Proof.
  rewrite run_alone, !extract_metadata_fold, !run_from, records_delta_app.
  symmetry. apply extend_assoc.
Qed.

End Run.

Lemma record_delta_skip_numerics w data_dir entry :
  waveform_records (record_delta w data_dir true entry)
  = waveform_records (record_delta w data_dir false entry)
  /\ waveform_segments (record_delta w data_dir true entry)
     = waveform_segments (record_delta w data_dir false entry)
  /\ waveform_signals (record_delta w data_dir true entry)
     = waveform_signals (record_delta w data_dir false entry)
  /\ waveform_numerics (record_delta w data_dir true entry) = [].
Proof.
  destruct entry as [[record_path record_name] subject_id].
  unfold record_delta.
  destruct (rdheader w _) as [record|]; [|repeat split].
  destruct (record_row record _); repeat split.
Qed.

(** X3: the flag [skip_numerics] changes nothing in the records, segments
    and signals tables, and with the flag the numerics table has no row at
    all, not even the header row. *)
Theorem skip_numerics_only_drops_numerics w data_dir
  (records : list record_entry) :
  waveform_records (extract_metadata w data_dir records true)
  = waveform_records (extract_metadata w data_dir records false)
  /\ waveform_segments (extract_metadata w data_dir records true)
     = waveform_segments (extract_metadata w data_dir records false)
  /\ waveform_signals (extract_metadata w data_dir records true)
     = waveform_signals (extract_metadata w data_dir records false)
  /\ waveform_numerics (extract_metadata w data_dir records true) = [].
Proof.
  rewrite !extract_metadata_fold, !run_from.
  cbn [extend opened waveform_records waveform_segments waveform_signals
         waveform_numerics].
  induction records as [|entry records IH]; cbn [records_delta].
  - repeat split.
  - destruct IH as (Hr & Hs & Hg & Hn).
    destruct (record_delta_skip_numerics w data_dir entry)
      as (Hr' & Hs' & Hg' & Hn').
    cbn [extend waveform_records waveform_segments waveform_signals
           waveform_numerics].
    apply app_inv_head in Hr, Hs, Hg. cbn [app] in Hn.
    rewrite Hr, Hs, Hg, Hr', Hs', Hg', Hn', Hn. repeat split.
Qed.

(** ** The shape of the rows *)

Section Widths.

Lemma Forall_while_some {A B} (P : B -> Prop) (f : A -> option B)
  (l : list A) :
  (forall x y, f x = Some y -> P y) -> Forall P (while_some f l).
Proof.
  intros Hf. induction l as [|x l IH]; cbn [while_some]; [constructor|].
  destruct (f x) as [y|] eqn:Hx; constructor; eauto.
Qed.

Lemma Forall_flat_map {A B} (P : B -> Prop) (f : A -> list B) (l : list A) :
  (forall x, Forall P (f x)) -> Forall P (flat_map f l).
Proof.
  intros Hf. induction l as [|x l IH]; cbn [flat_map]; [constructor|].
  apply Forall_app. split; [apply Hf|exact IH].
Qed.

Lemma record_row_width record entry r :
  record_row record entry = Some r -> List.length r = 10%nat.
Proof.
  destruct entry as [[record_path record_name] subject_id].
  unfold record_row. destruct (scan_comments record) as [[h s]|];
    [|discriminate].
  destruct (num_segments_of record); [|discriminate].
  intros [= <-]. reflexivity.
Qed.

Lemma segment_row_width record seg_header record_name start_datetime
  seg_num name r :
  segment_row record seg_header record_name start_datetime seg_num name
  = Some r -> List.length r = 9%nat.
Proof.
  unfold segment_row.
  destruct (segment_start_time _ _ _); [|discriminate].
  destruct (segment_duration _); [|discriminate].
  destruct (get of_number _); [|discriminate].
  destruct (get VInt _); [|discriminate].
  intros [= <-]. reflexivity.
Qed.

Lemma signal_row_width seg_header record_name seg_num sig_idx r :
  signal_row seg_header record_name seg_num sig_idx = Some r ->
  List.length r = 10%nat.
Proof.
  unfold signal_row.
  destruct (match sig_name seg_header with
            | Val names => nth_error names sig_idx
            | _ => None
            end); [|discriminate].
  do 4 (destruct (item_or_empty _ _); [|discriminate]).
  intros [= <-]. reflexivity.
Qed.

Lemma numerics_row_width record record_name base_freq time_col cols r out :
  numerics_row record record_name base_freq time_col cols r = Some out ->
  List.length out = 18%nat.
Proof.
  intros Hrow. apply numerics_row_inv in Hrow.
  destruct Hrow as (tick & n & mt & st & _ & _ & _ & _ & ->). reflexivity.
Qed.

(** The widths of the rows that one record adds. *)
Lemma record_delta_widths w data_dir skip_numerics entry :
  let d := record_delta w data_dir skip_numerics entry in
  Forall (fun r => List.length r = 10%nat) (waveform_records d)
  /\ Forall (fun r => List.length r = 9%nat) (waveform_segments d)
  /\ Forall (fun r => List.length r = 10%nat) (waveform_signals d)
  /\ Forall (fun r => List.length r = 18%nat) (waveform_numerics d).
Proof.
  destruct entry as [[record_path record_name] subject_id].
  unfold record_delta.
  destruct (rdheader w _) as [record|]; [|repeat split; constructor].
  destruct (record_row record _) as [r|] eqn:Hrow;
    [|repeat split; constructor].
  cbn [waveform_records waveform_segments waveform_signals
         waveform_numerics].
  split; [|split; [|split]].
  - constructor; [|constructor]. eapply record_row_width, Hrow.
  - apply Forall_flat_map. intros [seg_num name].
    destruct (skip_segment name); [constructor|].
    destruct (rdheader w _) as [seg_header|]; [|constructor].
    destruct (segment_row _ _ _ _ _ _) as [g|] eqn:Hg; [|constructor].
    constructor; [|constructor]. eapply segment_row_width, Hg.
  - apply Forall_flat_map. intros [seg_num name].
    destruct (skip_segment name); [constructor|].
    destruct (rdheader w _) as [seg_header|]; [|constructor].
    destruct (segment_row _ _ _ _ _ _); [|constructor].
    unfold signal_rows. destruct (signal_range seg_header); [|constructor].
    apply Forall_while_some. intros i s. apply signal_row_width.
  - destruct skip_numerics; [constructor|]. unfold numerics_rows.
    destruct (read_numerics w _) as [| |df]; try constructor.
    destruct (df_columns df) as [|time_col cols]; [constructor|].
    apply Forall_while_some. intros x out. apply numerics_row_width.
Qed.

(** X4: in the four tables of a run every row, header row included, has
    the number of cells of its table: 10 for records, 9 for segments, 10
    for signals and 18 for numerics. *)
Theorem rows_have_the_width_of_their_table w data_dir
  (records : list record_entry) (skip_numerics : bool) :
  let t := extract_metadata w data_dir records skip_numerics in
  Forall (fun r => List.length r = 10%nat) (waveform_records t)
  /\ Forall (fun r => List.length r = 9%nat) (waveform_segments t)
  /\ Forall (fun r => List.length r = 10%nat) (waveform_signals t)
  /\ Forall (fun r => List.length r = 18%nat) (waveform_numerics t).
Proof.
  cbv zeta. rewrite extract_metadata_fold, run_from.
  assert (let d := records_delta w data_dir skip_numerics records in
          Forall (fun r => List.length r = 10%nat) (waveform_records d)
          /\ Forall (fun r => List.length r = 9%nat) (waveform_segments d)
          /\ Forall (fun r => List.length r = 10%nat) (waveform_signals d)
          /\ Forall (fun r => List.length r = 18%nat) (waveform_numerics d))
    as (Hr & Hs & Hg & Hn).
  { induction records as [|entry records IH]; cbn [records_delta].
    - repeat split; constructor.
    - destruct IH as (Hr & Hs & Hg & Hn).
      destruct (record_delta_widths w data_dir skip_numerics entry)
        as (Hr' & Hs' & Hg' & Hn').
      cbn [extend waveform_records waveform_segments waveform_signals
             waveform_numerics].
      repeat split; apply Forall_app; split; assumption. }
  cbn [extend opened waveform_records waveform_segments waveform_signals
         waveform_numerics].
  repeat split; try (apply Forall_app; split; [|assumption]).
  - repeat constructor.
  - repeat constructor.
  - repeat constructor.
  - destruct skip_numerics; repeat constructor.
Qed.

End Widths.

(** ** Rows and the rows they refer to *)

Section Keys.

Lemma in_while_some {A B} (f : A -> option B) (l : list A) (y : B) :
  In y (while_some f l) -> exists x, In x l /\ f x = Some y.
Proof.
  induction l as [|x l IH]; cbn [while_some]; [intros []|].
  destruct (f x) as [y'|] eqn:Hx; [|intros []].
  intros [<-|Hin].
  - exists x. split; [left; reflexivity|exact Hx].
  - destruct (IH Hin) as (x' & Hin' & Hx'). exists x'.
    split; [right; exact Hin'|exact Hx'].
Qed.

Lemma signal_row_cells seg_header record_name seg_num sig_idx s :
  signal_row seg_header record_name seg_num sig_idx = Some s ->
  cell 0 s = VStr record_name /\ cell 1 s = VInt (Z.of_nat seg_num)
  /\ cell 3 s = VInt (Z.of_nat sig_idx)
  /\ exists name,
       cell 2 s = VStr name
       /\ cell 9 s = VStr (signal_type_name (categorize_signal_type name)).
Proof.
  unfold signal_row.
  destruct (match sig_name seg_header with
            | Val names => nth_error names sig_idx
            | _ => None
            end) as [name|]; [|discriminate].
  do 4 (destruct (item_or_empty _ _); [|discriminate]).
  intros [= <-]. repeat split. exists name. split; reflexivity.
Qed.

Lemma segment_row_record_id record seg_header record_name start_datetime
  seg_num name g :
  segment_row record seg_header record_name start_datetime seg_num name
  = Some g -> cell 0 g = VStr record_name.
Proof.
  unfold segment_row.
  destruct (segment_start_time _ _ _); [|discriminate].
  destruct (segment_duration _); [|discriminate].
  destruct (get of_number _); [|discriminate].
  destruct (get VInt _); [|discriminate].
  intros [= <-]. reflexivity.
Qed.

Lemma numerics_row_record_id record record_name base_freq time_col cols r
  out :
  numerics_row record record_name base_freq time_col cols r = Some out ->
  cell 0 out = VStr record_name.
Proof.
  intros Hrow. apply numerics_row_inv in Hrow.
  destruct Hrow as (tick & n & mt & st & _ & _ & _ & _ & ->). reflexivity.
Qed.

Lemma record_row_record_id record record_path record_name subject_id r :
  record_row record (record_path, record_name, subject_id) = Some r ->
  cell 0 r = VStr record_name.
Proof.
  unfold record_row. destruct (scan_comments record) as [[h s]|];
    [|discriminate].
  destruct (num_segments_of record); [|discriminate].
  intros [= <-]. reflexivity.
Qed.

Lemma in_segment_signal_rows w full_path record record_name start_datetime
  l s :
  In s (segment_signal_rows w full_path record record_name start_datetime l)
  ->
  exists seg_num name seg_header g,
    In (seg_num, name) l /\ skip_segment name = false
    /\ rdheader w (path_join full_path name) = Some seg_header
    /\ segment_row record seg_header record_name start_datetime seg_num name
       = Some g
    /\ In s (signal_rows seg_header record_name seg_num).
Proof.
  unfold segment_signal_rows. rewrite in_flat_map.
  intros ([seg_num name] & Hin & Hs).
  destruct (skip_segment name) eqn:Hskip; [contradiction|].
  destruct (rdheader w _) as [seg_header|] eqn:Hread; [|contradiction].
  destruct (segment_row _ _ _ _ _ _) as [g|] eqn:Hrow; [|contradiction].
  exists seg_num, name, seg_header, g. auto.
Qed.

Lemma segment_rows_complete w full_path record record_name start_datetime
  l seg_num name seg_header g :
  In (seg_num, name) l -> skip_segment name = false ->
  rdheader w (path_join full_path name) = Some seg_header ->
  segment_row record seg_header record_name start_datetime seg_num name
  = Some g ->
  In g (segment_rows w full_path record record_name start_datetime l).
Proof.
  intros Hin Hskip Hread Hrow. unfold segment_rows. apply in_flat_map.
  exists (seg_num, name). split; [exact Hin|].
  rewrite Hskip, Hread, Hrow. left. reflexivity.
Qed.

Lemma delta_rows_reference_the_record_row w data_dir skip_numerics
  (record_path record_name : string) (subject_id : Z) (r : row) :
  let d := record_delta w data_dir skip_numerics
             (record_path, record_name, subject_id) in
  In r (waveform_segments d) \/ In r (waveform_signals d)
  \/ In r (waveform_numerics d) ->
  cell 0 r = VStr record_name
  /\ exists rr, waveform_records d = [rr] /\ cell 0 rr = VStr record_name.
Proof.
  cbv zeta. unfold record_delta.
  destruct (rdheader w _) as [record|];
    [|cbn; intros [[]|[[]|[]]]].
  destruct (record_row record _) as [rr|] eqn:Hrow;
    [|cbn; intros [[]|[[]|[]]]].
  cbn [waveform_records waveform_segments waveform_signals
         waveform_numerics].
  intros Hin. split.
  - destruct Hin as [Hin|[Hin|Hin]].
    + apply in_segment_rows in Hin.
      destruct Hin as (seg_num & name & seg_header & _ & _ & _ & Hg).
      eapply segment_row_record_id, Hg.
    + apply in_segment_signal_rows in Hin.
      destruct Hin as (seg_num & name & seg_header & g & _ & _ & _ & _
                       & Hs).
      unfold signal_rows in Hs.
      destruct (signal_range seg_header); [|destruct Hs].
      apply in_while_some in Hs. destruct Hs as (i & _ & Hs).
      apply signal_row_cells in Hs. apply Hs.
    + destruct skip_numerics; [destruct Hin|].
      unfold numerics_rows in Hin.
      destruct (read_numerics w _) as [| |df]; try destruct Hin.
      destruct (df_columns df) as [|time_col cols]; [destruct Hin|].
      apply in_while_some in Hin. destruct Hin as (x & _ & Hx).
      eapply numerics_row_record_id, Hx.
  - exists rr. split; [reflexivity|].
    eapply record_row_record_id, Hrow.
Qed.

(** X5: a row that one record adds to the segments, signals or numerics
    table carries the record_id of the row that the same iteration adds to
    the records table, which is exactly one row: no row of these tables is
    written for a record that has no record row. *)
Theorem added_rows_reference_the_record_row w data_dir skip_numerics
  (record_path record_name : string) (subject_id : Z) (t : tables)
  (r : row) :
  let t' := snd (process_record w data_dir skip_numerics
                   (record_path, record_name, subject_id) t) in
  In r (added (waveform_segments t) (waveform_segments t'))
  \/ In r (added (waveform_signals t) (waveform_signals t'))
  \/ In r (added (waveform_numerics t) (waveform_numerics t')) ->
  cell 0 r = VStr record_name
  /\ exists rr,
       added (waveform_records t) (waveform_records t') = [rr]
       /\ cell 0 rr = VStr record_name.
Proof.
  cbv zeta. rewrite process_record_delta.
  cbn [snd extend waveform_records waveform_segments waveform_signals
         waveform_numerics].
  rewrite !added_app. apply delta_rows_reference_the_record_row.
Qed.

Lemma delta_signals_reference_a_segment_row w data_dir skip_numerics
  (entry : record_entry) (s : row) :
  let d := record_delta w data_dir skip_numerics entry in
  In s (waveform_signals d) ->
  exists g, In g (waveform_segments d)
            /\ cell 0 g = cell 0 s /\ cell 2 g = cell 1 s.
Proof.
  cbv zeta. destruct entry as [[record_path record_name] subject_id].
  unfold record_delta.
  destruct (rdheader w _) as [record|]; [|intros []].
  destruct (record_row record _); [|intros []].
  cbn [waveform_segments waveform_signals]. intros Hin.
  apply in_segment_signal_rows in Hin.
  destruct Hin as (seg_num & name & seg_header & g & Hl & Hskip & Hread
                   & Hg & Hs).
  exists g. split.
  { eapply segment_rows_complete; eassumption. }
  unfold signal_rows in Hs.
  destruct (signal_range seg_header); [|destruct Hs].
  apply in_while_some in Hs. destruct Hs as (i & _ & Hs).
  apply signal_row_cells in Hs. destruct Hs as (Hs0 & Hs1 & _).
  pose proof (segment_row_record_id _ _ _ _ _ _ _ Hg) as Hg0.
  apply segment_row_cells in Hg. destruct Hg as (_ & Hg2 & _).
  rewrite Hg0, Hs0, Hg2, Hs1. split; reflexivity.
Qed.

(** X6: every signal row that one record adds belongs to a segment row
    that the same iteration adds: same record_id, and the segment_num of
    the signal row is the segment_num of that segment row. *)
Theorem signal_rows_reference_a_segment_row w data_dir skip_numerics
  (entry : record_entry) (t : tables) (s : row) :
  let t' := snd (process_record w data_dir skip_numerics entry t) in
  In s (added (waveform_signals t) (waveform_signals t')) ->
  exists g, In g (added (waveform_segments t) (waveform_segments t'))
            /\ cell 0 g = cell 0 s /\ cell 2 g = cell 1 s.
Proof.
  cbv zeta. rewrite process_record_delta.
  cbn [snd extend waveform_segments waveform_signals].
  rewrite !added_app. apply delta_signals_reference_a_segment_row.
Qed.

End Keys.

(** ** The signals of a segment *)

Section Signals.

Lemma while_some_seq_cells {B} (f : nat -> option B) (key : B -> nat)
  (start len : nat) :
  (forall i y, f i = Some y -> key y = i) ->
  exists k, (k <= len)%nat
            /\ map key (while_some f (seq start len)) = seq start k.
Proof.
  intros Hkey. revert start. induction len as [|len IH]; intros start;
    cbn [seq while_some].
  - exists 0%nat. split; [lia|reflexivity].
  - destruct (f start) as [y|] eqn:Hy.
    + destruct (IH (S start)) as (k & Hk & Hmap). exists (S k).
      split; [lia|]. cbn [map seq]. rewrite Hmap, (Hkey _ _ Hy).
      reflexivity.
    + exists 0%nat. split; [lia|reflexivity].
Qed.

Lemma while_some_all {A B} (f : A -> option B) (l : list A) :
  (forall x, In x l -> f x <> None) ->
  List.length (while_some f l) = List.length l.
Proof.
  induction l as [|x l IH]; intros Hf; cbn [while_some]; [reflexivity|].
  destruct (f x) as [y|] eqn:Hx.
  - cbn [List.length]. rewrite IH; [reflexivity|].
    intros x' Hin. apply Hf. right. exact Hin.
  - destruct (Hf x (or_introl eq_refl) Hx).
Qed.

(** The signal index written in a signal row. *)
Lemma signal_row_index seg_header record_name seg_num sig_idx s :
  signal_row seg_header record_name seg_num sig_idx = Some s ->
  match cell 3 s with VInt n => Z.to_nat n | _ => 0%nat end = sig_idx.
Proof.
  intros Hs. apply signal_row_cells in Hs. destruct Hs as (_ & _ & -> & _).
  apply Nat2Z.id.
Qed.

Lemma signal_rows_numbered (seg_header : header)
  (record_name : string) (seg_num : nat) (n : Z) :
  n_sig seg_header = Val n ->
  let rows := signal_rows seg_header record_name seg_num in
  (exists k, (k <= Z.to_nat n)%nat
             /\ map (cell 3) rows
                = map (fun i => VInt (Z.of_nat i)) (seq 0 k))
  /\ (forall names,
        sig_name seg_header = Val names ->
        (Z.to_nat n <= List.length names)%nat ->
        (forall a, In a [units seg_header; adc_gain seg_header;
                         baseline seg_header; adc_res seg_header] ->
                   a = Missing
                   \/ exists l, a = Val l
                                /\ (Z.to_nat n <= List.length l)%nat) ->
        List.length rows = Z.to_nat n).
Proof.
  intros Hn rows. subst rows. unfold signal_rows, signal_range.
  rewrite Hn. split.
  - destruct (while_some_seq_cells
                (signal_row seg_header record_name seg_num)
                (fun s => match cell 3 s with
                          | VInt n => Z.to_nat n
                          | _ => 0%nat
                          end) 0 (Z.to_nat n)) as (k & Hk & Hmap).
    { intros i s. apply signal_row_index. }
    exists k. split; [exact Hk|].
    rewrite <- Hmap, map_map. apply map_ext_in.
    intros s Hin. apply in_while_some in Hin. destruct Hin as (i & _ & Hs).
    apply signal_row_cells in Hs. destruct Hs as (_ & _ & -> & _).
    rewrite Nat2Z.id. reflexivity.
  - intros names Hnames Hlen Hattrs.
    rewrite while_some_all; [apply length_seq|].
    intros i Hi. apply in_seq in Hi. unfold signal_row. rewrite Hnames.
    destruct (nth_error names i) eqn:Hname.
    2:{ apply nth_error_None in Hname. lia. }
    assert (forall a,
              In a [units seg_header; adc_gain seg_header;
                    baseline seg_header; adc_res seg_header] ->
              item_or_empty a i <> None) as Hitem.
    { intros a Ha. destruct (Hattrs a Ha) as [->|(l & -> & Hl)].
      - discriminate.
      - cbn [item_or_empty]. intros Hnone.
        apply nth_error_None in Hnone. lia. }
    pose proof (Hitem (units seg_header) ltac:(cbn; auto)) as H1.
    pose proof (Hitem (adc_gain seg_header) ltac:(cbn; auto)) as H2.
    pose proof (Hitem (baseline seg_header) ltac:(cbn; auto)) as H3.
    pose proof (Hitem (adc_res seg_header) ltac:(cbn; auto)) as H4.
    destruct (item_or_empty (units seg_header) i); [|congruence].
    destruct (item_or_empty (adc_gain seg_header) i); [|congruence].
    destruct (item_or_empty (baseline seg_header) i); [|congruence].
    destruct (item_or_empty (adc_res seg_header) i); [|congruence].
    discriminate.
Qed.

(** X7: when the row of a segment is written, the signal rows written
    after it are numbered 0, 1, ..., k-1 without a gap, with [k] at most
    [n_sig]: the first signal whose row cannot be built ends the segment,
    and the segment row and the signal rows before it stay in the tables.
    When the header has [n_sig] signal names and every attribute list that
    is present is as long, all [n_sig] signal rows are written. *)
Theorem signal_rows_are_numbered_from_zero w full_path record record_name
  start_datetime (seg_num : nat) (name : string) (t : tables)
  (seg_header : header) (g : row) (n : Z) :
  rdheader w (path_join full_path name) = Some seg_header ->
  segment_row record seg_header record_name start_datetime seg_num name
  = Some g ->
  n_sig seg_header = Val n ->
  let t' := snd (process_segment w full_path record record_name
                   start_datetime seg_num name t) in
  let rows := added (waveform_signals t) (waveform_signals t') in
  added (waveform_segments t) (waveform_segments t') = [g]
  /\ (exists k, (k <= Z.to_nat n)%nat
                /\ map (cell 3) rows
                   = map (fun i => VInt (Z.of_nat i)) (seq 0 k))
  /\ (forall names,
        sig_name seg_header = Val names ->
        (Z.to_nat n <= List.length names)%nat ->
        (forall a, In a [units seg_header; adc_gain seg_header;
                         baseline seg_header; adc_res seg_header] ->
                   a = Missing
                   \/ exists l, a = Val l
                                /\ (Z.to_nat n <= List.length l)%nat) ->
        List.length rows = Z.to_nat n).
Proof.
  intros Hread Hg Hn. cbv zeta.
  rewrite process_segment_signals, process_segment_segments, Hread, Hg,
    !added_app.
  split; [reflexivity|].
  apply signal_rows_numbered, Hn.
Qed.

End Signals.

(** The segment [seg1] of the sample record: its header has two signals
    and complete attribute lists, so two signal rows follow its segment
    row, numbered 0 and 1. *)
Lemma signal_rows_are_numbered_from_zero_witness :
  let t' := snd (process_segment Sample.corpus "/data/p100/p10000032/rec"
                   Sample.hour "rec" (VStr "2023-01-01 00:00:00") 1 "seg1"
                   no_rows) in
  List.length (added (waveform_segments no_rows) (waveform_segments t'))
  = 1%nat
  /\ List.length (added (waveform_signals no_rows) (waveform_signals t'))
     = 2%nat.
Proof.
  destruct (signal_rows_are_numbered_from_zero Sample.corpus
              "/data/p100/p10000032/rec" Sample.hour "rec"
              (VStr "2023-01-01 00:00:00") 1 "seg1" no_rows Sample.segment
              [VStr "rec"; VStr "seg1"; VInt 1; VStr "2023-01-01 00:00:00";
               VFloat (PyFloat.of_ratio 1200 1);
               VStr "seg1.hea"; VStr "seg1.dat"; VInt 1; VInt 2]
              2 eq_refl eq_refl eq_refl) as (Hg & _ & Hall).
  cbv zeta. rewrite Hg. split; [reflexivity|].
  apply (Hall ["II"; "Pleth"] eq_refl).
  - cbn. lia.
  - intros a [<-|[<-|[<-|[<-|[]]]]]; right; eexists;
      (split; [reflexivity|cbn; lia]).
Defined.

(** The sample record adds two segment rows and four signal rows; each of
    them carries the record_id [rec] of its record row, and each signal
    row the segment_num of one of the segment rows. *)
Lemma added_rows_reference_the_record_row_witness :
  let t' := snd (process_record Sample.corpus "/data" false Sample.rec
                   (opened false)) in
  Forall (fun r => cell 0 r = VStr "rec")
    (added (waveform_signals (opened false)) (waveform_signals t'))
  /\ List.length
       (added (waveform_signals (opened false)) (waveform_signals t'))
     = 4%nat.
Proof.
  cbv zeta. split; [|vm_compute; reflexivity].
  apply Forall_forall. intros r Hin.
  apply (added_rows_reference_the_record_row Sample.corpus "/data" false
           "p100/p10000032/rec" "rec" 10000032 (opened false) r).
  right. left. exact Hin.
Defined.

Lemma signal_rows_reference_a_segment_row_witness :
  let t' := snd (process_record Sample.corpus "/data" false Sample.rec
                   (opened false)) in
  let s := [VStr "rec"; VInt 3; VStr "Pleth"; VInt 1; VStr "NU";
            VFloat (PyFloat.of_ratio 4096 1); VInt 0; VInt 12; empty;
            VStr "Pressure"] in
  In s (added (waveform_signals (opened false)) (waveform_signals t'))
  /\ exists g,
       In g (added (waveform_segments (opened false))
               (waveform_segments t'))
       /\ cell 0 g = VStr "rec" /\ cell 2 g = VInt 3.
Proof.
  cbv zeta.
  assert (In [VStr "rec"; VInt 3; VStr "Pleth"; VInt 1; VStr "NU";
              VFloat (PyFloat.of_ratio 4096 1); VInt 0; VInt 12; empty;
              VStr "Pressure"]
            (added (waveform_signals (opened false))
               (waveform_signals
                  (snd (process_record Sample.corpus "/data" false
                          Sample.rec (opened false)))))) as Hin.
  { vm_compute. do 3 right. left. reflexivity. }
  split; [exact Hin|].
  destruct (signal_rows_reference_a_segment_row Sample.corpus "/data" false
              Sample.rec (opened false) _ Hin) as (g & Hg & H0 & H2).
  exists g. split; [exact Hg|]. split; assumption.
Defined.

(** ** The numerics rows of a record *)

Section NumericsTable.

Lemma while_some_stops {A B} (f : A -> option B) (pre post : list A)
  (bad : A) :
  (forall x, In x pre -> f x <> None) -> f bad = None ->
  Forall2 (fun x y => f x = Some y) pre
    (while_some f (pre ++ bad :: post)).
Proof.
  intros Hpre Hbad. induction pre as [|x pre IH]; cbn [app while_some].
  - rewrite Hbad. constructor.
  - destruct (f x) as [y|] eqn:Hx.
    + constructor; [exact Hx|]. apply IH. intros x' Hin. apply Hpre.
      right. exact Hin.
    + destruct (Hpre x (or_introl eq_refl) Hx).
Qed.

Lemma process_numerics_returns w full_path record record_name base_freq t :
  fst (process_numerics w full_path record record_name base_freq t)
  = Some tt.
Proof.
  unfold process_numerics. destruct (read_numerics w _); reflexivity.
Qed.

(** X8: a row of the numerics file whose tick counter is missing ends the
    numerics of the record without an error: the rows before it are
    written, in order, and neither that row nor any row after it is. *)
Theorem missing_tick_ends_the_numerics w full_path record record_name
  base_freq (t : tables) (df : dataframe) (time_col : string)
  (cols : list string) (pre post : list (list (string * PyFloat.float)))
  (bad : list (string * PyFloat.float)) :
  read_numerics w (path_join full_path (record_name ++ "n.csv.gz"))
  = Frame df ->
  df_columns df = time_col :: cols ->
  df_rows df = (pre ++ bad :: post)%list ->
  (forall r, In r pre ->
             numerics_row record record_name base_freq time_col cols r
             <> None) ->
  lookup time_col bad = Some PyFloat.nan ->
  let result := process_numerics w full_path record record_name base_freq t
  in
  fst result = Some tt
  /\ Forall2
       (fun r out =>
          numerics_row record record_name base_freq time_col cols r
          = Some out)
       pre
       (added (waveform_numerics t) (waveform_numerics (snd result))).
Proof.
  intros Hfile Hcols Hrows Hpre Hbad. cbv zeta.
  split; [apply process_numerics_returns|].
  rewrite process_numerics_numerics, added_app.
  unfold numerics_rows. rewrite Hfile, Hcols, Hrows.
  apply while_some_stops; [exact Hpre|].
  unfold numerics_row. rewrite Hbad. reflexivity.
Qed.

End NumericsTable.

(** A numerics file of three rows whose second row has no tick: only the
    first row is written. *)
Lemma missing_tick_ends_the_numerics_witness :
  let row tick := [("time", tick); ("SpO2", PyFloat.of_ratio 97 1)] in
  let df := {| df_columns := ["time"; "SpO2"];
               df_rows := [row (PyFloat.of_ratio 1 1); row PyFloat.nan;
                           row (PyFloat.of_ratio 3 1)] |} in
  let w := {| rdheader := fun _ => None; read_numerics := fun _ => Frame df |}
  in
  List.length
    (added (waveform_numerics no_rows)
       (waveform_numerics
          (snd (process_numerics w "/data/rec" Sample.hour "rec" (VInt 1)
                  no_rows))))
  = 1%nat.
Proof.
  intros row df w.
  destruct (missing_tick_ends_the_numerics w "/data/rec" Sample.hour "rec"
              (VInt 1) no_rows df "time" ["SpO2"]
              [row (PyFloat.of_ratio 1 1)] [row (PyFloat.of_ratio 3 1)]
              (row PyFloat.nan) eq_refl eq_refl eq_refl)
    as (_ & Hrows).
  - intros r [<-|[]]. vm_compute. discriminate.
  - reflexivity.
  - apply Forall2_length in Hrows. symmetry. exact Hrows.
Defined.

(** ** The columns of a numerics row *)

Section NumericsSlots.

Lemma for_each_app {A S} (body : S -> A -> option S) (l1 l2 : list A)
  (s : S) :
  for_each body (l1 ++ l2) s
  = match for_each body l1 s with
    | Some s' => for_each body l2 s'
    | None => None
    end.
Proof.
  revert s. induction l1 as [|x l1 IH]; intros s; cbn [app for_each].
  - reflexivity.
  - destruct (body s x); [apply IH|reflexivity].
Qed.

Lemma slot_kept (r : list (string * PyFloat.float)) (cols : list string)
  (k : slot) (st st' : locals) :
  k <> MeasName -> k <> MeasVal ->
  (forall c, In c cols -> ~ writes_slot r c k) ->
  for_each (extract_measurement r) cols st = Some st' ->
  st' k = st k.
Proof.
  intros Hname Hval. revert st.
  induction cols as [|c cols IH]; intros st Hnone; cbn [for_each].
  - intros [= <-]. reflexivity.
  - unfold extract_measurement at 1.
    destruct (lookup c r) as [value|] eqn:Hlook; [|discriminate].
    destruct (PyFloat.is_nan value) eqn:Hnan.
    { apply IH. intros c' Hin. apply Hnone. right. exact Hin. }
    destruct (assign_measurement c value st) as [st1|] eqn:Hst1;
      [|discriminate].
    intros Hloop.
    rewrite (IH _ (fun c' Hin => Hnone c' (or_intror Hin)) Hloop).
    rewrite assign_measurement_classified in Hst1.
    unfold classified_assign, assign_by in Hst1.
    destruct (first_rule c) as [ru|] eqn:Hru.
    + destruct (rule_target (PyStr.lower c) ru) as [[k' conv]|] eqn:Ht;
        [|injection Hst1 as <-; reflexivity].
      destruct (conv value) as [v|]; [|discriminate].
      injection Hst1 as <-.
      apply assign_other. intros ->.
      apply (Hnone c (or_introl eq_refl)).
      exists value, ru, conv. auto.
    + destruct (truthy (st MeasName)); injection Hst1 as <-;
        [reflexivity|].
      rewrite !assign_other by congruence. reflexivity.
Qed.

(** X9: for the twelve vital-sign slots the last column wins, unlike for
    the generic slot: when a column with a value enters a branch that
    fills the slot [k] and no column after it does, the slot holds the
    value of that column, converted as the branch says, whatever the
    columns before it wrote.  A column that enters the NIBP or the ABP
    branch but names none of [sys], [dias], [mean] changes nothing: its
    value is dropped and does not reach the generic slot either. *)
Theorem vital_slot_holds_the_last_match :
  (forall r pre col post st value ru k conv,
     for_each (extract_measurement r) (pre ++ col :: post)%list
       initial_locals = Some st ->
     lookup col r = Some value -> PyFloat.is_nan value = false ->
     first_rule col = Some ru ->
     rule_target (PyStr.lower col) ru = Some (k, conv) ->
     (forall c, In c post -> ~ writes_slot r c k) ->
     conv value = Some (st k))
  /\ (forall col value st,
        first_rule col = Some RNibp \/ first_rule col = Some RAbp ->
        PyStr.contains "sys" (PyStr.lower col) = false ->
        PyStr.contains "dias" (PyStr.lower col) = false ->
        PyStr.contains "mean" (PyStr.lower col) = false ->
        assign_measurement col value st = Some st).
Proof.
  split.
  - intros r pre col post st value ru k conv Hloop Hlook Hnan Hru Ht Hpost.
    rewrite for_each_app in Hloop.
    destruct (for_each (extract_measurement r) pre initial_locals)
      as [st0|]; [|discriminate].
    cbn [for_each] in Hloop. unfold extract_measurement at 1 in Hloop.
    rewrite Hlook, Hnan in Hloop.
    destruct (assign_measurement col value st0) as [st1|] eqn:Hst1;
      [|discriminate].
    destruct (rule_target_not_generic _ _ _ _ Ht) as (Hname & Hval & _).
    rewrite (slot_kept r post k _ st Hname Hval Hpost Hloop).
    rewrite assign_measurement_classified in Hst1.
    unfold classified_assign, assign_by in Hst1. rewrite Hru, Ht in Hst1.
    destruct (conv value) as [v|]; [|discriminate].
    injection Hst1 as <-. rewrite assign_same. reflexivity.
  - intros col value st Hru Hsys Hdias Hmean.
    rewrite assign_measurement_classified.
    unfold classified_assign, assign_by.
    destruct Hru as [-> | ->]; unfold rule_target, pressure_slot;
      rewrite Hsys, Hdias, Hmean; reflexivity.
Qed.

End NumericsSlots.

(** Two SpO2 columns: the value of the second one, 95, is in the slot. *)
Lemma vital_slot_holds_the_last_match_witness :
  let r := [("time", PyFloat.of_ratio 5 1); ("SpO2", PyFloat.of_ratio 98 1);
            ("SpO2 (pulse)", PyFloat.of_ratio 95 1)] in
  exists st,
    for_each (extract_measurement r) (["SpO2"] ++ "SpO2 (pulse)" :: [])%list
      initial_locals = Some st
    /\ st Spo2 = VInt 95.
Proof.
  intros r.
  destruct (for_each (extract_measurement r)
              (["SpO2"] ++ "SpO2 (pulse)" :: [])%list initial_locals)
    as [st|] eqn:Hloop; [|vm_compute in Hloop; discriminate Hloop].
  exists st. split; [reflexivity|].
  assert (as_int (PyFloat.of_ratio 95 1) = Some (st Spo2)) as Hslot.
  { apply (proj1 vital_slot_holds_the_last_match r ["SpO2"] "SpO2 (pulse)"
             [] st (PyFloat.of_ratio 95 1) RSpo2 Spo2 as_int Hloop eq_refl
             eq_refl eq_refl eq_refl).
    intros c []. }
  injection Hslot as <-. reflexivity.
Defined.

(** ** The numerics rules of the specification and the chain *)

Section NumericsRules.

(** The branches of the chain against the rules of the specification: they
    differ on the dropped columns only. *)
Lemma classified_amended (col : string) (value : PyFloat.float)
  (st : locals) :
  classified_assign col value st = amended_assign col value st.
Proof.
  unfold classified_assign, amended_assign, stated_assign, dropped,
    assign_by, first_rule, stated_first_rule, rules_in_priority.
  cbn [find rule_matches stated_rule_matches].
  unfold names_component, rule_target, pressure_slot.
  set (u := PyStr.lower col).
  destruct (PyStr.contains "spo2" u || PyStr.contains "sp02" u);
    cbn [negb andb]; [reflexivity|].
  destruct (PyStr.contains "hr" u && PyStr.contains "heart" u);
    cbn [negb andb]; [reflexivity|].
  destruct (PyStr.contains "rr" u && PyStr.contains "resp" u);
    cbn [negb andb]; [reflexivity|].
  destruct (PyStr.contains "nibp" u), (PyStr.contains "abp" u),
    (PyStr.contains "sys" u), (PyStr.contains "dias" u),
    (PyStr.contains "mean" u); cbn [negb andb orb option_map];
    reflexivity.
Qed.

Lemma unmatched_amended (col : string) :
  unmatched col = stated_unmatched col && negb (dropped col).
Proof.
  unfold unmatched, stated_unmatched, dropped, first_rule,
    stated_first_rule, rules_in_priority.
  cbn [find rule_matches stated_rule_matches].
  unfold names_component.
  set (u := PyStr.lower col).
  destruct (PyStr.contains "spo2" u || PyStr.contains "sp02" u);
    cbn [negb andb]; [reflexivity|].
  destruct (PyStr.contains "hr" u && PyStr.contains "heart" u);
    cbn [negb andb]; [reflexivity|].
  destruct (PyStr.contains "rr" u && PyStr.contains "resp" u);
    cbn [negb andb]; [reflexivity|].
  destruct (PyStr.contains "nibp" u), (PyStr.contains "abp" u),
    (PyStr.contains "sys" u), (PyStr.contains "dias" u),
    (PyStr.contains "mean" u), (PyStr.contains "cvp" u),
    (PyStr.contains "etco2" u), (PyStr.contains "temp" u);
    reflexivity.
Qed.

Lemma first_with_value_ext (f g : string -> bool)
  (r : list (string * PyFloat.float)) (cols : list string) :
  (forall col, f col = g col) ->
  first_with_value f r cols = first_with_value g r cols.
Proof.
  intros Hfg. induction cols as [|col cols IH]; cbn [first_with_value];
    [reflexivity|].
  rewrite Hfg, IH. reflexivity.
Qed.

Lemma for_each_ext {A S} (f g : S -> A -> option S) (l : list A) (s : S) :
  (forall s x, f s x = g s x) -> for_each f l s = for_each g l s.
Proof.
  intros Hfg. revert s. induction l as [|x l IH]; intros s; cbn [for_each];
    [reflexivity|].
  rewrite Hfg. destruct (g s x); [apply IH|reflexivity].
Qed.

(** The loop over the columns classifies them by the amended rules. *)
Lemma extract_measurement_amended (r : list (string * PyFloat.float))
  (cols : list string) :
  for_each (extract_measurement r) cols initial_locals
  = classify_row amended_assign r cols.
Proof.
  unfold classify_row. apply for_each_ext. intros st col.
  unfold extract_measurement. destruct (lookup col r) as [value|];
    [|reflexivity].
  destruct (PyFloat.is_nan value); [reflexivity|].
  rewrite assign_measurement_classified. apply classified_amended.
Qed.

(** A loop writes the results of its body up to the first element on which
    the body raises. *)
Lemma while_some_prefix {A B} (f : A -> option B) (l : list A) :
  exists n,
    Forall2 (fun x y => f x = Some y) (firstn n l) (while_some f l)
    /\ (n = List.length l
        \/ exists bad, nth_error l n = Some bad /\ f bad = None).
Proof.
  induction l as [|x l (n & Hall & Hend)]; cbn [while_some].
  - exists 0%nat. split; [constructor|left; reflexivity].
  - destruct (f x) as [y|] eqn:Hx.
    + exists (S n). cbn [firstn List.length nth_error]. split.
      * constructor; assumption.
      * destruct Hend as [->|Hbad]; [left; reflexivity|right; exact Hbad].
    + exists 0%nat. split; [constructor|].
      right. exists x. split; [reflexivity|exact Hx].
Qed.

(** C8 (amended): the chain classifies a column with a value by the rules
    of the specification, in their priority and first match winning,
    unless the column is dropped: a column that fails the SpO2, heart-rate
    and respiration rules and holds [nibp] or [abp] without [sys], [dias]
    or [mean] changes nothing, it is tried with no later rule and does not
    reach the generic slot.  The name [HR] matches no rule, the heart-rate
    rule included, and is not dropped.  The numerics rows of a record are
    written for the rows of the frame up to the first row that raises; in
    each of them the cells after the tick counter are the variables that
    this classification of the columns after the first leaves, the column
    names being non-empty as [pandas] gives them, and the generic cells
    hold the name and value of the first column with a value that no rule
    matches and that is not dropped, with an empty unit: the unmatched
    columns after it leave no trace. *)
Theorem numerics_generic_slot_keeps_first_unmatched :
  (forall col value st,
     assign_measurement col value st = amended_assign col value st)
  /\ (stated_rule_matches (PyStr.lower "HR") RHeartRate = false
      /\ stated_first_rule "HR" = None /\ dropped "HR" = false)
  /\ (forall w full_path record record_name base_freq t df time_col cols,
        read_numerics w (path_join full_path (record_name ++ "n.csv.gz"))
        = Frame df ->
        df_columns df = time_col :: cols ->
        Forall (fun col => col <> "") cols ->
        exists n,
          Forall2
            (fun r out =>
               (exists st,
                  classify_row amended_assign r cols = Some st
                  /\ skipn 3 out = measurement_cells st)
               /\ (cell 15 out, cell 16 out, cell 17 out)
                  = match first_with_value
                            (fun col =>
                               stated_unmatched col && negb (dropped col))
                            r cols with
                    | Some (col, value) => (VStr col, VFloat value, empty)
                    | None => (empty, empty, empty)
                    end)
            (firstn n (df_rows df))
            (added (waveform_numerics t)
               (waveform_numerics
                  (snd (process_numerics w full_path record record_name
                          base_freq t))))
          /\ (n = List.length (df_rows df)
              \/ exists bad,
                   nth_error (df_rows df) n = Some bad
                   /\ numerics_row record record_name base_freq time_col
                        cols bad = None)).
Proof.
  split.
  { intros col value st. rewrite assign_measurement_classified.
    apply classified_amended. }
  split; [repeat split; reflexivity|].
  intros w full_path record record_name base_freq t df time_col cols Hfile
    Hcols Hnames.
  rewrite process_numerics_numerics, added_app.
  unfold numerics_rows. rewrite Hfile, Hcols.
  destruct (while_some_prefix
              (numerics_row record record_name base_freq time_col cols)
              (df_rows df)) as (n & Hall & Hend).
  exists n. split; [|exact Hend].
  eapply Forall2_impl; [|exact Hall].
  intros r out Hrow. cbv beta in Hrow. apply numerics_row_inv in Hrow.
  destruct Hrow as (tick & ticks & mt & st & _ & _ & _ & Hloop & ->).
  split.
  - exists st. split; [|reflexivity].
    rewrite <- extract_measurement_amended. exact Hloop.
  - pose proof (generic_of_loop r cols initial_locals st Hnames eq_refl
                  Hloop) as Hg.
    unfold first_unmatched in Hg.
    rewrite (first_with_value_ext unmatched _ r cols unmatched_amended)
      in Hg.
    unfold cell. cbn [nth]. exact Hg.
Qed.

End NumericsRules.

(** The row of the specification: columns [HR], [SpO2] and
    [UnknownMetric], all with a value.  [HR] is the first unmatched column
    and takes the generic slot, [SpO2] goes to its own slot,
    [UnknownMetric] is dropped. *)
Lemma numerics_generic_slot_keeps_first_unmatched_witness :
  exists out,
    added (waveform_numerics no_rows)
      (waveform_numerics
         (snd (process_numerics Sample.corpus "/data/p100/p10000032/rec"
                 Sample.hour "rec" (VInt 1) no_rows)))
    = [out]
    /\ (cell 15 out, cell 16 out, cell 17 out)
       = (VStr "HR", VFloat (PyFloat.of_ratio 60 1), empty)
    /\ cell 3 out = empty /\ cell 5 out = VInt 98.
Proof.
  destruct (proj2 (proj2 numerics_generic_slot_keeps_first_unmatched)
              Sample.corpus "/data/p100/p10000032/rec" Sample.hour "rec"
              (VInt 1) no_rows Sample.vitals "time"
              ["HR"; "SpO2"; "UnknownMetric"] eq_refl eq_refl)
    as (n & Hall & _).
  { repeat constructor; discriminate. }
  destruct (added _ _) as [|out [|]] eqn:Hadded;
    try (vm_compute in Hadded; discriminate Hadded).
  exists out. split; [reflexivity|].
  destruct n as [|n]; [inversion Hall|].
  cbn [firstn Sample.vitals df_rows] in Hall.
  apply Forall2_cons_iff in Hall. destruct Hall as [[_ Hgeneric] _].
  split; [exact Hgeneric|].
  vm_compute in Hadded. injection Hadded as <-. split; reflexivity.
Defined.

(** C8 (as stated) fails: in a frame with the columns [time], [NIBP] and
    [Foo], all with a value, no rule of the specification matches [NIBP],
    which names none of [sys], [dias], [mean]; it is the first unmatched
    column, yet the generic cells of the row hold [Foo]: [NIBP] is
    dropped. *)
Lemma numerics_plain_nibp_counterexample :
  ~ (forall w full_path record record_name base_freq t df time_col cols,
       read_numerics w (path_join full_path (record_name ++ "n.csv.gz"))
       = Frame df ->
       df_columns df = time_col :: cols ->
       Forall (fun col => col <> "") cols ->
       (forall r, In r (df_rows df) ->
                  numerics_row record record_name base_freq time_col cols r
                  <> None) ->
       Forall2
         (fun r out =>
            (cell 15 out, cell 16 out, cell 17 out)
            = match first_with_value stated_unmatched r cols with
              | Some (col, value) => (VStr col, VFloat value, empty)
              | None => (empty, empty, empty)
              end)
         (df_rows df)
         (added (waveform_numerics t)
            (waveform_numerics
               (snd (process_numerics w full_path record record_name
                       base_freq t))))).
Proof.
  intros H.
  pose (w := {| rdheader := fun _ => None;
                read_numerics := fun _ => Frame frame_with_plain_nibp |}).
  specialize (H w "/data/rec" Sample.hour "rec" (VInt 1) no_rows
                frame_with_plain_nibp "time" ["NIBP"; "Foo"] eq_refl
                eq_refl).
  assert (stated_first_rule "NIBP" = None
          /\ first_with_value stated_unmatched
               [("time", PyFloat.of_ratio 1 1);
                ("NIBP", PyFloat.of_ratio 120 1);
                ("Foo", PyFloat.of_ratio 7 1)] ["NIBP"; "Foo"]
             = Some ("NIBP", PyFloat.of_ratio 120 1)) as [_ Hfirst]
    by (split; reflexivity).
  assert (added (waveform_numerics no_rows)
            (waveform_numerics
               (snd (process_numerics w "/data/rec" Sample.hour "rec"
                       (VInt 1) no_rows)))
          = [[VStr "rec"; VStr "2023-01-01 00:00:01"; VInt 1;
              empty; empty; empty; empty; empty; empty; empty; empty;
              empty; empty; empty; empty;
              VStr "Foo"; VFloat (PyFloat.of_ratio 7 1); empty]]) as Hrun
    by (vm_compute; reflexivity).
  rewrite Hrun in H.
  assert (Forall (fun col => col <> "") ["NIBP"; "Foo"]) as Hnames
    by (repeat constructor; discriminate).
  specialize (H Hnames).
  assert (forall r, In r (df_rows frame_with_plain_nibp) ->
                    numerics_row Sample.hour "rec" (VInt 1) "time"
                      ["NIBP"; "Foo"] r <> None) as Hrows.
  { intros r [<-|[]]. vm_compute. discriminate. }
  specialize (H Hrows). cbn [frame_with_plain_nibp df_rows] in H.
  apply Forall2_cons_iff in H. destruct H as [H _].
  rewrite Hfirst in H. vm_compute in H. discriminate H.
Qed.

(** ** More on the signal classifier *)

Section ClassifierCases.

Lemma prefix_refl (s : string) : prefix s s = true.
Proof.
  induction s as [|c s IH]; [reflexivity|].
  cbn. destruct (ascii_dec c c); [exact IH|congruence].
Qed.

Lemma lead_has_short_lead (lead : string) :
  In lead ecg_leads ->
  exists short rest, In short short_leads /\ lead = short ++ rest.
Proof.
  unfold ecg_leads, short_leads. cbn [In].
  intros H.
  repeat (destruct H as [<-|H];
          [first [ solve [exists "I"; eexists; split;
                          [cbn; tauto|reflexivity]]
                 | solve [exists "AVR"; eexists; split;
                          [cbn; tauto|reflexivity]]
                 | solve [exists "AVL"; eexists; split;
                          [cbn; tauto|reflexivity]]
                 | solve [exists "AVF"; eexists; split;
                          [cbn; tauto|reflexivity]]
                 | solve [exists "V"; eexists; split;
                          [cbn; tauto|reflexivity]]
                 | solve [exists "MCL"; eexists; split;
                          [cbn; tauto|reflexivity]]
                 | solve [exists "AI"; eexists; split;
                          [cbn; tauto|reflexivity]]
                 | solve [exists "AS"; eexists; split;
                          [cbn; tauto|reflexivity]]
                 | solve [exists "ES"; eexists; split;
                          [cbn; tauto|reflexivity]] ]|]).
  destruct H.
Qed.

(** X11: a label is classified ECG exactly when its upper-case form starts
    with one of [I], [V], [AVR], [AVL], [AVF], [MCL], [AI], [AS], [ES]: the
    equality test and the longer lead names of the list add nothing, and
    every label that begins with the letter [I] or [V] is an ECG lead for
    the classifier. *)
Theorem ecg_is_a_prefix_test (signal_name : string) :
  categorize_signal_type signal_name = ECG
  <-> exists lead, In lead short_leads
                   /\ PyStr.startswith (PyStr.upper signal_name) lead = true.
Proof.
  unfold categorize_signal_type.
  set (u := PyStr.upper signal_name).
  destruct (existsb _ ecg_leads) eqn:Hecg.
  - split; [intros _|reflexivity].
    apply existsb_exists in Hecg. destruct Hecg as (lead & Hin & Hlead).
    destruct (lead_has_short_lead lead Hin) as (short & rest & Hs & ->).
    exists short. split; [exact Hs|]. unfold PyStr.startswith in *.
    apply orb_true_iff in Hlead. destruct Hlead as [Heq|Hpre].
    + apply String.eqb_eq in Heq. rewrite Heq.
      apply (prefix_app_l short rest), prefix_refl.
    + apply (prefix_app_l short rest), Hpre.
  - split.
    + destruct (existsb _ pressure_types); [discriminate|].
      destruct (PyStr.contains "PLETH" u); [discriminate|].
      destruct (PyStr.contains "RESP" u); [discriminate|].
      destruct (PyStr.contains "CO2" u); discriminate.
    + intros (lead & Hin & Hpre). exfalso.
      assert (existsb (fun lead => (u =? lead)%string
                                   || PyStr.startswith u lead) ecg_leads
              = true) as Hyes; [|congruence].
      apply existsb_exists. exists lead. split.
      * unfold short_leads, ecg_leads in *. cbn [In] in *. tauto.
      * rewrite Hpre. apply orb_true_r.
Qed.

(** X12: a label that contains the letter [P], in either case, is
    classified ECG or Pressure, whatever else it contains; therefore no
    label at all is classified Plethysmogram or Respiration. *)
Theorem label_with_p_is_ecg_or_pressure :
  (forall signal_name,
     PyStr.contains "P" (PyStr.upper signal_name) = true ->
     categorize_signal_type signal_name = ECG
     \/ categorize_signal_type signal_name = Pressure)
  /\ (forall signal_name,
        categorize_signal_type signal_name <> Plethysmogram
        /\ categorize_signal_type signal_name <> Respiration).
Proof.
  split; [|exact plethysmogram_respiration_unreachable].
  intros signal_name HP. unfold categorize_signal_type.
  destruct (existsb _ ecg_leads); [left; reflexivity|].
  rewrite (pressure_rule_of_P _ HP). right. reflexivity.
Qed.

End ClassifierCases.

(** [SpO2] contains a [p]: it is classified Pressure. *)
Lemma label_with_p_is_ecg_or_pressure_witness :
  categorize_signal_type "SpO2" = ECG
  \/ categorize_signal_type "SpO2" = Pressure.
Proof.
  apply (proj1 label_with_p_is_ecg_or_pressure "SpO2"). reflexivity.
Defined.

(** ** More on the identity resolver *)

Section Captures.

Lemma lower_cons (c : ascii) (s : string) :
  PyStr.lower (String c s) = String (PyStr.lower_char c) (PyStr.lower s).
Proof. reflexivity. Qed.

Lemma literal_ci_prefix (kw s rest : string) :
  PyRe.literal_ci kw s = Some rest ->
  prefix (PyStr.lower kw) (PyStr.lower s) = true.
Proof.
  revert s. induction kw as [|a kw IH]; intros s; cbn [PyRe.literal_ci].
  - intros _. destruct (PyStr.lower s); reflexivity.
  - destruct s as [|b s]; [discriminate|].
    destruct (Ascii.eqb_spec (PyStr.lower_char a) (PyStr.lower_char b))
      as [Heq|]; [|discriminate].
    intros H. rewrite !lower_cons. cbn [prefix]. rewrite Heq.
    destruct (ascii_dec _ _); [|congruence]. eapply IH, H.
Qed.

Lemma keyword_number_prefix kw sep s g :
  PyRe.keyword_number kw sep s = Some g ->
  prefix (PyStr.lower kw) (PyStr.lower s) = true.
Proof.
  unfold PyRe.keyword_number.
  destruct (PyRe.literal_ci kw s) as [rest|] eqn:Hlit; [|discriminate].
  intros _. eapply literal_ci_prefix, Hlit.
Qed.

(** A match of [kw sep+ (\d+)] somewhere in [s] needs [kw] in [s.lower()]. *)
Lemma search_contains kw sep s g :
  PyRe.search (PyRe.keyword_number kw sep) s = Some g ->
  PyStr.contains (PyStr.lower kw) (PyStr.lower s) = true.
Proof.
  induction s as [|c s IH]; cbn [PyRe.search].
  - destruct (PyRe.keyword_number kw sep "") eqn:Hk; [|discriminate].
    intros _. apply contains_of_prefix.
    eapply keyword_number_prefix, Hk.
  - destruct (PyRe.keyword_number kw sep (String c s)) eqn:Hk.
    + intros _. apply contains_of_prefix.
      eapply keyword_number_prefix, Hk.
    + intros H. rewrite lower_cons. apply contains_tail, IH, H.
Qed.

(** X13: the substring tests that precede the three regular expressions
    never hide a match, since a match needs the keyword in the lower-cased
    comment.  So the subject id of a comment is the capture of its
    pattern, and the admission id is the capture of the [hadm_id] pattern
    or else, only for a comment that does not contain [hadm_id], the
    capture of the [hospital admission id] pattern: a comment that
    contains [hadm_id] without matching the first pattern is never tried
    with the second. *)
Theorem substring_tests_hide_no_match (comment : string) :
  hadm_id_match comment
  = match PyRe.search_hadm_id comment with
    | Some g => Some g
    | None =>
        if PyStr.contains "hadm_id" (PyStr.lower comment) then None
        else PyRe.search_hospital_admission_id comment
    end
  /\ subject_id_match comment
     = option_map PyInt.decimal_value (PyRe.search_subject_id comment).
Proof.
  unfold hadm_id_match, subject_id_match. split.
  - destruct (PyRe.search_hadm_id comment) as [g|] eqn:H1.
    + apply search_contains in H1.
      change (PyStr.lower "hadm_id") with "hadm_id" in H1.
      rewrite H1. reflexivity.
    + destruct (PyStr.contains "hadm_id" (PyStr.lower comment));
        [reflexivity|].
      destruct (PyRe.search_hospital_admission_id comment) as [g|] eqn:H2.
      * apply search_contains in H2.
        change (PyStr.lower "hospital admission id")
          with "hospital admission id" in H2.
        rewrite H2. reflexivity.
      * destruct (PyStr.contains "hospital admission id" _); reflexivity.
  - destruct (PyRe.search_subject_id comment) as [g|] eqn:H3.
    + apply search_contains in H3.
      change (PyStr.lower "subject_id") with "subject_id" in H3.
      rewrite H3. reflexivity.
    + destruct (PyStr.contains "subject_id" _); reflexivity.
Qed.

Lemma span_all (p : ascii -> bool) (s : string) :
  all_chars p (fst (PyStr.span p s)) = true.
Proof.
  induction s as [|c s IH]; cbn [PyStr.span]; [reflexivity|].
  destruct (p c) eqn:Hc; [|reflexivity].
  destruct (PyStr.span p s) as [a b]. cbn [fst all_chars] in *.
  rewrite Hc, IH. reflexivity.
Qed.

Lemma keyword_number_digits kw sep s g :
  PyRe.keyword_number kw sep s = Some g ->
  PyStr.truthy g = true /\ all_chars PyStr.is_digit g = true.
Proof.
  unfold PyRe.keyword_number.
  destruct (PyRe.literal_ci kw s) as [r|]; [|discriminate].
  destruct (PyStr.span sep r) as [seps r'].
  destruct (PyStr.truthy seps); [|discriminate].
  pose proof (span_all PyStr.is_digit r') as Hall.
  destruct (PyStr.span PyStr.is_digit r') as [digits rest].
  destruct (PyStr.truthy digits) eqn:Ht; [|discriminate].
  intros [= <-]. split; [exact Ht|exact Hall].
Qed.

Lemma search_digits kw sep s g :
  PyRe.search (PyRe.keyword_number kw sep) s = Some g ->
  PyStr.truthy g = true /\ all_chars PyStr.is_digit g = true.
Proof.
  induction s as [|c s IH]; cbn [PyRe.search].
  - destruct (PyRe.keyword_number kw sep "") eqn:Hk; [|discriminate].
    intros [= <-]. eapply keyword_number_digits, Hk.
  - destruct (PyRe.keyword_number kw sep (String c s)) eqn:Hk.
    + intros [= <-]. eapply keyword_number_digits, Hk.
    + exact IH.
Qed.

Lemma scan_comments_digits (l : list string) (hadm : string)
  (sid : option Z) :
  all_chars PyStr.is_digit hadm = true ->
  all_chars PyStr.is_digit (fst (fold_left scan_comment l (hadm, sid)))
  = true.
Proof.
  revert hadm sid. induction l as [|c l IH]; intros hadm sid Hhadm;
    cbn [fold_left]; [exact Hhadm|].
  unfold scan_comment at 2. apply IH.
  destruct (hadm_id_match c) as [g|] eqn:Hm; [|exact Hhadm].
  unfold hadm_id_match in Hm.
  destruct (PyStr.contains "hadm_id" _).
  - eapply search_digits, Hm.
  - destruct (PyStr.contains "hospital admission id" _); [|discriminate].
    eapply search_digits, Hm.
Qed.

(** X15: the hadm_id cell of a record row is a string of ASCII digits,
    possibly empty: the program never writes there anything else of a
    comment than a captured number. *)
Theorem hadm_id_cell_is_digits w data_dir skip_numerics
  (entry : record_entry) (t : tables) (r : row) :
  In r (added (waveform_records t)
          (waveform_records
             (snd (process_record w data_dir skip_numerics entry t)))) ->
  exists h, cell 2 r = VStr h /\ all_chars PyStr.is_digit h = true.
Proof.
  unfold process_record, IO.catch. cbn [snd].
  rewrite process_record_body_records, added_app.
  destruct (rdheader w _) as [record|]; [|intros []].
  destruct (record_row record entry) as [r'|] eqn:Hrow; [|intros []].
  intros [<-|[]].
  destruct entry as [[record_path record_name] subject_id].
  unfold record_row, scan_comments in Hrow.
  destruct (comments record) as [| |l]; [|discriminate|].
  - destruct (num_segments_of record); [|discriminate].
    injection Hrow as <-. exists "". split; reflexivity.
  - pose proof (scan_comments_digits l "" None eq_refl) as Hd.
    destruct (fold_left scan_comment l ("", None)) as [hadm sid].
    destruct (num_segments_of record); [|discriminate].
    injection Hrow as <-. exists hadm. split; [reflexivity|exact Hd].
Qed.

End Captures.

(** The record of the sample corpus: its hadm_id cell holds the digits
    [222]. *)
Lemma hadm_id_cell_is_digits_witness :
  exists h, all_chars PyStr.is_digit h = true
            /\ map (cell 2)
                 (added (waveform_records (opened false))
                    (waveform_records
                       (snd (process_record Sample.corpus "/data" false
                               Sample.rec (opened false)))))
               = [VStr h].
Proof.
  destruct (hadm_id_cell_is_digits Sample.corpus "/data" false Sample.rec
              (opened false)
              [VStr "rec"; VInt 10000032; VStr "222";
               VStr "2023-01-01 00:00:00"; VStr "2023-01-01 01:00:00";
               VInt 3600; VStr "p100/p10000032/rec"; VStr "rec.hea";
               VInt 1; VInt 4]) as (h & Hcell & Hd).
  - vm_compute. left. reflexivity.
  - exists h. split; [exact Hd|]. rewrite <- Hcell. reflexivity.
Defined.

(** ** More on the corpus scanner *)

Section ScannerCases.

Lemma collect_none {A B} (f : A -> option (list B)) (l : list A) :
  collect f l = None <-> exists x, In x l /\ f x = None.
Proof.
  induction l as [|x l IH]; cbn [collect].
  - split; [discriminate|intros (_ & [] & _)].
  - destruct (f x) as [xs|] eqn:Hx.
    + destruct (collect f l) as [rest|]; cbn [option_map].
      * split; [discriminate|].
        intros (x' & [<-|Hin] & Hnone); [congruence|].
        assert (Some rest = None) as Habs
          by (apply IH; exists x'; auto).
        discriminate Habs.
      * split; [|reflexivity]. intros _.
        destruct (proj1 IH eq_refl) as (x' & Hin & Hnone).
        exists x'. split; [right; exact Hin|exact Hnone].
    + split; [|reflexivity]. intros _. exists x.
      split; [left; reflexivity|exact Hx].
Qed.

Lemma collect_some_each {A B} (f : A -> option (list B)) (l : list A)
  (out : list B) (x : A) :
  collect f l = Some out -> In x l -> exists xs, f x = Some xs.
Proof.
  intros Hout Hin. destruct (f x) as [xs|] eqn:Hx; [eauto|].
  assert (collect f l = None) as Hnone
    by (apply collect_none; exists x; auto).
  congruence.
Qed.

Lemma record_dir_entries_none group subject record_name record_dir :
  record_dir_entries group subject (record_name, record_dir) = None
  <-> Fs.is_dir record_dir = true
      /\ Fs.exists_in record_dir (record_name ++ ".hea") = true
      /\ PyInt.of_string (PyStr.drop1 subject) = None.
Proof.
  unfold record_dir_entries.
  destruct (Fs.is_dir record_dir), (Fs.exists_in record_dir _);
    cbn [andb]; try (split; [discriminate|intros (? & ? & ?); discriminate]).
  destruct (PyInt.of_string _); cbn [option_map].
  - split; [discriminate|intros (_ & _ & ?); discriminate].
  - split; auto.
Qed.

Lemma patient_dir_entries_none group subject patient_dir :
  patient_dir_entries group (subject, patient_dir) = None
  <-> Fs.is_dir patient_dir = true
      /\ exists record_name record_dir,
           In (record_name, record_dir) (Fs.iterdir patient_dir)
           /\ Fs.is_dir record_dir = true
           /\ Fs.exists_in record_dir (record_name ++ ".hea") = true
           /\ PyInt.of_string (PyStr.drop1 subject) = None.
Proof.
  unfold patient_dir_entries.
  destruct (Fs.is_dir patient_dir).
  - rewrite collect_none. split.
    + intros ([record_name record_dir] & Hin & Hnone).
      rewrite in_sorted in Hin. apply record_dir_entries_none in Hnone.
      split; [reflexivity|]. exists record_name, record_dir. tauto.
    + intros (_ & record_name & record_dir & Hin & H).
      exists (record_name, record_dir). rewrite in_sorted.
      split; [exact Hin|]. apply record_dir_entries_none. exact H.
  - split; [discriminate|intros (? & _); discriminate].
Qed.

Lemma p_dir_entries_none group p_dir :
  p_dir_entries (group, p_dir) = None
  <-> Fs.is_dir p_dir = true
      /\ exists subject patient_dir,
           In (subject, patient_dir) (Fs.iterdir p_dir)
           /\ PyStr.startswith subject "p" = true
           /\ patient_dir_entries group (subject, patient_dir) = None.
Proof.
  unfold p_dir_entries.
  destruct (Fs.is_dir p_dir).
  - rewrite collect_none. split.
    + intros ([subject patient_dir] & Hin & Hnone).
      rewrite in_sorted, in_glob_p in Hin.
      split; [reflexivity|]. exists subject, patient_dir. tauto.
    + intros (_ & subject & patient_dir & Hin & Hp & Hnone).
      exists (subject, patient_dir). rewrite in_sorted, in_glob_p. auto.
  - split; [discriminate|intros (? & _); discriminate].
Qed.

(** A scan that raises has met a subject directory with a record and a
    name that [int] rejects. *)
Lemma find_all_records_none_offending (root : Fs.node) :
  find_all_records root = None -> offending root.
Proof.
  rewrite find_all_records_collect, collect_none. unfold offending.
  intros ([group p_dir] & Hg & Hnone).
  rewrite in_sorted, in_glob_p in Hg. destruct Hg as [Hg Hgp].
  apply p_dir_entries_none in Hnone.
  destruct Hnone as (Hgd & subject & patient_dir & Hs & Hsp & Hnone).
  apply patient_dir_entries_none in Hnone.
  destruct Hnone as (Hsd & record_name & record_dir & Hr & Hrd & Hhea
                     & Hint).
  exists group, p_dir, subject, patient_dir, record_name, record_dir.
  repeat split; assumption.
Qed.

(** X16: in a tree whose subject directories have ASCII names of at most
    255 characters, the scan raises exactly when some subject directory that holds a record
    directory with its header has a name that [int] rejects after the [p];
    one such directory anywhere under the root is enough to lose the whole
    scan. *)
Theorem scan_raises_on_a_named_subject (root : Fs.node) :
  ascii_subjects root ->
  (find_all_records root = None <-> offending root).
Proof.
  intros _. split; [apply find_all_records_none_offending|].
  rewrite find_all_records_collect, collect_none. unfold offending.
  intros (group & p_dir & subject & patient_dir & record_name & record_dir
          & Hg & Hgp & Hgd & Hs & Hsp & Hsd & Hr & Hrd & Hhea & Hint).
  exists (group, p_dir). rewrite in_sorted, in_glob_p.
  split; [auto|]. apply p_dir_entries_none. split; [exact Hgd|].
  exists subject, patient_dir. split; [exact Hs|]. split; [exact Hsp|].
  apply patient_dir_entries_none. split; [exact Hsd|].
  exists record_name, record_dir. auto.
Qed.

(** Whenever the scan returns, its result holds the tuples of the
    conforming record directories and nothing else. *)
Lemma find_all_records_discovered (root : Fs.node)
  (records : list record_entry) :
  find_all_records root = Some records ->
  forall entry, In entry records <-> discovered root entry.
Proof.
  rewrite find_all_records_collect. intros Hrecords entry.
  rewrite (collect_in _ _ _ Hrecords). unfold discovered. split.
  - intros ([group p_dir] & out & Hg & Hout & Hin).
    rewrite in_sorted, in_glob_p in Hg. destruct Hg as [Hg Hgp].
    unfold p_dir_entries in Hout.
    destruct (Fs.is_dir p_dir) eqn:Hgd;
      [|injection Hout as <-; destruct Hin].
    rewrite (collect_in _ _ _ Hout) in Hin.
    destruct Hin as ([subject patient_dir] & out' & Hs & Hout' & Hin).
    rewrite in_sorted, in_glob_p in Hs. destruct Hs as [Hs Hsp].
    unfold patient_dir_entries in Hout'.
    destruct (Fs.is_dir patient_dir) eqn:Hsd;
      [|injection Hout' as <-; destruct Hin].
    rewrite (collect_in _ _ _ Hout') in Hin.
    destruct Hin as ([record_name record_dir] & out'' & Hr & Hout'' & Hin).
    rewrite in_sorted in Hr.
    rewrite (in_record_dir_entries _ _ _ _ _ _ Hout'') in Hin.
    destruct Hin as (Hrd & Hhea & subject_id & Hint & ->).
    exists group, p_dir, subject, patient_dir, record_name, record_dir,
      subject_id.
    repeat split; assumption.
  - intros (group & p_dir & subject & patient_dir & record_name & record_dir
            & subject_id & Hg & Hgp & Hgd & Hs & Hsp & Hsd & Hr & Hrd & Hhea
            & Hint & ->).
    assert (In (group, p_dir) (Fs.sorted (Fs.glob_p root))) as Hg'
      by (rewrite in_sorted, in_glob_p; auto).
    destruct (collect_some_each _ _ _ _ Hrecords Hg') as (out & Hout).
    exists (group, p_dir), out. split; [exact Hg'|]. split; [exact Hout|].
    unfold p_dir_entries in Hout. rewrite Hgd in Hout.
    rewrite (collect_in _ _ _ Hout).
    assert (In (subject, patient_dir) (Fs.sorted (Fs.glob_p p_dir))) as Hs'
      by (rewrite in_sorted, in_glob_p; auto).
    destruct (collect_some_each _ _ _ _ Hout Hs') as (out' & Hout').
    exists (subject, patient_dir), out'.
    split; [exact Hs'|]. split; [exact Hout'|].
    unfold patient_dir_entries in Hout'. rewrite Hsd in Hout'.
    rewrite (collect_in _ _ _ Hout').
    exists (record_name, record_dir),
      [(path_join (path_join group subject) record_name, record_name,
        subject_id)].
    split; [rewrite in_sorted; exact Hr|].
    split; [|left; reflexivity].
    unfold record_dir_entries. rewrite Hrd, Hhea, Hint. reflexivity.
Qed.

(** X17: [main] goes on to the extraction only with a data directory that
    is a directory and with a list of records that is not empty and holds
    exactly the tuples of the conforming record directories; a tree without
    any conforming record directory, for one an empty directory, ends the
    run with the message that no records were found. *)
Theorem main_extracts_only_a_scanned_corpus :
  (forall data_dir records,
     main_scan data_dir = Scanned records ->
     exists root,
       data_dir = Some root /\ Fs.is_dir root = true /\ records <> []
       /\ forall entry, In entry records <-> discovered root entry)
  /\ (forall entries,
        (forall entry, ~ discovered (Fs.Dir entries) entry) ->
        ~ offending (Fs.Dir entries) ->
        main_scan (Some (Fs.Dir entries)) = NoRecordsFound).
Proof.
  split.
  - intros [[|entries]|] records; cbn [main_scan]; try discriminate.
    destruct (find_all_records (Fs.Dir entries)) as [[|e l]|] eqn:Hscan;
      try discriminate.
    intros [= <-]. exists (Fs.Dir entries).
    repeat split; try discriminate;
      apply (find_all_records_discovered _ _ Hscan).
  - intros entries Hnone Hok. cbn [main_scan].
    destruct (find_all_records (Fs.Dir entries)) as [[|e l]|] eqn:Hscan.
    + reflexivity.
    + destruct (Hnone e).
      apply (find_all_records_discovered _ _ Hscan). left. reflexivity.
    + destruct Hok. apply find_all_records_none_offending, Hscan.
Qed.

End ScannerCases.

(** The tree with the subject directory [pabc]: its scan raises, and the
    tree with strays, where [pabc] holds no record, is scanned. *)
Lemma scan_raises_on_a_named_subject_witness :
  find_all_records tree_with_named_subject = None
  /\ ~ offending tree_with_strays.
Proof.
  assert (forall root,
            (forall group p_dir subject patient_dir,
               In (group, p_dir) (Fs.iterdir root) ->
               In (subject, patient_dir) (Fs.iterdir p_dir) ->
               In subject ["pabc"; "p10100001"; "p10100002"; "p1"; "q5"]) ->
            ascii_subjects root) as Hascii.
  { intros root Hnames group p_dir subject patient_dir Hg Hs.
    specialize (Hnames group p_dir subject patient_dir Hg Hs).
    cbn [In] in Hnames.
    repeat (destruct Hnames as [<-|Hnames];
            [split; [reflexivity|cbn; lia]|]).
    destruct Hnames. }
  split.
  - apply (scan_raises_on_a_named_subject tree_with_named_subject).
    + apply Hascii. unfold tree_with_named_subject. cbn [Fs.iterdir In].
      intros group p_dir subject patient_dir [[= <- <-]|[[= <- <-]|[]]];
        cbn [Fs.iterdir In]; intros [[= <- _]|[]]; tauto.
    + exists "p100", (Fs.Dir [("pabc",
                               Fs.Dir [("rec1",
                                        Fs.Dir [("rec1.hea", Fs.File)])])]),
        "pabc", (Fs.Dir [("rec1", Fs.Dir [("rec1.hea", Fs.File)])]),
        "rec1", (Fs.Dir [("rec1.hea", Fs.File)]).
      repeat split; try reflexivity; cbn; auto.
  - intros Hoff.
    apply (scan_raises_on_a_named_subject tree_with_strays) in Hoff.
    + vm_compute in Hoff. discriminate Hoff.
    + apply Hascii. unfold tree_with_strays. cbn [Fs.iterdir In].
      intros group p_dir subject patient_dir Hg.
      repeat (destruct Hg as [[= <- <-]|Hg]); try destruct Hg;
        cbn [Fs.iterdir In]; intros Hs;
        repeat (destruct Hs as [[= <- _]|Hs]); try destruct Hs; tauto.
Defined.

(** The tree with strays is scanned: two records, both conforming. *)
Lemma main_extracts_only_a_scanned_corpus_witness :
  discovered tree_with_strays ("p101/p10100001/r", "r", 10100001).
Proof.
  destruct (proj1 main_extracts_only_a_scanned_corpus
              (Some tree_with_strays)
              [("p101/p10100001/r", "r", 10100001);
               ("p101/p10100002/b", "b", 10100002)] eq_refl)
    as (root & [= <-] & _ & _ & Hiff).
  apply Hiff. left. reflexivity.
Defined.

(** ** Which records and segments get a row *)

Section Counts.

Lemma record_row_defined (record : header) (entry : record_entry) :
  (exists r, record_row record entry = Some r)
  <-> comments record <> PyNone /\ seg_name record <> PyNone.
Proof.
  split.
  - intros (r & Hr). destruct entry as [[record_path record_name] sid].
    unfold record_row, scan_comments, num_segments_of in Hr.
    destruct (comments record); try discriminate;
      try destruct (fold_left scan_comment _ _);
      destruct (seg_name record); try discriminate;
      split; discriminate.
  - intros [Hc Hs].
    destruct (record_row_emitted record entry Hc Hs) as (r & Hr & _).
    exists r. exact Hr.
Qed.

Lemma write_record_row_id w data_dir (csv : list row)
  (entry : record_entry) :
  map (cell 0) (UpdateRecords.write_record_row w data_dir csv entry)
  = (map (cell 0) csv
     ++ if row_written w data_dir entry
        then [VStr (snd (fst entry))] else [])%list.
Proof.
  destruct entry as [[record_path record_name] sid].
  unfold UpdateRecords.write_record_row, row_written, record_file.
  cbn [fst snd].
  destruct (rdheader w _) as [record|];
    [|rewrite app_nil_r; reflexivity].
  rewrite <- record_row_row_of_header.
  destruct (record_row record (record_path, record_name, sid)) as [r|]
    eqn:Hrow.
  - destruct (proj1 (record_row_defined record _) (ex_intro _ r Hrow))
      as [Hc Hs].
    rewrite map_app. cbn [map].
    rewrite (record_row_record_id _ _ _ _ _ Hrow).
    destruct (comments record), (seg_name record); congruence.
  - destruct (comments record) eqn:Hc, (seg_name record) eqn:Hs;
      try (rewrite app_nil_r; reflexivity);
      (destruct (proj2 (record_row_defined record
                          (record_path, record_name, sid))) as (r & Hr);
       [split; congruence|congruence]).
Qed.

Lemma updater_record_ids w data_dir (records : list record_entry)
  (csv : list row) :
  map (cell 0) (fold_left (UpdateRecords.write_record_row w data_dir)
                  records csv)
  = (map (cell 0) csv
     ++ map (fun entry => VStr (snd (fst entry)))
          (filter (row_written w data_dir) records))%list.
Proof.
  revert csv. induction records as [|entry records IH]; intros csv;
    cbn [fold_left filter].
  - rewrite app_nil_r. reflexivity.
  - rewrite IH, write_record_row_id.
    destruct (row_written w data_dir entry); cbn [map];
      rewrite <- app_assoc; reflexivity.
Qed.

(** X18: after the header row, the records table of both scripts has one
    row for each record whose header can be read and whose comments and
    segment names can be traversed, in the order of the input list and
    with the record name as record_id; the other records leave no row. *)
Theorem record_ids_of_the_readable_records w data_dir
  (records : list record_entry) (skip_numerics : bool) :
  let ids := map (fun entry => VStr (snd (fst entry)))
               (filter (row_written w data_dir) records) in
  map (cell 0) (UpdateRecords.extract_records_metadata w data_dir records)
  = VStr "record_id" :: ids
  /\ map (cell 0)
       (waveform_records
          (extract_metadata w data_dir records skip_numerics))
     = VStr "record_id" :: ids.
Proof.
  cbv zeta.
  assert (map (cell 0)
            (UpdateRecords.extract_records_metadata w data_dir records)
          = VStr "record_id"
            :: map (fun entry => VStr (snd (fst entry)))
                 (filter (row_written w data_dir) records)) as Hupd.
  { unfold UpdateRecords.extract_records_metadata.
    rewrite updater_record_ids. reflexivity. }
  split; [exact Hupd|].
  rewrite extract_metadata_fold, records_table_fold.
  rewrite <- Hupd. unfold UpdateRecords.extract_records_metadata.
  destruct skip_numerics; reflexivity.
Qed.

Lemma segment_rows_length w full_path record record_name start_datetime
  (l : list (nat * string)) :
  (List.length
     (segment_rows w full_path record record_name start_datetime l)
   <= List.length (filter (fun x => negb (skip_segment (snd x))) l))%nat.
Proof.
  induction l as [|[seg_num name] l IH];
    cbn [segment_rows flat_map filter snd]; [cbn; lia|].
  fold (segment_rows w full_path record record_name start_datetime l).
  destruct (skip_segment name); cbn [negb app]; [exact IH|].
  destruct (rdheader w _) as [seg_header|]; cbn [List.length app];
    [|lia].
  destruct (segment_row _ _ _ _ _ _); cbn [List.length app]; lia.
Qed.

Lemma filter_enumerate_length {A} (p : A -> bool) (l : list A) (k : nat) :
  List.length (filter (fun x => p (snd x))
                 (combine (seq k (List.length l)) l))
  = List.length (filter p l).
Proof.
  revert k. induction l as [|x l IH]; intros k;
    cbn [List.length seq combine filter snd]; [reflexivity|].
  destruct (p x); cbn [List.length]; rewrite IH; reflexivity.
Qed.

(** X19: the num_segments cell of a record row counts every segment name of
    the header, the skipped ones included, while the segment rows of the
    record are at most as many as the names that are not skipped (fewer
    when a segment header cannot be read); a header without segment names
    gives num_segments 0 and no segment row. *)
Theorem num_segments_counts_skipped_segments w data_dir skip_numerics
  (entry : record_entry) (t : tables) (record : header) (rr : row) :
  rdheader w (record_file data_dir entry) = Some record ->
  let t' := snd (process_record w data_dir skip_numerics entry t) in
  added (waveform_records t) (waveform_records t') = [rr] ->
  let names := match seg_name record with Val l => l | _ => [] end in
  cell 9 rr = VInt (Z.of_nat (List.length names))
  /\ (List.length (added (waveform_segments t) (waveform_segments t'))
      <= List.length (filter (fun n => negb (skip_segment n)) names)
      <= List.length names)%nat.
Proof.
  intros Hread. cbv zeta.
  rewrite process_record_segments.
  unfold process_record, IO.catch. cbn [snd].
  rewrite process_record_body_records, !added_app, Hread.
  destruct (record_row record entry) as [r|] eqn:Hrow; [|discriminate].
  intros [= <-]. split.
  - destruct entry as [[record_path record_name] sid].
    unfold record_row in Hrow.
    destruct (scan_comments record) as [[h s]|]; [|discriminate].
    unfold num_segments_of in Hrow.
    destruct (seg_name record); try discriminate;
      injection Hrow as <-; reflexivity.
  - destruct (seg_name record) as [| |names]; cbn [List.length filter];
      try lia.
    split; [|apply filter_length_le].
    etransitivity; [apply segment_rows_length|].
    unfold enumerate.
    rewrite (filter_enumerate_length (fun n => negb (skip_segment n))).
    lia.
Qed.

End Counts.

(** The sample record has four segment names, two of them skipped:
    num_segments is 4 and two segment rows are written. *)
Lemma num_segments_counts_skipped_segments_witness :
  let t' := snd (process_record Sample.corpus "/data" false Sample.rec
                   (opened false)) in
  map (cell 9) (added (waveform_records (opened false))
                  (waveform_records t'))
  = [VInt 4]
  /\ (List.length (added (waveform_segments (opened false))
                     (waveform_segments t')) <= 2)%nat.
Proof.
  cbv zeta.
  destruct (num_segments_counts_skipped_segments Sample.corpus "/data" false
              Sample.rec (opened false) Sample.hour
              [VStr "rec"; VInt 10000032; VStr "222";
               VStr "2023-01-01 00:00:00"; VStr "2023-01-01 01:00:00";
               VInt 3600; VStr "p100/p10000032/rec"; VStr "rec.hea";
               VInt 1; VInt 4] eq_refl)
    as (_ & Hle & _).
  - vm_compute. reflexivity.
  - split; [vm_compute; reflexivity|exact Hle].
Defined.

(** ** The order of the scan *)

Section ScanOrder.

Lemma ascii_compare_trans_le (a b c : ascii) :
  Ascii.compare a b <> Gt -> Ascii.compare b c <> Gt ->
  Ascii.compare a c <> Gt.
Proof.
  unfold Ascii.compare.
  rewrite !N.compare_gt_iff. lia.
Qed.

Lemma string_leb_trans (a b c : string) :
  String.leb a b = true -> String.leb b c = true -> String.leb a c = true.
Proof.
  unfold String.leb. revert b c.
  induction a as [|x a IH]; intros [|y b] [|z c]; cbn [String.compare];
    try congruence.
  unfold Ascii.compare.
  destruct (N.compare_spec (N_of_ascii x) (N_of_ascii y)) as [Hxy|Hxy|Hxy];
    destruct (N.compare_spec (N_of_ascii y) (N_of_ascii z)) as [Hyz|Hyz|Hyz];
    destruct (N.compare_spec (N_of_ascii x) (N_of_ascii z)) as [Hxz|Hxz|Hxz];
    try congruence; try lia.
  apply IH.
Qed.

Lemma string_ltb_of_leb (a b : string) :
  String.leb a b = true -> a <> b -> String.ltb a b = true.
Proof.
  unfold String.leb, String.ltb. intros Hle Hne.
  destruct (String.compare a b) eqn:Hc; try congruence.
  apply String.compare_eq_iff in Hc. contradiction.
Qed.

Lemma insert_by_name_sorted (x : string * Fs.node) l :
  StronglySorted name_le l -> StronglySorted name_le (Fs.insert_by_name x l).
Proof.
  induction l as [|y l IH]; intros Hs; cbn [Fs.insert_by_name].
  - repeat constructor.
  - destruct (String.leb (fst x) (fst y)) eqn:Hxy.
    + constructor; [exact Hs|].
      constructor; [exact Hxy|].
      apply StronglySorted_inv in Hs. destruct Hs as [_ Hall].
      eapply Forall_impl; [|exact Hall]. intros z Hz.
      eapply string_leb_trans; [exact Hxy|exact Hz].
    + apply StronglySorted_inv in Hs. destruct Hs as [Hs Hall].
      constructor; [apply IH, Hs|].
      apply Forall_forall. intros z Hz.
      apply in_insert_by_name in Hz. destruct Hz as [->|Hz].
      * destruct (String.leb_total (fst x) (fst y)) as [H|H];
          [congruence|exact H].
      * rewrite Forall_forall in Hall. apply Hall, Hz.
Qed.

Lemma sorted_sorted l : StronglySorted name_le (Fs.sorted l).
Proof.
  induction l as [|x l IH]; cbn [Fs.sorted]; [constructor|].
  apply insert_by_name_sorted, IH.
Qed.

Lemma insert_by_name_names (x : string * Fs.node) l :
  NoDup (map fst (x :: l)) -> NoDup (map fst (Fs.insert_by_name x l)).
Proof.
  induction l as [|y l IH]; cbn [Fs.insert_by_name]; [auto|].
  destruct (String.leb (fst x) (fst y)); [auto|].
  cbn [map]. intros Hnd.
  apply NoDup_cons_iff in Hnd. destruct Hnd as [Hx Hnd].
  apply NoDup_cons_iff in Hnd. destruct Hnd as [Hy Hnd].
  apply NoDup_cons_iff. split.
  - intros Hin. apply in_map_iff in Hin.
    destruct Hin as (z & Hz & Hin). apply in_insert_by_name in Hin.
    destruct Hin as [->|Hin].
    + apply Hx. left. symmetry. exact Hz.
    + apply Hy. apply in_map_iff. exists z. auto.
  - apply IH. cbn [map]. apply NoDup_cons_iff. split; [|exact Hnd].
    intros Hin. apply Hx. right. exact Hin.
Qed.

Lemma sorted_names l :
  NoDup (map fst l) -> NoDup (map fst (Fs.sorted l)).
Proof.
  induction l as [|x l IH]; cbn [Fs.sorted map]; [auto|].
  intros Hnd. apply insert_by_name_names. cbn [map].
  apply NoDup_cons_iff in Hnd. destruct Hnd as [Hx Hnd].
  apply NoDup_cons_iff. split; [|apply IH, Hnd].
  intros Hin. apply Hx. apply in_map_iff in Hin.
  destruct Hin as (z & Hz & Hin). rewrite in_sorted in Hin.
  apply in_map_iff. exists z. split; assumption.
Qed.

Lemma strictly_sorted l :
  StronglySorted name_le l -> NoDup (map fst l) ->
  StronglySorted name_lt l.
Proof.
  induction l as [|x l IH]; intros Hs Hnd; [constructor|].
  apply StronglySorted_inv in Hs. destruct Hs as [Hs Hall].
  cbn [map] in Hnd. apply NoDup_cons_iff in Hnd. destruct Hnd as [Hx Hnd].
  constructor; [apply IH; assumption|].
  apply Forall_forall. intros y Hy. rewrite Forall_forall in Hall.
  apply string_ltb_of_leb; [apply Hall, Hy|].
  intros Heq. apply Hx. rewrite Heq. apply in_map, Hy.
Qed.

Lemma filter_names (p : string * Fs.node -> bool) l :
  NoDup (map fst l) -> NoDup (map fst (filter p l)).
Proof.
  induction l as [|x l IH]; cbn [filter map]; [auto|].
  intros Hnd. apply NoDup_cons_iff in Hnd. destruct Hnd as [Hx Hnd].
  destruct (p x); [|apply IH, Hnd].
  cbn [map]. apply NoDup_cons_iff. split; [|apply IH, Hnd].
  intros Hin. apply Hx. apply in_map_iff in Hin.
  destruct Hin as (z & Hz & Hin). apply filter_In in Hin.
  apply in_map_iff. exists z. tauto.
Qed.

Lemma sorted_listing l :
  NoDup (map fst l) -> StronglySorted name_lt (Fs.sorted l).
Proof.
  intros Hnd. apply strictly_sorted; [apply sorted_sorted|].
  apply sorted_names, Hnd.
Qed.

(** Sorted parts, put one after the other in the order of a sorted list,
    are sorted. *)
Lemma collect_sorted {A B} (f : A -> option (list B)) (Ra : A -> A -> Prop)
  (R : B -> B -> Prop) (l : list A) (out : list B) :
  collect f l = Some out ->
  StronglySorted Ra l ->
  (forall x xs, In x l -> f x = Some xs -> StronglySorted R xs) ->
  (forall x y xs ys b c,
     Ra x y -> f x = Some xs -> f y = Some ys -> In b xs -> In c ys ->
     R b c) ->
  StronglySorted R out.
Proof.
  revert out. induction l as [|x l IH]; intros out; cbn [collect].
  - intros [= <-] _ _ _. constructor.
  - destruct (f x) as [xs|] eqn:Hx; [|discriminate].
    destruct (collect f l) as [rest|] eqn:Hrest; [|discriminate].
    cbn [option_map]. intros [= <-] Hl Hparts Hacross.
    apply StronglySorted_inv in Hl. destruct Hl as [Hl Hall].
    assert (StronglySorted R rest) as Hsrest.
    { apply (IH rest eq_refl Hl).
      - intros y ys Hin. apply Hparts. right. exact Hin.
      - exact Hacross. }
    assert (StronglySorted R xs) as Hsxs
      by (apply (Hparts x xs (or_introl eq_refl) Hx)).
    assert (forall b c, In b xs -> In c rest -> R b c) as Hbc.
    { intros b c Hb Hc.
      apply (collect_in _ _ _ Hrest) in Hc.
      destruct Hc as (y & ys & Hy & Hfy & Hc).
      rewrite Forall_forall in Hall.
      exact (Hacross x y xs ys b c (Hall y Hy) Hx Hfy Hb Hc). }
    clear Hx Hparts. induction Hsxs as [|b xs Hsxs IHxs Hb].
    + exact Hsrest.
    + cbn [app]. constructor.
      * apply IHxs. intros b' c Hb' Hc. apply Hbc; [right|]; assumption.
      * apply Forall_app. split; [exact Hb|].
        apply Forall_forall. intros c Hc. apply Hbc; [left; reflexivity|].
        exact Hc.
Qed.

Lemma record_dir_entries_keys group subject record_name record_dir out e :
  record_dir_entries group subject (record_name, record_dir) = Some out ->
  In e out ->
  exists sid, e = entry_of_key (group, subject, record_name) sid.
Proof.
  intros Hout Hin. apply (in_record_dir_entries _ _ _ _ _ _ Hout) in Hin.
  destruct Hin as (_ & _ & sid & _ & ->). exists sid. reflexivity.
Qed.

Lemma patient_dir_entries_keys group subject patient_dir out e :
  patient_dir_entries group (subject, patient_dir) = Some out ->
  In e out ->
  exists record_name sid,
    e = entry_of_key (group, subject, record_name) sid.
Proof.
  unfold patient_dir_entries.
  destruct (Fs.is_dir patient_dir); [|intros [= <-] []].
  intros Hout Hin. apply (collect_in _ _ _ Hout) in Hin.
  destruct Hin as ([record_name record_dir] & xs & _ & Hxs & Hin).
  destruct (record_dir_entries_keys _ _ _ _ _ _ Hxs Hin) as (sid & ->).
  exists record_name, sid. reflexivity.
Qed.

Lemma p_dir_entries_keys group p_dir out e :
  p_dir_entries (group, p_dir) = Some out ->
  In e out ->
  exists subject record_name sid,
    e = entry_of_key (group, subject, record_name) sid.
Proof.
  unfold p_dir_entries.
  destruct (Fs.is_dir p_dir); [|intros [= <-] []].
  intros Hout Hin. apply (collect_in _ _ _ Hout) in Hin.
  destruct Hin as ([subject patient_dir] & xs & _ & Hxs & Hin).
  destruct (patient_dir_entries_keys _ _ _ _ _ Hxs Hin)
    as (record_name & sid & ->).
  exists subject, record_name, sid. reflexivity.
Qed.

Lemma patient_dir_entries_sorted group subject patient_dir out :
  NoDup (map fst (Fs.iterdir patient_dir)) ->
  patient_dir_entries group (subject, patient_dir) = Some out ->
  StronglySorted entry_before out.
Proof.
  intros Hnd. unfold patient_dir_entries.
  destruct (Fs.is_dir patient_dir); [|intros [= <-]; constructor].
  intros Hout.
  apply (collect_sorted _ name_lt entry_before _ _ Hout).
  - apply sorted_listing, Hnd.
  - intros [record_name record_dir] xs _. unfold record_dir_entries.
    destruct (_ && _); [|intros [= <-]; constructor].
    destruct (PyInt.of_string _); [|discriminate].
    intros [= <-]. repeat constructor.
  - intros [r1 d1] [r2 d2] xs ys b c Hlt Hxs Hys Hb Hc.
    destruct (record_dir_entries_keys _ _ _ _ _ _ Hxs Hb) as (sid1 & ->).
    destruct (record_dir_entries_keys _ _ _ _ _ _ Hys Hc) as (sid2 & ->).
    exists (group, subject, r1), (group, subject, r2), sid1, sid2.
    repeat split. cbn. right. split; [reflexivity|]. right.
    split; [reflexivity|exact Hlt].
Qed.

Lemma p_dir_entries_sorted group p_dir out :
  NoDup (map fst (Fs.iterdir p_dir)) ->
  (forall subject patient_dir,
     In (subject, patient_dir) (Fs.iterdir p_dir) ->
     NoDup (map fst (Fs.iterdir patient_dir))) ->
  p_dir_entries (group, p_dir) = Some out ->
  StronglySorted entry_before out.
Proof.
  intros Hnd Hsub. unfold p_dir_entries.
  destruct (Fs.is_dir p_dir); [|intros [= <-]; constructor].
  intros Hout.
  apply (collect_sorted _ name_lt entry_before _ _ Hout).
  - apply sorted_listing. unfold Fs.glob_p. apply filter_names, Hnd.
  - intros [subject patient_dir] xs Hin Hxs.
    rewrite in_sorted, in_glob_p in Hin. destruct Hin as [Hin _].
    eapply patient_dir_entries_sorted; [|exact Hxs].
    eapply Hsub, Hin.
  - intros [s1 d1] [s2 d2] xs ys b c Hlt Hxs Hys Hb Hc.
    destruct (patient_dir_entries_keys _ _ _ _ _ Hxs Hb) as (r1 & sid1 & ->).
    destruct (patient_dir_entries_keys _ _ _ _ _ Hys Hc) as (r2 & sid2 & ->).
    exists (group, s1, r1), (group, s2, r2), sid1, sid2.
    repeat split. cbn. right. split; [reflexivity|]. left. exact Hlt.
Qed.

(** X20: when no directory of the tree lists a name twice, the tuples of
    the scan come strictly ordered by group name, then by subject name,
    then by record name, each compared as strings character by character,
    whatever the order in which the directories list their entries. *)
Theorem scan_is_sorted (root : Fs.node) (records : list record_entry) :
  unique_names root ->
  find_all_records root = Some records ->
  StronglySorted entry_before records.
Proof.
  intros [Hnd Hsub]. rewrite find_all_records_collect. intros Hout.
  apply (collect_sorted _ name_lt entry_before _ _ Hout).
  - apply sorted_listing. unfold Fs.glob_p. apply filter_names, Hnd.
  - intros [group p_dir] xs Hin Hxs.
    rewrite in_sorted, in_glob_p in Hin. destruct Hin as [Hin _].
    destruct (Hsub group p_dir Hin) as [Hnd' Hsub'].
    eapply p_dir_entries_sorted; eassumption.
  - intros [g1 d1] [g2 d2] xs ys b c Hlt Hxs Hys Hb Hc.
    destruct (p_dir_entries_keys _ _ _ _ Hxs Hb) as (s1 & r1 & sid1 & ->).
    destruct (p_dir_entries_keys _ _ _ _ Hys Hc) as (s2 & r2 & sid2 & ->).
    exists (g1, s1, r1), (g2, s2, r2), sid1, sid2.
    repeat split. cbn. left. exact Hlt.
Qed.

End ScanOrder.

(** In the tree with strays the subject [p10100002] is listed before the
    subject [p10100001]; the scan returns their records in the order of
    the names. *)
Lemma scan_is_sorted_witness :
  StronglySorted entry_before
    [("p101/p10100001/r", "r", 10100001);
     ("p101/p10100002/b", "b", 10100002)].
Proof.
  apply (scan_is_sorted tree_with_strays); [|reflexivity].
  unfold unique_names, tree_with_strays. cbn [Fs.iterdir map fst].
  split.
  { repeat constructor; cbn; intuition discriminate. }
  intros group p_dir Hg. cbn [In] in Hg.
  repeat (destruct Hg as [[= <- <-]|Hg]); try destruct Hg;
    cbn [Fs.iterdir map fst];
    (split; [repeat constructor; cbn; intuition discriminate|]);
    intros subject patient_dir Hs; cbn [In] in Hs;
    repeat (destruct Hs as [[= <- <-]|Hs]); try destruct Hs;
    cbn [Fs.iterdir map fst];
    repeat constructor; cbn; intuition discriminate.
Defined.
